(** * Sanctions screening: matching, scoring, filtering and decision pipeline

    A shallow embedding of the screening core of the repository
    ([app/matching], [app/flagging], [app/config/thresholds.py]) together
    with the properties of its specification.

    Modelling conventions.
    - Scores have two models.  The pipeline as a whole (ranking,
      filtering, rules, decisions) is modelled with exact rationals ([Q]):
      what is proved there depends on the order of given scores and on
      the structure of the records.  The two functions whose
      specification is a formula on computed values, the risk score and
      the token score, are also modelled in binary64 floating point
      ([float], module [Binary64]), with the operations of the source in
      the order of the source, each rounding to nearest as Python does.
    - Python [str] values are modelled by [string]; [lower], [strip] and
      [split] follow Python on ASCII text.
    - A [dict] with conventionally absent keys is a record with [option]
      fields; [d.get(k, dflt)] is [default dflt (k d)].
    - An exception is an explicit [Raise] result.
    - The third-party metric functions ([rapidfuzz.fuzz]), the name
      preprocessor and the wall clock are interfaces (type classes). *)

From Stdlib Require Import Ascii String QArith Qminmax Qround Lqa.
From Stdlib Require Import Sorting.Sorted Sorting.Permutation.
From Stdlib Require Import Floats.
From stdpp Require Import base option list gmap strings pretty.

Local Open Scope string_scope.

(** ** Python string primitives (ASCII) *)

Module PyStr.

(** [str.isspace] on one ASCII character: TAB, LF, VT, FF, CR, the four
    separators 0x1c..0x1f and the blank. *)
Definition isspace (c : ascii) : bool :=
  match c with
  | "009" | "010" | "011" | "012" | "013"
  | "028" | "029" | "030" | "031" | " " => true
  | _ => false
  end%char.

(** [str.lower] on one ASCII character. *)
Definition lower_ascii (c : ascii) : ascii :=
  let n := nat_of_ascii c in
  if (65 <=? n)%nat && (n <=? 90)%nat then ascii_of_nat (n + 32) else c.

Fixpoint lower (s : string) : string :=
  match s with
  | "" => ""
  | String c s' => String (lower_ascii c) (lower s')
  end.

(** [str.upper] on one ASCII character. *)
Definition upper_ascii (c : ascii) : ascii :=
  let n := nat_of_ascii c in
  if (97 <=? n)%nat && (n <=? 122)%nat then ascii_of_nat (n - 32) else c.

Fixpoint upper (s : string) : string :=
  match s with
  | "" => ""
  | String c s' => String (upper_ascii c) (upper s')
  end.

Fixpoint lstrip (s : string) : string :=
  match s with
  | "" => ""
  | String c s' => if isspace c then lstrip s' else s
  end.

Definition rstrip (s : string) : string :=
  String.rev (lstrip (String.rev s)).

(** [s.strip()] *)
Definition strip (s : string) : string := rstrip (lstrip s).

(** [len(s)] *)
Definition len (s : string) : nat := String.length s.

(** [not s] for a string: the empty string is falsy. *)
Definition falsy (s : string) : bool :=
  match s with "" => true | _ => false end.

(** [needle in hay] *)
Fixpoint contains (needle hay : string) : bool :=
  String.prefix needle hay ||
  match hay with
  | "" => false
  | String _ hay' => contains needle hay'
  end.

(** [s.split()]: maximal runs of non-whitespace characters. *)
Fixpoint split_go (cur : option string) (s : string) : list string :=
  match s with
  | "" => option_list (String.rev <$> cur)
  | String c s' =>
      if isspace c
      then option_list (String.rev <$> cur) ++ split_go None s'
      else split_go (Some (String c (default "" cur))) s'
  end.

Definition split (s : string) : list string := split_go None s.

(** [x in xs] for a list or set literal of strings. *)
Definition member (x : string) (xs : list string) : bool :=
  bool_decide (x ∈ xs).

(** [a == b] on strings. *)
Definition eqb (a b : string) : bool := bool_decide (a = b).

End PyStr.

(** ** Numbers, exceptions *)

Local Open Scope Q_scope.
Local Open Scope list_scope.

(** Comparisons of Python floats, on the rational model. *)
Definition Qge_bool (a b : Q) : bool := Qle_bool b a.
Definition Qlt_bool (a b : Q) : bool := negb (Qle_bool b a).
Definition Qgt_bool (a b : Q) : bool := Qlt_bool b a.

(** [int] to [float]. *)
Definition Qnat (n : nat) : Q := inject_Z (Z.of_nat n).

(** [min(a, b)] and [max(a, b)] of Python: the first argument wins ties. *)
Definition py_min (a b : Q) : Q := if Qlt_bool b a then b else a.
Definition py_max (a b : Q) : Q := if Qgt_bool b a then b else a.

Inductive exn : Type :=
| ValueError (msg : string).

Inductive result (A : Type) : Type :=
| Ok (a : A)
| Raise (e : exn).
Arguments Ok {A} a.
Arguments Raise {A} e.

Global Instance result_ret : MRet result := fun _ a => Ok a.
Global Instance result_bind : MBind result := fun _ _ f r =>
  match r with
  | Ok a => f a
  | Raise e => Raise e
  end.

(** [max(xs, key=key)]: the first element with the greatest key;
    [ValueError] on an empty sequence. *)
Definition max_by {A} (key : A -> Q) (xs : list A) : result A :=
  match xs with
  | [] => Raise (ValueError "max() arg is an empty sequence")
  | x :: xs' =>
      Ok (fold_left (fun best y => if Qgt_bool (key y) (key best) then y else best) xs' x)
  end.

(** [max(xs, default=d)] on numbers. *)
Definition max_default (d : Q) (xs : list Q) : Q :=
  match xs with
  | [] => d
  | x :: xs' => fold_left py_max xs' x
  end.

(** ** [app/config/thresholds.py] *)

Module thresholds.
Definition EXACT_MATCH_THRESHOLD : Q := 100.
Definition HIGH_RISK_THRESHOLD : Q := 85.
Definition MEDIUM_RISK_THRESHOLD : Q := 70.
Definition LOW_RISK_THRESHOLD : Q := 60.

Definition MIN_NAME_LENGTH : nat := 3.
Definition REQUIRE_MANUAL_REVIEW_ABOVE : Q := HIGH_RISK_THRESHOLD.
Definition AUTO_CLEAR_BELOW : Q := LOW_RISK_THRESHOLD.

Definition LIST_PRIORITIES : gmap string Z :=
  <["OFAC" := 100%Z]> (<["UN" := 90%Z]> (<["HMT" := 80%Z]> (<["EU" := 70%Z]> ∅))).

(** [LIST_PRIORITIES.get(source, dflt)] *)
Definition list_priority_get (source : string) (dflt : Z) : Z :=
  default dflt (LIST_PRIORITIES !! source).
End thresholds.

(** ** Data model: the dictionaries of the source as records *)

(** One row of the sanctions data frame. *)
Module Row.
Record t : Type := mk {
  name : option string;
  normalized : option string;
  tokens : option (list string);
  source : option string;
  list_type : option string
}.
End Row.

(** The result of [NameProcessor.process_single]. *)
Module Profile.
Record t : Type := mk {
  original : string;
  cleaned : string;
  normalized : string;
  tokens : list string;
  variants : gset string
}.
End Profile.

(** An entry of [details['matched_tokens']]. *)
Module MatchedToken.
Record t : Type := mk {
  query : string;
  target : option string;
  score : Q
}.
End MatchedToken.

(** The [details] entry of a match: one shape per matcher. *)
Inductive Details : Type :=
| ExactDetails (exact_match : bool)
| FuzzyDetails (levenshtein partial token_sort token_set : Q)
| TokenDetails (matched_tokens : list MatchedToken.t) (match_ratio : option Q).

(** [match.get('details', {}).get('match_ratio', 0)] *)
Definition details_match_ratio (d : option Details) : Q :=
  match d with
  | Some (TokenDetails _ (Some r)) => r
  | _ => 0
  end.

(** A match dictionary: matcher output, row data added by the
    orchestrator, risk annotation added by the scorer. *)
Module Match.
Record t : Type := mk {
  match_type : option string;
  score : option Q;
  is_match : option bool;
  match_level : option string;
  details : option Details;
  target_name : option string;
  source : option string;
  list_type : option string;
  confidence : option string;
  risk_score : option Q;
  risk_level : option string
}.

(** [{**m, 'target_name': .., 'source': .., 'list_type': .., 'confidence': ..}] *)
Definition with_row (m : t) (tn src lt conf : string) : t :=
  mk (match_type m) (score m) (is_match m) (match_level m) (details m)
     (Some tn) (Some src) (Some lt) (Some conf) (risk_score m) (risk_level m).

(** [m['risk_score'] = rs; m['risk_level'] = rl] *)
Definition with_risk (m : t) (rs : Q) (rl : string) : t :=
  mk (match_type m) (score m) (is_match m) (match_level m) (details m)
     (target_name m) (source m) (list_type m) (confidence m) (Some rs) (Some rl).
End Match.

Module Breakdown.
Record t : Type := mk { HIGH : nat; MEDIUM : nat; LOW : nat }.
End Breakdown.

Module Summary.
Record t : Type := mk {
  total_matches : option nat;
  highest_risk : option string;
  highest_score : option Q;
  requires_review : option bool;
  can_auto_clear : option bool;
  risk_breakdown : option Breakdown.t
}.
End Summary.

Module Workflow.
Record t : Type := mk {
  queue : string;
  notification : bool;
  escalation_path : option string
}.
End Workflow.

Module Decision.
Record t : Type := mk {
  action : option string;
  reason : option string;
  timestamp : option string;
  confidence : option string;
  priority : option string;
  assigned_to : option string;
  match_details : option (option Match.t);
  filter_applied : option string;
  requires_approval : option bool;
  sla_hours : option Z;
  workflow : option Workflow.t
}.

(** [d['workflow'] = w] *)
Definition with_workflow (d : t) (w : Workflow.t) : t :=
  mk (action d) (reason d) (timestamp d) (confidence d) (priority d)
     (assigned_to d) (match_details d) (filter_applied d)
     (requires_approval d) (sla_hours d) (Some w).
End Decision.

Module RiskAssessment.
Record t : Type := mk {
  primary_concern : string;
  match_type : string;
  confidence_level : string
}.
End RiskAssessment.

Module Compliance.
Record t : Type := mk {
  screening_id : string;
  total_matches_found : nat;
  matches_after_filtering : nat;
  highest_risk_score : Q;
  decision_action : option string;
  decision_confidence : option string;
  requires_approval : bool;
  sla_hours : Z;
  applied_rule : option string;
  processing_time_ms : Z;
  risk_assessment : option RiskAssessment.t
}.
End Compliance.

(** The screening result dictionary, as it grows along the pipeline. *)
Module Screening.
Record t : Type := mk {
  query : string;
  processed_query : option Profile.t;
  matches : list Match.t;
  summary : Summary.t;
  filtered_count : option nat;
  decision : option Decision.t;
  applied_rule : option string;
  compliance : option Compliance.t
}.
End Screening.

(** ** Interfaces to collaborators outside the modelled core *)

(** The four metric functions of [rapidfuzz.fuzz]. *)
Class Rapidfuzz : Type := {
  fuzz_ratio : string -> string -> Q;
  fuzz_partial_ratio : string -> string -> Q;
  fuzz_token_sort_ratio : string -> string -> Q;
  fuzz_token_set_ratio : string -> string -> Q
}.

(** [NameProcessor.process_single] ([app/preprocessing/processor.py]). *)
Class Preprocessor : Type := {
  process_single : string -> Profile.t
}.

(** What the pipeline reads from the wall clock and the UUID generator. *)
Class Clock : Type := {
  now_isoformat : string;          (* datetime.now().isoformat() *)
  now_compact : string;            (* datetime.now().strftime('%Y%m%d_%H%M%S') *)
  uuid4_prefix : string            (* str(uuid.uuid4())[:8] *)
}.

(** ** [app/matching/similarity.py] *)

Module SimilarityCalculator.
Section WithFuzz.
Context `{Rapidfuzz}.

Definition levenshtein_ratio (str1 str2 : string) : Q :=
  if PyStr.falsy str1 || PyStr.falsy str2 then 0 else fuzz_ratio str1 str2.

Definition partial_ratio (str1 str2 : string) : Q :=
  if PyStr.falsy str1 || PyStr.falsy str2 then 0 else fuzz_partial_ratio str1 str2.

Definition token_sort_ratio (str1 str2 : string) : Q :=
  if PyStr.falsy str1 || PyStr.falsy str2 then 0 else fuzz_token_sort_ratio str1 str2.

Definition token_set_ratio (str1 str2 : string) : Q :=
  if PyStr.falsy str1 || PyStr.falsy str2 then 0 else fuzz_token_set_ratio str1 str2.

(** Returns the weighted score and the four raw scores. *)
Definition weighted_average (str1 str2 : string) : Q * Details :=
  let l := levenshtein_ratio str1 str2 in
  let p := partial_ratio str1 str2 in
  let ts := token_sort_ratio str1 str2 in
  let tset := token_set_ratio str1 str2 in
  (0 + l * (3 # 10) + p * (2 # 10) + ts * (3 # 10) + tset * (2 # 10),
   FuzzyDetails l p ts tset).
End WithFuzz.
End SimilarityCalculator.

(** ** [app/matching/matchers.py] *)

Module ExactMatcher.
(** [match] is a keyword: the method is [match_]. *)
Definition match_ (query target : string) : Match.t :=
  let is_match :=
    PyStr.eqb (PyStr.strip (PyStr.lower query)) (PyStr.strip (PyStr.lower target)) in
  Match.mk (Some "exact") (Some (if is_match then 100 else 0)) (Some is_match)
           None (Some (ExactDetails is_match)) None None None None None None.
End ExactMatcher.

Module FuzzyMatcher.
Section WithFuzz.
Context `{Rapidfuzz}.

Definition match_level_of (score : Q) : string :=
  if Qge_bool score thresholds.HIGH_RISK_THRESHOLD then "high"
  else if Qge_bool score thresholds.MEDIUM_RISK_THRESHOLD then "medium"
  else if Qge_bool score thresholds.LOW_RISK_THRESHOLD then "low"
  else "none".

Definition match_ (query target : string) : Match.t :=
  let '(score, details) := SimilarityCalculator.weighted_average query target in
  Match.mk (Some "fuzzy") (Some score)
           (Some (Qge_bool score thresholds.LOW_RISK_THRESHOLD))
           (Some (match_level_of score)) (Some details)
           None None None None None None.
End WithFuzz.
End FuzzyMatcher.

Module TokenMatcher.
Section WithFuzz.
Context `{Rapidfuzz}.

(** The inner loop: best score and best token for one query token. *)
Definition best_match (q_token : string) (target_tokens : list string)
  : Q * option string :=
  fold_left
    (fun '(best_match_score, best_match_token) t_token =>
       let token_score := SimilarityCalculator.levenshtein_ratio q_token t_token in
       if Qgt_bool token_score best_match_score
       then (token_score, Some t_token)
       else (best_match_score, best_match_token))
    target_tokens (0, None).

(** The outer loop: accepted pairings and their accumulated score. *)
Definition scan (query_tokens target_tokens : list string)
  : list MatchedToken.t * Q :=
  fold_left
    (fun '(matched_tokens, total_score) q_token =>
       let '(best_match_score, best_match_token) := best_match q_token target_tokens in
       if Qge_bool best_match_score thresholds.LOW_RISK_THRESHOLD
       then (matched_tokens ++ [MatchedToken.mk q_token best_match_token best_match_score],
             total_score + best_match_score)
       else (matched_tokens, total_score))
    query_tokens ([], 0).

Definition match_ (query_tokens target_tokens : list string) : Match.t :=
  match query_tokens, target_tokens with
  | [], _ | _, [] =>
      Match.mk (Some "token") (Some 0) (Some false) None
               (Some (TokenDetails [] None)) None None None None None None
  | _, _ =>
      let '(matched_tokens, total_score) := scan query_tokens target_tokens in
      (* the conditional of the source has a non-empty list here *)
      let avg_score := total_score / Qnat (length query_tokens) in
      Match.mk (Some "token") (Some avg_score)
               (Some (Qge_bool avg_score thresholds.LOW_RISK_THRESHOLD)) None
               (Some (TokenDetails matched_tokens
                        (Some (Qnat (length matched_tokens) / Qnat (length query_tokens)))))
               None None None None None None
  end.
End WithFuzz.
End TokenMatcher.

(** ** [app/matching/scorer.py] *)

Module MatchScorer.

Definition calculate_risk_score (match_result : Match.t) (list_source : string) : Q :=
  let base_score := default 0 (Match.score match_result) in
  let list_priority := thresholds.list_priority_get list_source 50 in
  let priority_multiplier := inject_Z list_priority / 100 in
  let priority_multiplier :=
    if bool_decide (Match.match_type match_result = Some "exact")
    then priority_multiplier * (12 # 10)
    else priority_multiplier in
  py_min (base_score * priority_multiplier) 100.

Definition determine_risk_level (score : Q) : string :=
  if Qge_bool score thresholds.HIGH_RISK_THRESHOLD then "HIGH"
  else if Qge_bool score thresholds.MEDIUM_RISK_THRESHOLD then "MEDIUM"
  else if Qge_bool score thresholds.LOW_RISK_THRESHOLD then "LOW"
  else "NONE".

Definition requires_review (score : Q) : bool :=
  Qge_bool score thresholds.REQUIRE_MANUAL_REVIEW_ABOVE.

Definition should_auto_clear (score : Q) : bool :=
  Qlt_bool score thresholds.AUTO_CLEAR_BELOW.

(** The key of [rank_matches]; note the default 0 of the table lookup. *)
Definition sort_key (m : Match.t) : Q * Z * Q :=
  (default 0 (Match.risk_score m),
   thresholds.list_priority_get (default "" (Match.source m)) 0,
   default 0 (Match.score m)).

(** Python's ordering of the key tuples. *)
Definition key_compare (a b : Q * Z * Q) : comparison :=
  let '(a1, a2, a3) := a in
  let '(b1, b2, b3) := b in
  match a1 ?= b1 with
  | Eq => match (a2 ?= b2)%Z with
          | Eq => a3 ?= b3
          | c => c
          end
  | c => c
  end.

(** [sorted(xs, key=key, reverse=True)]: a stable sort into descending
    key order.  An element is placed in front of the elements after it
    whose key is not greater than its own. *)
Section Sorted.
Context {A : Type} (key : A -> Q * Z * Q).

Fixpoint insert_desc (x : A) (l : list A) : list A :=
  match l with
  | [] => [x]
  | y :: l' =>
      match key_compare (key x) (key y) with
      | Lt => y :: insert_desc x l'
      | _ => x :: l
      end
  end.

Definition sorted_reverse (l : list A) : list A :=
  foldr insert_desc [] l.
End Sorted.

Definition rank_matches (matches : list Match.t) : list Match.t :=
  sorted_reverse sort_key matches.

Definition count_level (level : string) (matches : list Match.t) : nat :=
  length (List.filter
            (fun m => PyStr.eqb (determine_risk_level (default 0 (Match.risk_score m))) level)
            matches).

Definition create_match_summary (matches : list Match.t) : Summary.t :=
  match matches with
  | [] => Summary.mk (Some 0%nat) (Some "NONE") None (Some false) (Some true) None
  | _ =>
      let highest_score :=
        max_default 0 (map (fun m => default 0 (Match.risk_score m)) matches) in
      Summary.mk (Some (length matches))
                 (Some (determine_risk_level highest_score))
                 (Some highest_score)
                 (Some (requires_review highest_score))
                 (Some (should_auto_clear highest_score))
                 (Some (Breakdown.mk (count_level "HIGH" matches)
                                     (count_level "MEDIUM" matches)
                                     (count_level "LOW" matches)))
  end.
End MatchScorer.

(** ** [app/matching/engine.py] *)

(** Which matcher was invoked, in order: a ghost trace of the calls made
    by [_match_against_entry]. *)
Inductive MatcherCall : Type := CallExact | CallFuzzy | CallToken.

Module MatchingEngine.
Section WithCollaborators.
Context `{Rapidfuzz} `{Preprocessor}.

(** [sanction_row.get('normalized', sanction_row.get('name', ''))] *)
Definition sanction_name_of (sanction_row : Row.t) : string :=
  default (default "" (Row.name sanction_row)) (Row.normalized sanction_row).

Definition from_row (m : Match.t) (sanction_row : Row.t) (conf : string) : Match.t :=
  Match.with_row m
    (default "" (Row.name sanction_row))
    (default "" (Row.source sanction_row))
    (default "" (Row.list_type sanction_row))
    conf.

(** [fuzzy_result['match_level'].upper()]; the fuzzy matcher always
    sets the key. *)
Definition upper_level (lvl : option string) : string :=
  PyStr.upper (default "" lvl).

(** [_match_against_entry], with the trace of matcher invocations. *)
Definition _match_against_entry_traced
    (query_processed : Profile.t) (sanction_row : Row.t)
  : list Match.t * list MatcherCall :=
  let sanction_name := sanction_name_of sanction_row in
  if PyStr.falsy sanction_name then ([], [])
  else
    let exact_result :=
      ExactMatcher.match_ (Profile.normalized query_processed) sanction_name in
    if default false (Match.is_match exact_result)
    then ([from_row exact_result sanction_row "HIGH"], [CallExact])
    else
      let fuzzy_result :=
        FuzzyMatcher.match_ (Profile.normalized query_processed) sanction_name in
      let fuzzy_part :=
        if default false (Match.is_match fuzzy_result)
        then [from_row fuzzy_result sanction_row
                       (upper_level (Match.match_level fuzzy_result))]
        else [] in
      let sanction_tokens := default [] (Row.tokens sanction_row) in
      match sanction_tokens with
      | [] => (fuzzy_part, [CallExact; CallFuzzy])
      | _ =>
          let token_result :=
            TokenMatcher.match_ (Profile.tokens query_processed) sanction_tokens in
          let token_part :=
            if default false (Match.is_match token_result)
            then [from_row token_result sanction_row "MEDIUM"]
            else [] in
          (fuzzy_part ++ token_part, [CallExact; CallFuzzy; CallToken])
      end.

Definition _match_against_entry
    (query_processed : Profile.t) (sanction_row : Row.t) : list Match.t :=
  fst (_match_against_entry_traced query_processed sanction_row).

(** The scoring loop of [screen_name] on one match. *)
Definition annotate (m : Match.t) : Match.t :=
  let rs := MatchScorer.calculate_risk_score m (default "" (Match.source m)) in
  Match.with_risk m rs (MatchScorer.determine_risk_level rs).

(** The matches collected over the rows, before scoring. *)
Definition collect (query_processed : Profile.t) (sanctions_df : list Row.t)
  : list Match.t :=
  flat_map (_match_against_entry query_processed) sanctions_df.

(** [m.get('risk_score', 0) >= LOW_RISK_THRESHOLD] *)
Definition significant (m : Match.t) : bool :=
  Qge_bool (default 0 (Match.risk_score m)) thresholds.LOW_RISK_THRESHOLD.

Definition screen_name (query_name : string) (sanctions_df : list Row.t)
  : Screening.t :=
  if PyStr.falsy query_name
     || (PyStr.len (PyStr.strip query_name) <? thresholds.MIN_NAME_LENGTH)%nat
  then
    Screening.mk query_name None [] (MatchScorer.create_match_summary [])
                 None None None None
  else
    let query_processed := process_single query_name in
    let matches := collect query_processed sanctions_df in
    let matches := map annotate matches in
    let significant_matches := List.filter significant matches in
    let ranked_matches := MatchScorer.rank_matches significant_matches in
    Screening.mk query_name (Some query_processed) ranked_matches
                 (MatchScorer.create_match_summary ranked_matches)
                 None None None None.
End WithCollaborators.
End MatchingEngine.

(** ** [app/flagging/filters.py] *)

(** The filters also write [filtered] and [filter_reason] into the
    dictionaries they remove; the removed dictionaries are not part of
    the returned list, whose elements are left untouched. *)
Module FalsePositiveFilter.

Definition common_words : list string :=
  ["company"; "corporation"; "limited"; "ltd"; "inc"; "llc";
   "bank"; "group"; "international"; "trading"; "services";
   "foundation"; "association"; "organization"; "society"].

(** [any(word in text for word in words)] *)
Definition any_in (words : list string) (text : string) : bool :=
  existsb (fun word => PyStr.contains word text) words.

Definition _filter_common_words (matches : list Match.t) (query : string)
  : list Match.t :=
  let query_lower := PyStr.lower query in
  List.filter
    (fun m =>
       let target_name := PyStr.lower (default "" (Match.target_name m)) in
       negb (any_in common_words query_lower
             && any_in common_words target_name
             && Qlt_bool (default 0 (Match.score m)) 75))
    matches.

Definition _filter_short_names (matches : list Match.t) (query : string)
  : list Match.t :=
  if (PyStr.len (PyStr.strip query) <=? 3)%nat then []
  else
    List.filter
      (fun m =>
         let target_name := default "" (Match.target_name m) in
         negb ((PyStr.len (PyStr.strip target_name) <=? 3)%nat
               && Qlt_bool (default 0 (Match.score m)) 90))
      matches.

Definition titles : gset string :=
  list_to_set ["mr"; "mrs"; "ms"; "dr"; "prof"; "sir"; "lady"; "lord"].

(** [set(text.lower().split())] *)
Definition word_set (text : string) : gset string :=
  list_to_set (PyStr.split (PyStr.lower text)).

(** The test of the title filter.  The division is guarded by the
    first conjunct: [title_words] is a subset of [common_words]. *)
Definition title_only (query_words : gset string) (m : Match.t) : bool :=
  let target_words := word_set (default "" (Match.target_name m)) in
  let common_words := query_words ∩ target_words in
  let title_words := common_words ∩ titles in
  (0 <? size title_words)%nat
  && Qgt_bool (Qnat (size title_words) / Qnat (size common_words)) (1 # 2)
  && Qlt_bool (default 0 (Match.score m)) 80.

Definition _filter_title_only_matches (matches : list Match.t) (query : string)
  : list Match.t :=
  let query_words := word_set query in
  List.filter (fun m => negb (title_only query_words m)) matches.

Definition _filter_weak_partial_matches (matches : list Match.t) (query : string)
  : list Match.t :=
  List.filter
    (fun m =>
       let match_type := default "" (Match.match_type m) in
       let score := default 0 (Match.score m) in
       negb (PyStr.eqb match_type "token"
             && Qlt_bool score 70
             && Qlt_bool (details_match_ratio (Match.details m)) (6 # 10)))
    matches.

Definition geographic_terms : list string :=
  ["north"; "south"; "east"; "west"; "central"; "new"; "old";
   "city"; "town"; "village"; "county"; "state"; "province";
   "republic"; "kingdom"; "emirates"; "federation"].

(** [sum(1 for term in geographic_terms if term in text)] *)
Definition geo_words (text : string) : nat :=
  length (List.filter (fun term => PyStr.contains term text) geographic_terms).

Definition _filter_geographic_false_positives
    (matches : list Match.t) (query : string) : list Match.t :=
  let query_lower := PyStr.lower query in
  List.filter
    (fun m =>
       let target_name := PyStr.lower (default "" (Match.target_name m)) in
       let query_geo_words := geo_words query_lower in
       let target_geo_words := geo_words target_name in
       negb ((0 <? query_geo_words)%nat && (0 <? target_geo_words)%nat
             && Qlt_bool (default 0 (Match.score m)) 75))
    matches.

(** The filter table, in insertion order. *)
Definition filters : list (string * (list Match.t -> string -> list Match.t)) :=
  [("common_words", _filter_common_words);
   ("short_names", _filter_short_names);
   ("title_only", _filter_title_only_matches);
   ("partial_weak", _filter_weak_partial_matches);
   ("geographic", _filter_geographic_false_positives)].

Definition apply_filters (matches : list Match.t) (query : string) : list Match.t :=
  fold_left (fun filtered_matches '(_, filter_func) => filter_func filtered_matches query)
            filters matches.
End FalsePositiveFilter.

(** ** [app/flagging/rules.py] *)

(** [f'{x:.1f}'] on the rational model: one decimal, ties to even.  The
    rules only format scores that are at least 85. *)
Definition round_half_even (x : Q) : Z :=
  let f := Qfloor x in
  match ((x - inject_Z f) ?= (1 # 2))%Q with
  | Lt => f
  | Gt => (f + 1)%Z
  | Eq => if Z.even f then f else (f + 1)%Z
  end.

Definition format_1f (x : Q) : string :=
  let n := round_half_even (x * 10) in
  let a := Z.abs n in
  (if (n <? 0)%Z then "-" else "")
    +:+ pretty (a / 10)%Z +:+ "." +:+ pretty (a mod 10)%Z.

(** [str(x)] for an optional string ([None] prints as "None"). *)
Definition str_of (x : option string) : string := default "None" x.

Module BusinessRules.

Definition rule : Type :=
  list Match.t -> Summary.t -> Screening.t -> result (option Decision.t).

Definition is_exact_ofac (m : Match.t) : bool :=
  bool_decide (Match.source m = Some "OFAC")
  && bool_decide (Match.match_type m = Some "exact")
  && (Qeq_bool (default 0 (Match.score m)) 100
      || Qeq_bool (default 0 (Match.risk_score m)) 100).

Definition _exact_ofac_block : rule := fun matches summary result =>
  Ok (match List.find is_exact_ofac matches with
      | Some m =>
          Some (Decision.mk (Some "BLOCK")
                  (Some ("Exact OFAC match: " +:+ str_of (Match.target_name m)))
                  (Some "auto-generated") (Some "HIGH") (Some "CRITICAL")
                  None (Some (Some m)) None None None None)
      | None => None
      end).

Definition _high_risk_escalate : rule := fun matches summary result =>
  let highest_score := default 0 (Summary.highest_score summary) in
  if Qge_bool highest_score 85 then
    high_risk_match ← max_by (fun m => default 0 (Match.risk_score m)) matches;
    Ok (Some (Decision.mk (Some "ESCALATE")
                (Some ("High-risk match (score: " +:+ format_1f highest_score +:+ ")"))
                (Some "auto-generated") (Some "HIGH") (Some "HIGH")
                (Some "senior_analyst") (Some (Some high_risk_match))
                None None None None))
  else Ok None.

Definition _medium_risk_review : rule := fun matches summary result =>
  let highest_score := default 0 (Summary.highest_score summary) in
  if default false (Summary.requires_review summary) && Qlt_bool highest_score 85 then
    let best_match := head matches in
    Ok (Some (Decision.mk (Some "MANUAL_REVIEW")
                (Some "Medium-risk match requires review")
                None (Some "MEDIUM") (Some "MEDIUM")
                (Some "analyst") (Some best_match) None None None None))
  else Ok None.

Definition _low_risk_clear : rule := fun matches summary result =>
  if default false (Summary.can_auto_clear summary) then
    Ok (Some (Decision.mk (Some "AUTO_CLEAR")
                (Some "Low risk score, auto-cleared")
                (Some "auto-generated") (Some "MEDIUM") (Some "LOW")
                None None None None None None))
  else Ok None.

Definition common_names : list string :=
  ["john smith"; "mary johnson"; "david brown"; "michael davis";
   "james wilson"; "robert miller"; "william moore"; "richard taylor"].

Definition _common_name_filter : rule := fun matches summary result =>
  let query := PyStr.strip (PyStr.lower (Screening.query result)) in
  if PyStr.member query common_names
     && Qlt_bool (default 0 (Summary.highest_score summary)) 80 then
    Ok (Some (Decision.mk (Some "AUTO_CLEAR")
                (Some "Common name with low confidence match")
                None (Some "MEDIUM") (Some "LOW")
                None None (Some "common_name") None None None))
  else Ok None.

(** The rule table, in insertion order. *)
Definition rules : list (string * rule) :=
  [("exact_ofac_block", _exact_ofac_block);
   ("high_risk_escalate", _high_risk_escalate);
   ("medium_risk_review", _medium_risk_review);
   ("low_risk_clear", _low_risk_clear);
   ("common_name_filter", _common_name_filter)].

Definition default_decision : Decision.t :=
  Decision.mk (Some "AUTO_CLEAR") (Some "No significant matches found")
              (Some "auto-generated") (Some "HIGH") (Some "LOW")
              None None None None None None.

(** [{**screening_result, 'decision': decision, 'applied_rule': rule_name}] *)
Definition decided (screening_result : Screening.t)
    (decision : Decision.t) (rule_name : string) : Screening.t :=
  Screening.mk (Screening.query screening_result)
               (Screening.processed_query screening_result)
               (Screening.matches screening_result)
               (Screening.summary screening_result)
               (Screening.filtered_count screening_result)
               (Some decision) (Some rule_name)
               (Screening.compliance screening_result).

(** The loop of [apply_rules] over a rule table. *)
Fixpoint run_rules (table : list (string * rule)) (screening_result : Screening.t)
  : result Screening.t :=
  match table with
  | [] => Ok (decided screening_result default_decision "default")
  | (rule_name, rule_func) :: table' =>
      decision ← rule_func (Screening.matches screening_result)
                           (Screening.summary screening_result)
                           screening_result;
      match decision with
      | Some d => Ok (decided screening_result d rule_name)
      | None => run_rules table' screening_result
      end
  end.

Definition apply_rules (screening_result : Screening.t) : result Screening.t :=
  run_rules rules screening_result.
End BusinessRules.

(** ** [app/flagging/decisions.py] *)

Module DecisionAction.
Definition AUTO_CLEAR : string := "AUTO_CLEAR".
Definition MANUAL_REVIEW : string := "MANUAL_REVIEW".
Definition ESCALATE : string := "ESCALATE".
Definition BLOCK : string := "BLOCK".
(** [[action.value for action in DecisionAction]] *)
Definition values : list string := [AUTO_CLEAR; MANUAL_REVIEW; ESCALATE; BLOCK].
End DecisionAction.

Module Priority.
Definition values : list string := ["LOW"; "MEDIUM"; "HIGH"; "CRITICAL"].
End Priority.

(** The keyword arguments of [create_decision]. *)
Module Kwargs.
Record t : Type := mk {
  confidence : option string;
  priority : option string;
  assigned_to : option string;
  match_details : option (option Match.t);
  filter_applied : option string
}.
End Kwargs.

Module DecisionMaker.

Definition approval_required : gmap string bool :=
  <[DecisionAction.AUTO_CLEAR := false]>
    (<[DecisionAction.MANUAL_REVIEW := false]>
       (<[DecisionAction.ESCALATE := true]>
          (<[DecisionAction.BLOCK := true]> ∅))).

Definition _requires_approval (action : string) : bool :=
  default true (approval_required !! action).

Definition sla_row (low medium high critical : Z) : gmap string Z :=
  <["LOW" := low]> (<["MEDIUM" := medium]>
    (<["HIGH" := high]> (<["CRITICAL" := critical]> ∅))).

Definition sla_matrix : gmap string (gmap string Z) :=
  <[DecisionAction.AUTO_CLEAR := sla_row 0 0 0 0]>
    (<[DecisionAction.MANUAL_REVIEW := sla_row 72 24 8 2]>
       (<[DecisionAction.ESCALATE := sla_row 48 12 4 1]>
          (<[DecisionAction.BLOCK := sla_row 24 8 2 0]> ∅))).

Definition _get_sla_hours (action priority : string) : Z :=
  default 24%Z (default ∅ (sla_matrix !! action) !! priority).

Section WithClock.
Context `{Clock}.

Definition create_decision (action reason : string) (kwargs : Kwargs.t)
  : Decision.t :=
  Decision.mk (Some action) (Some reason) (Some now_isoformat)
              (Some (default "MEDIUM" (Kwargs.confidence kwargs)))
              (Some (default "MEDIUM" (Kwargs.priority kwargs)))
              (Kwargs.assigned_to kwargs)
              (Kwargs.match_details kwargs)
              (Kwargs.filter_applied kwargs)
              (Some (_requires_approval action))
              (Some (_get_sla_hours action (default "MEDIUM" (Kwargs.priority kwargs))))
              None.
End WithClock.

Definition validate_decision (decision : Decision.t) : bool :=
  match Decision.action decision, Decision.reason decision,
        Decision.timestamp decision, Decision.confidence decision,
        Decision.priority decision with
  | Some action, Some _, Some _, Some _, Some priority =>
      if negb (PyStr.member action DecisionAction.values) then false
      else if negb (PyStr.member priority Priority.values) then false
      else true
  | _, _, _, _, _ => false
  end.

(** The [MANUAL_REVIEW] entry of the routing table. *)
Definition manual_review_route (priority : string) : Workflow.t :=
  Workflow.mk "analyst_review" true
    (if PyStr.member priority ["HIGH"; "CRITICAL"] then Some "supervisor" else None).

Definition routing (priority : string) : gmap string Workflow.t :=
  <[DecisionAction.AUTO_CLEAR := Workflow.mk "auto_processed" false None]>
    (<[DecisionAction.MANUAL_REVIEW := manual_review_route priority]>
       (<[DecisionAction.ESCALATE :=
            Workflow.mk "senior_analyst" true (Some "compliance_manager")]>
          (<[DecisionAction.BLOCK :=
               Workflow.mk "immediate_action" true (Some "compliance_manager")]> ∅))).

(** [routing.get(action, routing['MANUAL_REVIEW'])] *)
Definition get_workflow_routing (decision : Decision.t) : Workflow.t :=
  let priority := default "MEDIUM" (Decision.priority decision) in
  let fallback := manual_review_route priority in
  match Decision.action decision with
  | Some action => default fallback (routing priority !! action)
  | None => fallback
  end.
End DecisionMaker.

(** ** [app/flagging/engine.py] *)

Module FlaggingEngine.
Section WithClock.
Context `{Clock}.

Definition _generate_screening_id : string :=
  "SLST_" +:+ now_compact +:+ "_" +:+ uuid4_prefix.

Definition _generate_compliance_metadata (result : Screening.t) : Compliance.t :=
  let decision := Screening.decision result in
  let matches := Screening.matches result in
  Compliance.mk
    _generate_screening_id
    (length matches + default 0%nat (Screening.filtered_count result))
    (length matches)
    (max_default 0 (map (fun m => default 0 (Match.risk_score m)) matches))
    (decision ≫= Decision.action)
    (decision ≫= Decision.confidence)
    (default false (decision ≫= Decision.requires_approval))
    (default 24%Z (decision ≫= Decision.sla_hours))
    (Screening.applied_rule result)
    0%Z
    (match matches with
     | [] => None
     | m :: _ =>
         Some (RiskAssessment.mk (default "Unknown" (Match.source m))
                                 (default "Unknown" (Match.match_type m))
                                 (default "MEDIUM" (Match.confidence m)))
     end).

(** [screening_result['matches'] = ..; screening_result['filtered_count'] = ..] *)
Definition filtered (screening_result : Screening.t) : Screening.t :=
  let original_matches := Screening.matches screening_result in
  let filtered_matches :=
    FalsePositiveFilter.apply_filters original_matches
                                      (Screening.query screening_result) in
  Screening.mk (Screening.query screening_result)
               (Screening.processed_query screening_result)
               filtered_matches
               (Screening.summary screening_result)
               (Some (length original_matches - length filtered_matches)%nat)
               (Screening.decision screening_result)
               (Screening.applied_rule screening_result)
               (Screening.compliance screening_result).

Definition fallback_decision : Decision.t :=
  DecisionMaker.create_decision
    "MANUAL_REVIEW" "Decision validation failed, routing for manual review"
    (Kwargs.mk None (Some "MEDIUM") None None None).

(** Step 3: validate and enhance the decision of the rule engine. *)
Definition finalize (decision : Decision.t) : Decision.t :=
  if DecisionMaker.validate_decision decision
  then Decision.with_workflow decision (DecisionMaker.get_workflow_routing decision)
  else fallback_decision.

Definition empty_decision : Decision.t :=
  Decision.mk None None None None None None None None None None None.

Definition with_decision (r : Screening.t) (d : Decision.t) : Screening.t :=
  Screening.mk (Screening.query r) (Screening.processed_query r)
               (Screening.matches r) (Screening.summary r)
               (Screening.filtered_count r) (Some d)
               (Screening.applied_rule r) (Screening.compliance r).

Definition with_compliance (r : Screening.t) (c : Compliance.t) : Screening.t :=
  Screening.mk (Screening.query r) (Screening.processed_query r)
               (Screening.matches r) (Screening.summary r)
               (Screening.filtered_count r) (Screening.decision r)
               (Screening.applied_rule r) (Some c).

Definition process_screening_result (screening_result : Screening.t)
  : result Screening.t :=
  (* Step 1: apply false positive filters *)
  let screening_result := filtered screening_result in
  (* Step 2: apply business rules to make decision *)
  flagged_result ← BusinessRules.apply_rules screening_result;
  (* Step 3: validate and enhance decision *)
  let decision := default empty_decision (Screening.decision flagged_result) in
  let flagged_result := with_decision flagged_result (finalize decision) in
  (* Step 4: add compliance metadata *)
  Ok (with_compliance flagged_result (_generate_compliance_metadata flagged_result)).
End WithClock.
End FlaggingEngine.

(** ** The screening call of the interfaces
    ([app/interface/cli/commands.py], [app/interface/api/endpoints.py]):
    [screen_name] followed by [process_screening_result]. *)

Section Screen.
Context `{Rapidfuzz} `{Preprocessor} `{Clock}.

Definition screen (query_name : string) (sanctions_df : list Row.t)
  : result Screening.t :=
  FlaggingEngine.process_screening_result
    (MatchingEngine.screen_name query_name sanctions_df).
End Screen.

(** ** Sample collaborators, for evaluating the model on concrete inputs *)

(** A crude metric: identical strings score 100, all others 0. *)
Definition sample_fuzz : Rapidfuzz :=
  let same (a b : string) : Q := if PyStr.eqb a b then 100 else 0 in
  {| fuzz_ratio := same; fuzz_partial_ratio := same;
     fuzz_token_sort_ratio := same; fuzz_token_set_ratio := same |}.

(** A preprocessor that only lower-cases, trims and splits. *)
Definition sample_preprocessor : Preprocessor :=
  {| process_single := fun name =>
       let cleaned := PyStr.strip (PyStr.lower name) in
       let tokens :=
         List.filter (fun t => (2 <=? PyStr.len t)%nat) (PyStr.split cleaned) in
       Profile.mk name cleaned cleaned tokens (list_to_set (cleaned :: tokens)) |}.

Definition sample_clock : Clock :=
  {| now_isoformat := "2024-01-01T00:00:00";
     now_compact := "20240101_000000";
     uuid4_prefix := "0a1b2c3d" |}.

(** ** The specification's own wording, for comparison with the code *)

(** The priority table as the specification states it: four known
    sources, every other source 50. *)
Definition spec_list_priority (source : string) : Z :=
  if decide (source = "OFAC") then 100
  else if decide (source = "UN") then 90
  else if decide (source = "HMT") then 80
  else if decide (source = "EU") then 70
  else 50.

(** [min(100, raw * (list_priority(source)/100) * boost)] *)
Definition spec_risk_score (raw : Q) (source : string) (exact : bool) : Q :=
  Qmin 100 (raw * (inject_Z (spec_list_priority source) / 100)
                * (if exact then 12 # 10 else 1)).

(** The ranking key of the specification. *)
Definition spec_sort_key (m : Match.t) : Q * Z * Q :=
  (default 0 (Match.risk_score m),
   spec_list_priority (default "" (Match.source m)),
   default 0 (Match.score m)).

(** The token score as the specification states it. *)
Section TokenSpec.
Context `{Rapidfuzz}.

(** The best edit-ratio of a query token against any target token. *)
Definition spec_best (q_token : string) (target_tokens : list string) : Q :=
  match target_tokens with
  | [] => 0
  | t :: ts =>
      fold_left Qmax (map (SimilarityCalculator.levenshtein_ratio q_token) ts)
                (SimilarityCalculator.levenshtein_ratio q_token t)
  end.

(** A pairing is accepted when the best ratio reaches the LOW threshold. *)
Definition spec_accepted (target_tokens : list string) (q_token : string) : bool :=
  Qge_bool (spec_best q_token target_tokens) 60.

(** Sum of the accepted best ratios; the other tokens contribute 0. *)
Definition spec_token_total (query_tokens target_tokens : list string) : Q :=
  foldr (fun q acc =>
           (if spec_accepted target_tokens q then spec_best q target_tokens else 0) + acc)
        0 query_tokens.

Definition spec_token_score (query_tokens target_tokens : list string) : Q :=
  spec_token_total query_tokens target_tokens / Qnat (length query_tokens).

Definition spec_match_ratio (query_tokens target_tokens : list string) : Q :=
  Qnat (length (List.filter (spec_accepted target_tokens) query_tokens))
  / Qnat (length query_tokens).
End TokenSpec.

(** Descending order on keys: the first is not below the second. *)
Definition key_ge (a b : Q * Z * Q) : Prop := MatchScorer.key_compare a b <> Lt.

(** Equal keys, as Python compares the tuples. *)
Definition key_eqb (a b : Q * Z * Q) : bool :=
  match MatchScorer.key_compare a b with Eq => true | _ => false end.

(** Two elements are in descending order of their keys. *)
Definition desc_by {A : Type} (key : A -> Q * Z * Q) (a b : A) : Prop :=
  key_ge (key a) (key b).

(** ** Concrete screening results *)

(** The high-risk scenario of [tests/test_end_to_end.py]. *)
Definition osama_screening : Screening.t :=
  Screening.mk "Osama bin Laden" None
    [Match.mk (Some "exact") (Some 100) None None None
              (Some "Osama bin Laden") (Some "OFAC") None None
              (Some 100) (Some "HIGH")]
    (Summary.mk None (Some "HIGH") (Some 100) (Some true) (Some false) None)
    None None None None.

(** The candidate "Kim" of the OFAC list, as preprocessed. *)
Definition kim_row : Row.t :=
  Row.mk (Some "Kim") (Some "kim") (Some ["kim"]) (Some "OFAC") (Some "SDN").

(** The candidate "Osama bin Laden" of the OFAC list, as preprocessed. *)
Definition laden_row : Row.t :=
  Row.mk (Some "Osama bin Laden") (Some "osama bin laden")
         (Some ["osama"; "bin"; "laden"]) (Some "OFAC") (Some "SDN").

(** A screening result with one scored match and its summary. *)
Definition screening_of (query : string) (scored : list Match.t) : Screening.t :=
  Screening.mk query None scored (MatchScorer.create_match_summary scored)
               None None None None.

(** The query "John Smith" with one medium fuzzy match from the UN list. *)
Definition john_match : Match.t :=
  MatchingEngine.annotate
    (Match.mk (Some "fuzzy") (Some 78) (Some true) (Some "medium")
              (Some (FuzzyDetails 78 78 78 78))
              (Some "John Smithson") (Some "UN") (Some "Individual")
              (Some "MEDIUM") None None).

Definition john_screening : Screening.t :=
  screening_of "John Smith" [john_match].

(** The query "Ali Hassan" with a strong match on the short name "Ali"
    and a weak match on a longer name, both from the OFAC list. *)
Definition ali_short_match : Match.t :=
  MatchingEngine.annotate
    (Match.mk (Some "fuzzy") (Some 88) (Some true) (Some "high")
              (Some (FuzzyDetails 88 88 88 88))
              (Some "Ali") (Some "OFAC") (Some "SDN") (Some "HIGH") None None).

Definition ali_weak_match : Match.t :=
  MatchingEngine.annotate
    (Match.mk (Some "fuzzy") (Some 65) (Some true) (Some "low")
              (Some (FuzzyDetails 65 65 65 65))
              (Some "Alia Hassani") (Some "OFAC") (Some "SDN") (Some "LOW") None None).

Definition ali_screening : Screening.t :=
  screening_of "Ali Hassan" [ali_short_match; ali_weak_match].

(** What the rule engine leaves unset in the decisions it builds. *)
Definition rule_shape (d : Decision.t) : Prop :=
  Decision.requires_approval d = None
  /\ Decision.sla_hours d = None
  /\ Decision.workflow d = None.

(** ** Further string primitives, for the preprocessing code *)

Module PyText.

(** [sep.join(words)] *)
Fixpoint join (sep : string) (words : list string) : string :=
  match words with
  | [] => ""
  | w :: ws =>
      match ws with
      | [] => w
      | _ => w +:+ sep +:+ join sep ws
      end
  end.

(** [s.split(c)] for a one-character separator: the pieces between the
    separators, empty pieces included. *)
Fixpoint split_on_go (c : ascii) (cur : string) (s : string) : list string :=
  match s with
  | "" => [String.rev cur]
  | String a s' =>
      if Ascii.eqb a c
      then String.rev cur :: split_on_go c "" s'
      else split_on_go c (String a cur) s'
  end.

Definition split_on (c : ascii) (s : string) : list string := split_on_go c "" s.

(** [re.sub(r'\s+', ' ', s)]: every maximal run of whitespace becomes one
    blank. *)
Fixpoint collapse_ws_go (in_run : bool) (s : string) : string :=
  match s with
  | "" => ""
  | String c s' =>
      if PyStr.isspace c
      then if in_run then collapse_ws_go true s'
           else String " " (collapse_ws_go true s')
      else String c (collapse_ws_go false s')
  end.

Definition collapse_ws (s : string) : string := collapse_ws_go false s.

(** [s.translate(str.maketrans('', '', chars))]: delete the characters
    that satisfy [drop]. *)
Fixpoint delete_chars (drop : ascii -> bool) (s : string) : string :=
  match s with
  | "" => ""
  | String c s' =>
      if drop c then delete_chars drop s' else String c (delete_chars drop s')
  end.

(** The characters of [string.punctuation]: the printable ASCII
    characters that are neither letters, digits nor the blank. *)
Definition is_punctuation (c : ascii) : bool :=
  let n := nat_of_ascii c in
  ((33 <=? n) && (n <=? 47) || (58 <=? n) && (n <=? 64)
   || (91 <=? n) && (n <=? 96) || (123 <=? n) && (n <=? 126))%nat.

(** [\w] on ASCII: letters, digits and the underscore. *)
Definition is_word (c : ascii) : bool :=
  let n := nat_of_ascii c in
  ((48 <=? n) && (n <=? 57) || (65 <=? n) && (n <=? 90)
   || (97 <=? n) && (n <=? 122) || (n =? 95))%nat.

(** [re.sub(r'\s*X\s*', X, s)] for one character [X] that is not
    whitespace.  A match is a run of whitespace, [X], and the whitespace
    after it; [pending] is the whitespace read and not yet written,
    [after] tells that the whitespace being read follows an [X]. *)
Fixpoint tighten_go (x : ascii) (pending : string) (after : bool) (s : string)
  : string :=
  match s with
  | "" => String.rev pending
  | String c s' =>
      if Ascii.eqb c x then String x (tighten_go x "" true s')
      else if PyStr.isspace c then
        if after then tighten_go x "" true s'
        else tighten_go x (String c pending) false s'
      else String.rev pending +:+ String c (tighten_go x "" false s')
  end.

Definition tighten (x : ascii) (s : string) : string := tighten_go x "" false s.

(** The text after a prefix, when it is one. *)
Fixpoint after_prefix (p s : string) : option string :=
  match p, s with
  | "", _ => Some s
  | String a p', String b s' => if Ascii.eqb a b then after_prefix p' s' else None
  | String _ _, "" => None
  end.

(** [\b] at the start of [s]: what follows a word character. *)
Definition word_ends (s : string) : bool :=
  match s with
  | "" => true
  | String c _ => negb (is_word c)
  end.

(** [re.sub(rf'\b{variant}\b', standard, s)] for a variant made of word
    characters: the scan goes left to right, [prev_word] tells whether
    the character before is a word character, [skip] counts the
    characters of a match still to pass over. *)
Fixpoint sub_word_go (variant standard : string) (skip : nat) (prev_word : bool)
    (s : string) : string :=
  match s with
  | "" => ""
  | String c s' =>
      match skip with
      | S k => sub_word_go variant standard k (is_word c) s'
      | O =>
          if negb prev_word
             && match after_prefix variant s with
                | Some rest => word_ends rest
                | None => false
                end
          then standard
                 +:+ sub_word_go variant standard (String.length variant - 1)
                                 (is_word c) s'
          else String c (sub_word_go variant standard 0 (is_word c) s')
      end
  end.

Definition sub_word (variant standard s : string) : string :=
  sub_word_go variant standard 0 false s.

(** [re.sub(r'\bal[\s\-]', 'al ', s)] *)
Fixpoint sub_al_go (skip : nat) (prev_word : bool) (s : string) : string :=
  match s with
  | "" => ""
  | String c s' =>
      match skip with
      | S k => sub_al_go k (is_word c) s'
      | O =>
          if negb prev_word
             && match after_prefix "al" s with
                | Some (String d _) => PyStr.isspace d || Ascii.eqb d "-"
                | _ => false
                end
          then "al " +:+ sub_al_go 2 (is_word c) s'
          else String c (sub_al_go 0 (is_word c) s')
      end
  end.

Definition sub_al (s : string) : string := sub_al_go 0 false s.

End PyText.

(** ** [app/preprocessing/cleaner.py] *)

Module TextCleaner.

(** [string.punctuation.replace("'", "")] *)
Definition punctuation (c : ascii) : bool :=
  PyText.is_punctuation c && negb (Ascii.eqb c "'").

Definition clean (text : string) : string :=
  if PyStr.falsy text then ""
  else
    let text := PyStr.lower text in
    let text := PyText.collapse_ws text in
    let text := PyText.delete_chars punctuation text in
    PyStr.strip text.

Definition titles : list string :=
  ["mr"; "mrs"; "ms"; "miss"; "dr"; "prof"; "sir"; "lady";
   "lord"; "sheikh"; "imam"; "mullah"; "ayatollah"].

Definition remove_titles (text : string) : string :=
  let words := PyStr.split text in
  PyText.join " " (List.filter (fun w => negb (PyStr.member w titles)) words).

Definition stop_words : list string :=
  ["and"; "or"; "the"; "of"; "bin"; "ibn"; "abu"; "al"].

Definition remove_common_words (text : string) : string :=
  let words := PyStr.split text in
  PyText.join " " (List.filter (fun w => negb (PyStr.member w stop_words)) words).

End TextCleaner.

(** ** [app/preprocessing/normalizer.py] *)

(** The third-party transliteration function. *)
Class Unidecode : Type := {
  unidecode : string -> string
}.

Module NameNormalizer.
Section WithUnidecode.
Context `{Unidecode}.

(** The table of spellings, in insertion order. *)
Definition replacements : list (string * list string) :=
  [("mohammed", ["muhammad"; "mohamed"; "mohammad"]);
   ("abdul", ["abd"; "abdel"; "abdal"]);
   ("al", ["el"; "ul"]);
   ("ibn", ["bin"; "ben"])].

Definition transliterate (text : string) : string :=
  if PyStr.falsy text then "" else unidecode text.

Definition normalize_arabic_names (text : string) : string :=
  let text := PyText.sub_al text in
  fold_left
    (fun text '(standard, variants) =>
       fold_left (fun text variant => PyText.sub_word variant standard text)
                 variants text)
    replacements text.

Definition normalize_spacing (text : string) : string :=
  let text := PyText.tighten "-" text in
  PyText.tighten "'" text.

Definition normalize (text : string) : string :=
  if PyStr.falsy text then ""
  else normalize_spacing (normalize_arabic_names (transliterate text)).

End WithUnidecode.
End NameNormalizer.

(** ** [app/preprocessing/tokenizer.py] *)

Module NameTokenizer.

Definition min_token_length : nat := 2.

Definition tokenize (text : string) : list string :=
  if PyStr.falsy text then []
  else
    let tokens := flat_map (PyText.split_on "-") (PyStr.split text) in
    List.filter (fun t => (min_token_length <=? PyStr.len t)%nat) tokens.

(** [[' '.join(tokens[i:i+n]) for i in range(count)]], from index [i]. *)
Fixpoint ngrams_from (n count : nat) (tokens : list string) : list string :=
  match count with
  | O => []
  | S count' =>
      PyText.join " " (take n tokens) :: ngrams_from n count' (tail tokens)
  end.

Definition generate_ngrams (tokens : list string) (n : nat) : list string :=
  if (length tokens <? n)%nat then tokens
  else ngrams_from n (length tokens - n + 1) tokens.

Definition get_all_variants (text : string) : gset string :=
  let tokens := tokenize text in
  let variants : gset string := {[ text ]} ∪ list_to_set tokens in
  let variants :=
    if (1 <? length tokens)%nat
    then variants ∪ list_to_set (generate_ngrams tokens 2)
    else variants in
  variants ∖ {[ "" ]}.

End NameTokenizer.

(** ** [app/preprocessing/processor.py] *)

Module NameProcessor.
Section WithUnidecode.
Context `{Unidecode}.

Definition process_single (name : string) : Profile.t :=
  if PyStr.falsy name then Profile.mk "" "" "" [] ∅
  else
    let cleaned := TextCleaner.clean name in
    let cleaned := TextCleaner.remove_titles cleaned in
    let cleaned := TextCleaner.remove_common_words cleaned in
    let normalized := NameNormalizer.normalize cleaned in
    let tokens := NameTokenizer.tokenize normalized in
    let variants := NameTokenizer.get_all_variants normalized in
    Profile.mk name cleaned normalized tokens variants.

(** One row of [process_dataframe]: the row with the processed fields
    written over it; a missing name is processed as the empty name. *)
Definition process_row (row : Row.t) : Row.t :=
  let processed := process_single (default "" (Row.name row)) in
  Row.mk (Row.name row) (Some (Profile.normalized processed))
         (Some (Profile.tokens processed)) (Row.source row) (Row.list_type row).

Definition process_dataframe (df : list Row.t) : list Row.t :=
  map process_row df.

End WithUnidecode.
End NameProcessor.

(** The preprocessor of the repository, over a transliteration function. *)
Definition name_processor `{Unidecode} : Preprocessor :=
  {| process_single := NameProcessor.process_single |}.

(** Transliteration restricted to ASCII text, which it leaves as it is. *)
Definition ascii_unidecode : Unidecode := {| unidecode := fun s => s |}.

(** ** [get_decision_summary] of [app/flagging/engine.py] *)

Module DecisionSummary.
Record t : Type := mk {
  screening_id : option string;
  query_name : string;
  decision : option string;
  reason : option string;
  priority : option string;
  requires_review : bool;
  immediate_action : bool;
  matches_found : nat;
  highest_score : Q;
  sla_deadline : string
}.
End DecisionSummary.

Definition get_decision_summary (result : Screening.t) : DecisionSummary.t :=
  let decision := Screening.decision result in
  let compliance := Screening.compliance result in
  let action := decision ≫= Decision.action in
  DecisionSummary.mk
    (Compliance.screening_id <$> compliance)
    (Screening.query result)
    action
    (decision ≫= Decision.reason)
    (decision ≫= Decision.priority)
    (match action with
     | Some a => PyStr.member a ["MANUAL_REVIEW"; "ESCALATE"]
     | None => false
     end)
    (bool_decide (action = Some "BLOCK"))
    (default 0%nat (Compliance.matches_after_filtering <$> compliance))
    (default 0 (Compliance.highest_risk_score <$> compliance))
    (pretty (default 24%Z (decision ≫= Decision.sla_hours)) +:+ " hours").

(** ** [app/audit]: models, storage and logger *)

(** [LogEntry.to_dict()], one line of [screening_events.jsonl]. *)
Module LogEntry.
Record t : Type := mk {
  screening_id : string;
  timestamp : string;
  event_type : string;
  query : string;
  decision : string;
  risk_level : string;
  matches_count : nat;
  processing_time_ms : Q;
  user_id : option string;
  session_id : option string;
  source_ip : option string
}.
End LogEntry.

(** [MatchEntry.to_dict()], one line of [match_details.jsonl]. *)
Module MatchEntry.
Record t : Type := mk {
  screening_id : string;
  target_name : string;
  source : string;
  match_score : Q;
  risk_score : Q;
  match_type : string
}.
End MatchEntry.

(** The [details] of a system event. *)
Inductive EventDetails : Type :=
| BatchDetails (batch_id : string) (total_processed : nat) (processing_time_ms : Q)
| StartupDetails (sanctions_count : nat) (sources : list string)
| ErrorDetails (error_type error_message : string).

Module SystemEvent.
Record t : Type := mk {
  timestamp : string;
  event_type : string;
  details : EventDetails
}.
End SystemEvent.

(** [uuid.uuid4()] as the logger reads it. *)
Class Uuid : Type := {
  uuid4 : string
}.

(** The three append-only files of the audit directory, as the lists of
    their lines (a line is written by [json.dumps] and read back by
    [json.loads]). *)
Module AuditStorage.
Record t : Type := mk {
  screening_log : list LogEntry.t;
  matches_log : list MatchEntry.t;
  system_log : list SystemEvent.t
}.

Definition empty : t := mk [] [] [].

Definition log_screening (st : t) (entry : LogEntry.t) : t :=
  mk (screening_log st ++ [entry]) (matches_log st) (system_log st).

Definition log_matches (st : t) (matches : list MatchEntry.t) : t :=
  fold_left (fun st m => mk (screening_log st) (matches_log st ++ [m]) (system_log st))
            matches st.

Definition log_system_event `{Clock} (st : t) (event_type : string)
    (details : EventDetails) : t :=
  mk (screening_log st) (matches_log st)
     (system_log st ++ [SystemEvent.mk now_isoformat event_type details]).

(** [xs[start:]] for a possibly negative [start]. *)
Definition slice_from {A : Type} (start : Z) (xs : list A) : list A :=
  if (start <? 0)%Z
  then drop (Z.to_nat (Z.max 0 (Z.of_nat (length xs) + start))) xs
  else drop (Z.to_nat start) xs.

(** [reversed(lines[-limit:])] *)
Definition get_recent_screenings (st : t) (limit : Z) : list LogEntry.t :=
  rev (slice_from (- limit) (screening_log st)).
End AuditStorage.

Module AuditLogger.
Section WithEnvironment.
Context `{Clock} `{Uuid}.

Definition match_entry (screening_id : string) (m : Match.t) : MatchEntry.t :=
  MatchEntry.mk screening_id
                (default "" (Match.target_name m))
                (default "" (Match.source m))
                (default 0 (Match.score m))
                (default 0 (Match.risk_score m))
                (default "unknown" (Match.match_type m)).

(** Returns the storage after the call and the screening id. *)
Definition log_screening (st : AuditStorage.t) (query : string)
    (screening_result : Screening.t) (processing_time_ms : Q)
    (user_id session_id source_ip : option string) : AuditStorage.t * string :=
  let screening_id := uuid4 in
  let decision :=
    default "UNKNOWN" (Screening.decision screening_result ≫= Decision.action) in
  let risk_level :=
    default "NONE" (Summary.highest_risk (Screening.summary screening_result)) in
  let matches := Screening.matches screening_result in
  let log_entry :=
    LogEntry.mk screening_id now_isoformat "SCREENING" query decision risk_level
                (length matches) processing_time_ms user_id session_id source_ip in
  let st := AuditStorage.log_screening st log_entry in
  let st :=
    match matches with
    | [] => st
    | _ => AuditStorage.log_matches st (map (match_entry screening_id) matches)
    end in
  (st, screening_id).

Definition log_error (st : AuditStorage.t) (error_type error_message : string)
  : AuditStorage.t :=
  AuditStorage.log_system_event st "ERROR" (ErrorDetails error_type error_message).

End WithEnvironment.
End AuditLogger.

Definition sample_uuid : Uuid := {| uuid4 := "3f2b8c1e-0d4a-4e6f-9a7b-5c1d2e3f4a5b" |}.

(** ** Predicates used in the statements *)

(** No blank, tab or other whitespace character in the string. *)
Fixpoint no_space (s : string) : bool :=
  match s with
  | "" => true
  | String c s' => negb (PyStr.isspace c) && no_space s'
  end.

(** A word as [split] produces them: not empty, no whitespace. *)
Definition is_token (s : string) : bool := negb (PyStr.falsy s) && no_space s.

(** The characters of the string, as a list. *)
Fixpoint chars (s : string) : list ascii :=
  match s with
  | "" => []
  | String c s' => c :: chars s'
  end.

(** The string consists of ASCII characters only; on such strings the
    length in bytes is the length in characters, and the whitespace that
    [strip] removes is the whitespace of [str.strip]. *)
Definition is_ascii (s : string) : bool :=
  forallb (fun c => (nat_of_ascii c <? 128)%nat) (chars s).

(** The raw score of a match record. *)
Definition raw_score (m : Match.t) : Q := default 0 (Match.score m).

(** The risk score of a match record. *)
Definition risk_of (m : Match.t) : Q := default 0 (Match.risk_score m).

(** The four metric functions stay within 0..100. *)
Definition fuzz_bounded `{Rapidfuzz} : Prop :=
  forall a b,
    (0 <= fuzz_ratio a b <= 100)
    /\ (0 <= fuzz_partial_ratio a b <= 100)
    /\ (0 <= fuzz_token_sort_ratio a b <= 100)
    /\ (0 <= fuzz_token_set_ratio a b <= 100).

(** What a rule of the table decides, and when: the name of the rule, the
    decision it builds and the condition under which it is reached. *)
Definition rule_outcome (sr : Screening.t) (rule_name : string) (d : Decision.t)
  : Prop :=
  let ms := Screening.matches sr in
  let s := Screening.summary sr in
  let h := default 0 (Summary.highest_score s) in
  (rule_name = "exact_ofac_block"
   /\ Decision.action d = Some "BLOCK" /\ Decision.priority d = Some "CRITICAL"
   /\ DecisionMaker.validate_decision d = true
   /\ exists m, List.find BusinessRules.is_exact_ofac ms = Some m
                /\ Decision.match_details d = Some (Some m))
  \/ (rule_name = "high_risk_escalate"
      /\ Decision.action d = Some "ESCALATE" /\ Decision.priority d = Some "HIGH"
      /\ DecisionMaker.validate_decision d = true
      /\ List.find BusinessRules.is_exact_ofac ms = None /\ 85 <= h /\ ms <> [])
  \/ (rule_name = "medium_risk_review"
      /\ Decision.action d = Some "MANUAL_REVIEW"
      /\ DecisionMaker.validate_decision d = false
      /\ List.find BusinessRules.is_exact_ofac ms = None
      /\ h < 85 /\ Summary.requires_review s = Some true)
  \/ (rule_name = "low_risk_clear"
      /\ Decision.action d = Some "AUTO_CLEAR"
      /\ DecisionMaker.validate_decision d = true
      /\ List.find BusinessRules.is_exact_ofac ms = None
      /\ h < 85 /\ Summary.can_auto_clear s = Some true)
  \/ (rule_name = "common_name_filter"
      /\ Decision.action d = Some "AUTO_CLEAR"
      /\ DecisionMaker.validate_decision d = false
      /\ List.find BusinessRules.is_exact_ofac ms = None
      /\ h < 80
      /\ PyStr.member (PyStr.strip (PyStr.lower (Screening.query sr)))
                      BusinessRules.common_names = true)
  \/ (rule_name = "default"
      /\ Decision.action d = Some "AUTO_CLEAR"
      /\ DecisionMaker.validate_decision d = true
      /\ List.find BusinessRules.is_exact_ofac ms = None
      /\ h < 85 /\ default false (Summary.can_auto_clear s) = false).

(** Steps 3 and 4 of [process_screening_result] on the result of the
    rule engine with decision [d]. *)
Definition completed `{Clock} (flagged_result : Screening.t) (d : Decision.t)
  : Screening.t :=
  let flagged_result :=
    FlaggingEngine.with_decision flagged_result (FlaggingEngine.finalize d) in
  FlaggingEngine.with_compliance flagged_result
    (FlaggingEngine._generate_compliance_metadata flagged_result).

(** The position of a priority in the enumeration [Priority], from LOW
    to CRITICAL. *)
Definition priority_rank (priority : string) : option nat :=
  if decide (priority = "LOW") then Some 0%nat
  else if decide (priority = "MEDIUM") then Some 1%nat
  else if decide (priority = "HIGH") then Some 2%nat
  else if decide (priority = "CRITICAL") then Some 3%nat
  else None.

(** A whitespace character and the character [x], side by side. *)
Definition space_next_to (x a b : ascii) : bool :=
  (PyStr.isspace a && Ascii.eqb b x) || (Ascii.eqb a x && PyStr.isspace b).

(** No whitespace character stands next to an [x]. *)
Fixpoint tight_list (x : ascii) (l : list ascii) : bool :=
  match l with
  | [] => true
  | a :: l' =>
      match l' with
      | [] => true
      | b :: _ => negb (space_next_to x a b)
      end && tight_list x l'
  end.

Definition tight (x : ascii) (s : string) : bool := tight_list x (chars s).

(** The characters of the string that are not whitespace. *)
Definition solid_chars (s : string) : list ascii :=
  List.filter (fun c => negb (PyStr.isspace c)) (chars s).

(** ** Binary64 arithmetic: Python [float] *)

(** Decimal constants denote the nearest binary64 value, as in Python. *)
#[local] Set Warnings "-inexact-float".

Module F64.
Local Open Scope float_scope.

(** [float(n)] for an integer: the nearest binary64 value (the integer
    itself below 2^53). *)
Definition of_Z (z : Z) : float := SF2Prim (binary_normalize prec emax z 0 false).

Definition of_nat (n : nat) : float := of_Z (Z.of_nat n).

(** [min(a, b)] of Python: the first argument unless the second is
    smaller. *)
Definition py_min (a b : float) : float := if b <? a then b else a.
End F64.

(** The thresholds, as the floats they are compared with. *)
Module thresholds64.
Definition HIGH_RISK_THRESHOLD : float := 85%float.
Definition MEDIUM_RISK_THRESHOLD : float := 70%float.
Definition LOW_RISK_THRESHOLD : float := 60%float.
End thresholds64.

Module MatchedToken64.
Record t : Type := mk {
  query : string;
  target : option string;
  score : float
}.
End MatchedToken64.

(** [details] of a token match. *)
Inductive Details64 : Type :=
| TokenDetails64 (matched_tokens : list MatchedToken64.t) (match_ratio : option float).

Module Match64.
Record t : Type := mk {
  match_type : option string;
  score : option float;
  is_match : option bool;
  details : option Details64;
  source : option string;
  risk_score : option float;
  risk_level : option string
}.

(** [match['risk_score'] = rs; match['risk_level'] = lvl] *)
Definition with_risk (m : t) (rs : float) (lvl : string) : t :=
  mk (match_type m) (score m) (is_match m) (details m) (source m)
     (Some rs) (Some lvl).
End Match64.

(** The one metric function that the token matcher calls. *)
Class Rapidfuzz64 : Type := {
  fuzz_ratio64 : string -> string -> float
}.

Module Binary64.
Local Open Scope float_scope.

Module SimilarityCalculator.
Section WithFuzz.
Context `{Rapidfuzz64}.
Definition levenshtein_ratio (str1 str2 : string) : float :=
  if PyStr.falsy str1 || PyStr.falsy str2 then 0 else fuzz_ratio64 str1 str2.
End WithFuzz.
End SimilarityCalculator.

Module TokenMatcher.
Section WithFuzz.
Context `{Rapidfuzz64}.

Definition best_match (q_token : string) (target_tokens : list string)
  : float * option string :=
  fold_left
    (fun '(best_match_score, best_match_token) t_token =>
       let token_score := SimilarityCalculator.levenshtein_ratio q_token t_token in
       if best_match_score <? token_score
       then (token_score, Some t_token)
       else (best_match_score, best_match_token))
    target_tokens (0, None).

Definition scan (query_tokens target_tokens : list string)
  : list MatchedToken64.t * float :=
  fold_left
    (fun '(matched_tokens, total_score) q_token =>
       let '(best_match_score, best_match_token) := best_match q_token target_tokens in
       if thresholds64.LOW_RISK_THRESHOLD <=? best_match_score
       then (matched_tokens
               ++ [MatchedToken64.mk q_token best_match_token best_match_score],
             total_score + best_match_score)
       else (matched_tokens, total_score))
    query_tokens ([], 0).

Definition match_ (query_tokens target_tokens : list string) : Match64.t :=
  match query_tokens, target_tokens with
  | [], _ | _, [] =>
      Match64.mk (Some "token") (Some 0) (Some false)
                 (Some (TokenDetails64 [] None)) None None None
  | _, _ =>
      let '(matched_tokens, total_score) := scan query_tokens target_tokens in
      let avg_score := total_score / F64.of_nat (length query_tokens) in
      Match64.mk (Some "token") (Some avg_score)
                 (Some (thresholds64.LOW_RISK_THRESHOLD <=? avg_score))
                 (Some (TokenDetails64 matched_tokens
                          (Some (F64.of_nat (length matched_tokens)
                                 / F64.of_nat (length query_tokens)))))
                 None None None
  end.
End WithFuzz.
End TokenMatcher.

Module MatchScorer.
Definition calculate_risk_score (match_result : Match64.t) (list_source : string)
  : float :=
  let base_score := default 0 (Match64.score match_result) in
  let list_priority := thresholds.list_priority_get list_source 50 in
  let priority_multiplier := F64.of_Z list_priority / 100 in
  let priority_multiplier :=
    if bool_decide (Match64.match_type match_result = Some "exact")
    then priority_multiplier * 1.2
    else priority_multiplier in
  F64.py_min (base_score * priority_multiplier) 100.

Definition determine_risk_level (score : float) : string :=
  if thresholds64.HIGH_RISK_THRESHOLD <=? score then "HIGH"
  else if thresholds64.MEDIUM_RISK_THRESHOLD <=? score then "MEDIUM"
  else if thresholds64.LOW_RISK_THRESHOLD <=? score then "LOW"
  else "NONE".
End MatchScorer.

(** The scoring loop of [screen_name] on one match. *)
Definition annotate (m : Match64.t) : Match64.t :=
  let rs := MatchScorer.calculate_risk_score m (default "" (Match64.source m)) in
  Match64.with_risk m rs (MatchScorer.determine_risk_level rs).

End Binary64.

(** The formula of the specification, evaluated in binary64. *)
Definition spec_risk_score64 (raw : float) (source : string) (exact : bool) : float :=
  let multiplier := (F64.of_Z (spec_list_priority source) / 100)%float in
  F64.py_min (raw * (if exact then multiplier * 1.2 else multiplier))%float 100%float.


(** The token score as the specification states it, in binary64. *)
Section TokenSpec64.
Context `{Rapidfuzz64}.
Local Open Scope float_scope.

(** The greatest edit-ratio of a query token against the target tokens
    (ratios are percentages, so 0 when there is none above it). *)
Definition spec_best64 (q_token : string) (target_tokens : list string) : float :=
  fold_left (fun best ratio => if best <? ratio then ratio else best)
            (map (Binary64.SimilarityCalculator.levenshtein_ratio q_token) target_tokens)
            0.

Definition spec_accepted64 (target_tokens : list string) (q_token : string) : bool :=
  60 <=? spec_best64 q_token target_tokens.

(** The sum, in the order of the query tokens, of the accepted best
    ratios. *)
Definition spec_token_total64 (query_tokens target_tokens : list string) : float :=
  fold_left PrimFloat.add
            (map (fun q => spec_best64 q target_tokens)
                 (List.filter (spec_accepted64 target_tokens) query_tokens))
            0.

Definition spec_token_score64 (query_tokens target_tokens : list string) : float :=
  spec_token_total64 query_tokens target_tokens / F64.of_nat (length query_tokens).

Definition spec_match_ratio64 (query_tokens target_tokens : list string) : float :=
  F64.of_nat (length (List.filter (spec_accepted64 target_tokens) query_tokens))
  / F64.of_nat (length query_tokens).
End TokenSpec64.


(** A sample metric for the binary64 model: a ratio that depends on the
    query token only. *)
Definition sample_fuzz64 : Rapidfuzz64 :=
  {| fuzz_ratio64 := fun a _ =>
       if PyStr.eqb a "ibrahim" then 63.63636363636363%float
       else if PyStr.eqb a "abdulrahman" then 86.36363636363636%float
       else if PyStr.eqb a "hasan" then 90%float
       else 0%float |}.

(** A number, zero or positive, in the bit-level specification. *)
Definition sf_nonneg (x : spec_float) : Prop :=
  match x with
  | S754_zero _ => True
  | S754_infinity s | S754_finite s _ _ => s = false
  | S754_nan => False
  end.


(** * Properties *)

(** ** The string primitives on examples *)

Example strip_demo : PyStr.strip "  Kim Il  " = "Kim Il".
Proof. reflexivity. Qed.

Example split_demo : PyStr.split " dr  John	Smith " = ["dr"; "John"; "Smith"].
Proof. reflexivity. Qed.

Example lower_demo : PyStr.lower "John SMITH-o'Neil" = "john smith-o'neil".
Proof. reflexivity. Qed.

Example contains_demo :
  PyStr.contains "bank" "first bank ltd" = true /\ PyStr.contains "bank" "ban k" = false.
Proof. split; reflexivity. Qed.

(** ** Comparisons *)

Lemma Qge_bool_true (a b : Q) : Qge_bool a b = true <-> b <= a.
Proof. unfold Qge_bool. apply Qle_bool_iff. Qed.

Lemma Qge_bool_false (a b : Q) : Qge_bool a b = false <-> a < b.
Proof.
  unfold Qge_bool. split; intros Hab.
  - apply Qnot_le_lt. intros Hle. apply Qle_bool_iff in Hle. congruence.
  - destruct (Qle_bool b a) eqn:E; [|reflexivity].
    apply Qle_bool_iff in E. lra.
Qed.

Lemma Qlt_bool_true (a b : Q) : Qlt_bool a b = true <-> a < b.
Proof.
  unfold Qlt_bool. rewrite negb_true_iff. apply (Qge_bool_false a b).
Qed.

Lemma Qlt_bool_false (a b : Q) : Qlt_bool a b = false <-> b <= a.
Proof.
  unfold Qlt_bool. rewrite negb_false_iff. apply (Qge_bool_true a b).
Qed.

Lemma Qgt_bool_true (a b : Q) : Qgt_bool a b = true <-> b < a.
Proof. apply Qlt_bool_true. Qed.

Lemma Qgt_bool_false (a b : Q) : Qgt_bool a b = false <-> a <= b.
Proof. apply Qlt_bool_false. Qed.

Lemma py_min_spec (a b : Q) : py_min a b == Qmin b a.
Proof.
  unfold py_min. destruct (Qlt_bool b a) eqn:E.
  - apply Qlt_bool_true in E. rewrite Q.min_l; lra.
  - apply Qlt_bool_false in E. rewrite Q.min_r; lra.
Qed.

(** ** The priority table *)

Lemma list_priority_get_spec (source : string) (dflt : Z) :
  thresholds.list_priority_get source dflt =
    if decide (source = "OFAC") then 100%Z
    else if decide (source = "UN") then 90%Z
    else if decide (source = "HMT") then 80%Z
    else if decide (source = "EU") then 70%Z
    else dflt.
Proof.
  unfold thresholds.list_priority_get, thresholds.LIST_PRIORITIES.
  repeat case_decide; subst; try reflexivity.
  rewrite !lookup_insert_ne by congruence. reflexivity.
Qed.

Lemma list_priority_get_50 (source : string) :
  thresholds.list_priority_get source 50 = spec_list_priority source.
Proof. apply list_priority_get_spec. Qed.

Lemma spec_list_priority_range (source : string) :
  (50 <= spec_list_priority source <= 100)%Z.
Proof. unfold spec_list_priority. repeat case_decide; lia. Qed.

(** ** Risk scoring *)

Lemma calculate_risk_score_formula (m : Match.t) (source : string) :
  MatchScorer.calculate_risk_score m source ==
    spec_risk_score (default 0 (Match.score m)) source
                    (bool_decide (Match.match_type m = Some "exact")).
Proof.
  unfold MatchScorer.calculate_risk_score, spec_risk_score.
  rewrite py_min_spec, list_priority_get_50.
  apply Q.min_compat; [reflexivity|].
  destruct (bool_decide (Match.match_type m = Some "exact")); field.
Qed.

Lemma calculate_risk_score_range (m : Match.t) (source : string) :
  0 <= default 0 (Match.score m) <= 100 ->
  0 <= MatchScorer.calculate_risk_score m source <= 100.
Proof.
  intros [Hlo Hhi].
  pose proof (spec_list_priority_range source) as [Hp _].
  assert (Hq : 0 <= inject_Z (spec_list_priority source) / 100).
  { apply Qle_shift_div_l; [lra|]. rewrite Qmult_0_l.
    change 0 with (inject_Z 0). rewrite <- Zle_Qle. lia. }
  unfold MatchScorer.calculate_risk_score, py_min.
  rewrite list_priority_get_50.
  set (p := inject_Z (spec_list_priority source) / 100) in *.
  set (raw := default 0 (Match.score m)) in *.
  destruct (Qlt_bool _ _) eqn:E; [lra|].
  apply Qlt_bool_false in E. split; [|exact E].
  destruct (bool_decide _); nra.
Qed.

Lemma determine_risk_level_spec (score : Q) :
  (85 <= score /\ MatchScorer.determine_risk_level score = "HIGH")
  \/ (70 <= score < 85 /\ MatchScorer.determine_risk_level score = "MEDIUM")
  \/ (60 <= score < 70 /\ MatchScorer.determine_risk_level score = "LOW")
  \/ (score < 60 /\ MatchScorer.determine_risk_level score = "NONE").
Proof.
  unfold MatchScorer.determine_risk_level, thresholds.HIGH_RISK_THRESHOLD,
    thresholds.MEDIUM_RISK_THRESHOLD, thresholds.LOW_RISK_THRESHOLD.
  destruct (Qge_bool score 85) eqn:E1;
    [apply Qge_bool_true in E1; left; split; [lra|reflexivity]
    |apply Qge_bool_false in E1].
  destruct (Qge_bool score 70) eqn:E2;
    [apply Qge_bool_true in E2; right; left; split; [lra|reflexivity]
    |apply Qge_bool_false in E2].
  destruct (Qge_bool score 60) eqn:E3;
    [apply Qge_bool_true in E3; right; right; left; split; [lra|reflexivity]
    |apply Qge_bool_false in E3].
  right; right; right. split; [lra|reflexivity].
Qed.

(** ** Ranking: [sorted(.., reverse=True)] as a stable descending sort *)

Lemma key_compare_eq_iff (a b : Q * Z * Q) :
  MatchScorer.key_compare a b = Eq <->
  a.1.1 == b.1.1 /\ a.1.2 = b.1.2 /\ a.2 == b.2.
Proof.
  destruct a as [[a1 a2] a3], b as [[b1 b2] b3]; cbn.
  destruct (Qcompare_spec a1 b1) as [H1|H1|H1];
    [|split; [discriminate|intros (? & _); lra]..].
  destruct (Z.compare_spec a2 b2) as [H2|H2|H2];
    [|split; [discriminate|intros (_ & ? & _); lia]..].
  destruct (Qcompare_spec a3 b3) as [H3|H3|H3];
    [tauto|split; [discriminate|intros (_ & _ & ?); lra]..].
Qed.

Lemma key_compare_lt_iff (a b : Q * Z * Q) :
  MatchScorer.key_compare a b = Lt <->
  a.1.1 < b.1.1
  \/ (a.1.1 == b.1.1 /\ ((a.1.2 < b.1.2)%Z \/ (a.1.2 = b.1.2 /\ a.2 < b.2))).
Proof.
  destruct a as [[a1 a2] a3], b as [[b1 b2] b3]; cbn.
  destruct (Qcompare_spec a1 b1) as [H1|H1|H1].
  - destruct (Z.compare_spec a2 b2) as [H2|H2|H2].
    + destruct (Qcompare_spec a3 b3) as [H3|H3|H3].
      * split; [discriminate|]. intros [?|[_ [?|[_ ?]]]]; first [lra|lia].
      * split; [|reflexivity]. intros _. right. split; [exact H1|]. right. tauto.
      * split; [discriminate|]. intros [?|[_ [?|[_ ?]]]]; first [lra|lia].
    + split; [|reflexivity]. intros _. right. split; [exact H1|]. left. exact H2.
    + split; [discriminate|]. intros [?|[_ [?|[? _]]]]; first [lra|lia].
  - split; [|reflexivity]. intros _. left. exact H1.
  - split; [discriminate|]. intros [?|[? _]]; lra.
Qed.

Lemma key_ge_trans (a b c : Q * Z * Q) : key_ge a b -> key_ge b c -> key_ge a c.
Proof.
  unfold key_ge. rewrite !key_compare_lt_iff.
  destruct a as [[a1 a2] a3], b as [[b1 b2] b3], c as [[c1 c2] c3]; cbn.
  intros Hab Hbc Hac.
  assert (Hab1 : b1 <= a1) by (apply Qnot_lt_le; tauto).
  assert (Hbc1 : c1 <= b1) by (apply Qnot_lt_le; tauto).
  destruct Hac as [Hac|[Hac1 Hac]]; [lra|].
  assert (Eab : a1 == b1) by lra.
  assert (Ebc : b1 == c1) by lra.
  assert (Hab2 : (b2 <= a2)%Z) by (apply Z.nlt_ge; tauto).
  assert (Hbc2 : (c2 <= b2)%Z) by (apply Z.nlt_ge; tauto).
  destruct Hac as [Hac|[Hac2 Hac]]; [lia|].
  assert (Eab2 : a2 = b2) by lia.
  assert (Ebc2 : b2 = c2) by lia.
  assert (Hab3 : b3 <= a3) by (apply Qnot_lt_le; tauto).
  assert (Hbc3 : c3 <= b3) by (apply Qnot_lt_le; tauto).
  lra.
Qed.

Lemma key_lt_not_eqv (x y k : Q * Z * Q) :
  MatchScorer.key_compare x y = Lt -> key_eqb x k = true -> key_eqb y k = true -> False.
Proof.
  unfold key_eqb. intros Hlt Hx Hy.
  destruct (MatchScorer.key_compare x k) eqn:Ex; try discriminate.
  destruct (MatchScorer.key_compare y k) eqn:Ey; try discriminate.
  apply key_compare_eq_iff in Ex as (Ex1 & Ex2 & Ex3).
  apply key_compare_eq_iff in Ey as (Ey1 & Ey2 & Ey3).
  apply key_compare_lt_iff in Hlt as [H|[H1 [H|[H2 H]]]]; first [lra|lia].
Qed.

Section SortedReverse.
Context {A : Type} (key : A -> Q * Z * Q).

Lemma insert_desc_perm (x : A) (l : list A) :
  Permutation (MatchScorer.insert_desc key x l) (x :: l).
Proof.
  induction l as [|y l IH]; cbn; [reflexivity|].
  destruct (MatchScorer.key_compare (key x) (key y)); try reflexivity.
  rewrite IH. apply perm_swap.
Qed.

Lemma sorted_reverse_perm (l : list A) :
  Permutation (MatchScorer.sorted_reverse key l) l.
Proof.
  induction l as [|x l IH]; cbn; [reflexivity|].
  rewrite insert_desc_perm. apply perm_skip, IH.
Qed.

Lemma insert_desc_sorted (x : A) (l : list A) :
  StronglySorted (desc_by key) l -> StronglySorted (desc_by key) (MatchScorer.insert_desc key x l).
Proof.
  induction 1 as [|y l Hl IH Hy]; cbn.
  - constructor; constructor.
  - destruct (MatchScorer.key_compare (key x) (key y)) eqn:E.
    + constructor; [constructor; assumption|].
      assert (Hxy : desc_by key x y) by (unfold desc_by, key_ge; congruence).
      constructor; [exact Hxy|].
      eapply Forall_impl; [exact Hy|].
      intros z Hz. eapply key_ge_trans; eassumption.
    + constructor; [exact IH|].
      eapply Permutation_Forall; [symmetry; apply insert_desc_perm|].
      constructor; [|exact Hy].
      unfold desc_by, key_ge. intros Hyx.
      apply key_compare_lt_iff in E. apply key_compare_lt_iff in Hyx.
      destruct (key x) as [[x1 x2] x3], (key y) as [[y1 y2] y3]; cbn in *.
      destruct E as [?|[? [?|[? ?]]]], Hyx as [?|[? [?|[? ?]]]]; first [lra|lia].
    + constructor; [constructor; assumption|].
      assert (Hxy : desc_by key x y) by (unfold desc_by, key_ge; congruence).
      constructor; [exact Hxy|].
      eapply Forall_impl; [exact Hy|].
      intros z Hz. eapply key_ge_trans; eassumption.
Qed.

Lemma sorted_reverse_sorted (l : list A) :
  StronglySorted (desc_by key) (MatchScorer.sorted_reverse key l).
Proof.
  induction l as [|x l IH]; cbn; [constructor|].
  apply insert_desc_sorted, IH.
Qed.

(** Stability: the elements of one key class keep their order. *)
Lemma insert_desc_stable (k : Q * Z * Q) (x : A) (l : list A) :
  List.filter (fun a => key_eqb (key a) k) (MatchScorer.insert_desc key x l) =
  List.filter (fun a => key_eqb (key a) k) (x :: l).
Proof.
  induction l as [|y l IH]; [reflexivity|].
  cbn [MatchScorer.insert_desc].
  destruct (MatchScorer.key_compare (key x) (key y)) eqn:E; try reflexivity.
  cbn [List.filter] in *. rewrite IH.
  destruct (key_eqb (key x) k) eqn:Ex, (key_eqb (key y) k) eqn:Ey;
    try reflexivity.
  exfalso. eapply key_lt_not_eqv; eassumption.
Qed.

Lemma sorted_reverse_stable (k : Q * Z * Q) (l : list A) :
  List.filter (fun a => key_eqb (key a) k) (MatchScorer.sorted_reverse key l) =
  List.filter (fun a => key_eqb (key a) k) l.
Proof.
  induction l as [|x l IH]; [reflexivity|].
  cbn [MatchScorer.sorted_reverse foldr].
  change (foldr (MatchScorer.insert_desc key) [] l)
    with (MatchScorer.sorted_reverse key l).
  rewrite insert_desc_stable. cbn [List.filter]. rewrite IH. reflexivity.
Qed.

(** The sort only looks at the key through [key_compare]. *)
Lemma sorted_reverse_ext (key' : A -> Q * Z * Q) (l : list A) :
  (forall a b, MatchScorer.key_compare (key a) (key b) =
               MatchScorer.key_compare (key' a) (key' b)) ->
  MatchScorer.sorted_reverse key l = MatchScorer.sorted_reverse key' l.
Proof.
  intros Hext. induction l as [|x l IH]; [reflexivity|].
  cbn [MatchScorer.sorted_reverse foldr].
  change (foldr (MatchScorer.insert_desc key) [] l)
    with (MatchScorer.sorted_reverse key l).
  change (foldr (MatchScorer.insert_desc key') [] l)
    with (MatchScorer.sorted_reverse key' l).
  rewrite IH. generalize (MatchScorer.sorted_reverse key' l) as s.
  induction s as [|y s IHs]; [reflexivity|].
  cbn [MatchScorer.insert_desc]. rewrite Hext, IHs. reflexivity.
Qed.
End SortedReverse.

Lemma sort_key_compare_spec (a b : Match.t) :
  MatchScorer.key_compare (MatchScorer.sort_key a) (MatchScorer.sort_key b) =
  MatchScorer.key_compare (spec_sort_key a) (spec_sort_key b).
Proof.
  unfold MatchScorer.sort_key, spec_sort_key, MatchScorer.key_compare.
  destruct (_ ?= _); try reflexivity.
  rewrite !list_priority_get_spec. unfold spec_list_priority.
  repeat case_decide; reflexivity.
Qed.

Lemma rank_matches_spec_key (matches : list Match.t) :
  MatchScorer.rank_matches matches = MatchScorer.sorted_reverse spec_sort_key matches.
Proof. apply sorted_reverse_ext, sort_key_compare_spec. Qed.

Lemma rank_matches_perm (matches : list Match.t) :
  Permutation (MatchScorer.rank_matches matches) matches.
Proof. apply sorted_reverse_perm. Qed.

(** C9: ranking returns the same matches, in descending order of the
    tuple (risk_score, list_priority(source), raw score) with the priority
    table OFAC 100, UN 90, HMT 80, EU 70 and 50 for any other source, and
    the matches of equal tuples stay in their input order. *)
Theorem C9_rank_matches_stable_descending (matches : list Match.t) :
  Permutation (MatchScorer.rank_matches matches) matches
  /\ StronglySorted (desc_by spec_sort_key) (MatchScorer.rank_matches matches)
  /\ forall k : Q * Z * Q,
       List.filter (fun m => key_eqb (spec_sort_key m) k)
                   (MatchScorer.rank_matches matches) =
       List.filter (fun m => key_eqb (spec_sort_key m) k) matches.
Proof.
  split; [apply rank_matches_perm|].
  rewrite rank_matches_spec_key. split.
  - apply sorted_reverse_sorted.
  - intros k. apply sorted_reverse_stable.
Qed.

Example rank_matches_demo :
  let mk rs src raw :=
    Match.mk (Some "fuzzy") (Some raw) (Some true) None None (Some "x")
             (Some src) None None (Some rs) None in
  MatchScorer.rank_matches
    [mk 70 "EU" 100; mk 70 "XX" 100; mk 90 "UN" 100; mk 70 "YY" 100; mk 70 "OFAC" 70]
  = [mk 90 "UN" 100; mk 70 "OFAC" 70; mk 70 "EU" 100; mk 70 "XX" 100; mk 70 "YY" 100].
Proof. vm_compute. reflexivity. Qed.

(** ** The matching engine *)

Section EngineFacts.
Context `{Rapidfuzz} `{Preprocessor}.

(** The scored matches of a screening call, before the threshold cut. *)
Lemma screen_name_short (query_name : string) (sanctions_df : list Row.t) :
  (PyStr.len (PyStr.strip query_name) < thresholds.MIN_NAME_LENGTH)%nat ->
  MatchingEngine.screen_name query_name sanctions_df =
    Screening.mk query_name None [] (MatchScorer.create_match_summary [])
                 None None None None.
Proof.
  intros Hlen. unfold MatchingEngine.screen_name.
  apply Nat.ltb_lt in Hlen. rewrite Hlen, orb_true_r. reflexivity.
Qed.

Lemma screen_name_matches (query_name : string) (sanctions_df : list Row.t) :
  Screening.matches (MatchingEngine.screen_name query_name sanctions_df) = []
  \/ Screening.matches (MatchingEngine.screen_name query_name sanctions_df) =
       MatchScorer.rank_matches
         (List.filter MatchingEngine.significant
            (map MatchingEngine.annotate
               (MatchingEngine.collect (process_single query_name) sanctions_df))).
Proof.
  unfold MatchingEngine.screen_name.
  destruct (_ || _); [left|right]; reflexivity.
Qed.

Lemma screen_name_summary (query_name : string) (sanctions_df : list Row.t) :
  Screening.summary (MatchingEngine.screen_name query_name sanctions_df) =
    MatchScorer.create_match_summary
      (Screening.matches (MatchingEngine.screen_name query_name sanctions_df)).
Proof.
  unfold MatchingEngine.screen_name.
  destruct (_ || _); reflexivity.
Qed.

Lemma screen_name_query (query_name : string) (sanctions_df : list Row.t) :
  Screening.query (MatchingEngine.screen_name query_name sanctions_df) = query_name.
Proof.
  unfold MatchingEngine.screen_name.
  destruct (_ || _); reflexivity.
Qed.

Lemma significant_spec (m : Match.t) :
  MatchingEngine.significant m = true <-> 60 <= default 0 (Match.risk_score m).
Proof. apply Qge_bool_true. Qed.

(** C10: every match of the ranked list returned by the matching engine
    carries a risk score of at least 60; a scored match whose weighted
    risk score is below 60 is absent from the list, whatever its raw
    matcher score, and the summary counts the returned list only. *)
Theorem C10_ranked_matches_at_least_low
    (query_name : string) (sanctions_df : list Row.t) :
  let r := MatchingEngine.screen_name query_name sanctions_df in
  Forall (fun m => exists rs, Match.risk_score m = Some rs /\ 60 <= rs)
         (Screening.matches r)
  /\ (forall m,
        m ∈ MatchingEngine.collect (process_single query_name) sanctions_df ->
        MatchScorer.calculate_risk_score m (default "" (Match.source m)) < 60 ->
        MatchingEngine.annotate m ∉ Screening.matches r)
  /\ Screening.summary r = MatchScorer.create_match_summary (Screening.matches r)
  /\ Summary.total_matches (Screening.summary r) = Some (length (Screening.matches r)).
Proof.
  intros r.
  assert (Hall : Forall (fun m => exists rs, Match.risk_score m = Some rs /\ 60 <= rs)
                        (Screening.matches r)); subst r.
  { destruct (screen_name_matches query_name sanctions_df) as [-> | ->];
      [constructor|].
    eapply Permutation_Forall; [symmetry; apply rank_matches_perm|].
    apply Forall_forall. intros m Hm.
    apply list_elem_of_In, filter_In in Hm as [Hin Hsig].
    apply in_map_iff in Hin as (m0 & <- & _).
    exists (MatchScorer.calculate_risk_score m0 (default "" (Match.source m0))).
    split; [reflexivity|]. apply significant_spec in Hsig. exact Hsig. }
  split; [exact Hall|]. split; [|split].
  - intros m _ Hlow Hin.
    rewrite Forall_forall in Hall. destruct (Hall _ Hin) as (rs & Hrs & Hge).
    cbn in Hrs. injection Hrs as <-. lra.
  - apply screen_name_summary.
  - rewrite (screen_name_summary query_name sanctions_df).
    destruct (Screening.matches _); reflexivity.
Qed.
End EngineFacts.

(** ** The token matcher *)

Section TokenFacts.
Context `{Rapidfuzz}.

Lemma fold_Qmax_bounds (l : list Q) (b : Q) :
  let r := fold_left Qmax l b in
  b <= r /\ Forall (fun x => x <= r) l /\ (r == b \/ Exists (fun x => r == x) l).
Proof.
  revert b. induction l as [|x l IH]; intros b; cbn.
  - split; [lra|]. split; [constructor|]. left. reflexivity.
  - destruct (IH (Qmax b x)) as (Hb & Hall & Hex).
    pose proof (Q.le_max_l b x). pose proof (Q.le_max_r b x).
    split; [lra|]. split; [constructor; [lra|exact Hall]|].
    destruct Hex as [Hex|Hex]; [|right; right; exact Hex].
    destruct (Q.max_spec b x) as [[_ E]|[_ E]].
    + right. left. exact (Qeq_trans _ _ _ Hex E).
    + left. exact (Qeq_trans _ _ _ Hex E).
Qed.

Lemma best_match_bounds (q_token : string) (target_tokens : list string) :
  let b := (TokenMatcher.best_match q_token target_tokens).1 in
  0 <= b
  /\ Forall (fun t => SimilarityCalculator.levenshtein_ratio q_token t <= b) target_tokens
  /\ (b == 0 \/ Exists (fun t => b == SimilarityCalculator.levenshtein_ratio q_token t)
                       target_tokens).
Proof.
  unfold TokenMatcher.best_match.
  generalize (@None string) as tok. generalize 0 as b0.
  induction target_tokens as [|t ts IH]; intros b0 tok; cbn.
  - split; [lra|]. split; [constructor|]. left. reflexivity.
  - destruct (Qgt_bool _ b0) eqn:E.
    + apply Qgt_bool_true in E.
      destruct (IH (SimilarityCalculator.levenshtein_ratio q_token t) (Some t))
        as (Hb & Hall & Hex).
      split; [lra|]. split; [constructor; [lra|exact Hall]|].
      right. destruct Hex as [Hex|Hex]; [left|right]; assumption.
    + apply Qgt_bool_false in E.
      destruct (IH b0 tok) as (Hb & Hall & Hex).
      split; [exact Hb|]. split; [constructor; [lra|exact Hall]|].
      destruct Hex as [Hex|Hex]; [left|right; right]; assumption.
Qed.

(** On a non-empty target list the loop accepts exactly the tokens
    whose best ratio reaches 60, with that best ratio as the score. *)
Lemma best_match_accepts (q_token : string) (target_tokens : list string) :
  target_tokens <> [] ->
  let b := (TokenMatcher.best_match q_token target_tokens).1 in
  Qge_bool b thresholds.LOW_RISK_THRESHOLD = spec_accepted target_tokens q_token
  /\ (spec_accepted target_tokens q_token = true ->
      b == spec_best q_token target_tokens).
Proof.
  intros Hne b.
  pose proof (best_match_bounds q_token target_tokens) as (_ & Hub & Hatt).
  fold b in Hub, Hatt.
  destruct target_tokens as [|t ts]; [congruence|]. clear Hne.
  unfold spec_accepted, spec_best, thresholds.LOW_RISK_THRESHOLD.
  set (lev := SimilarityCalculator.levenshtein_ratio q_token) in *.
  pose proof (fold_Qmax_bounds (map lev ts) (lev t)) as (Hs0 & Hsub & Hsatt).
  set (s := fold_left Qmax (map lev ts) (lev t)) in *.
  assert (Hsb : s <= b).
  { apply Forall_cons in Hub as [Hub0 Hub].
    destruct Hsatt as [->|Hsatt]; [exact Hub0|].
    apply Exists_exists in Hsatt as (x & Hx & ->).
    apply list_elem_of_fmap in Hx as (u & -> & Hu).
    rewrite Forall_forall in Hub. apply Hub, Hu. }
  assert (Hbs : b == 0 \/ b <= s).
  { destruct Hatt as [?|Hatt]; [left; assumption|right].
    apply Exists_cons in Hatt as [->|Hatt]; [exact Hs0|].
    apply Exists_exists in Hatt as (u & Hu & ->).
    rewrite Forall_forall in Hsub. apply Hsub.
    apply list_elem_of_fmap. exists u. split; [reflexivity|exact Hu]. }
  destruct (Qge_bool s 60) eqn:Es.
  - apply Qge_bool_true in Es. split.
    + apply Qge_bool_true. lra.
    + intros _. destruct Hbs; lra.
  - apply Qge_bool_false in Es. split; [|discriminate].
    apply Qge_bool_false. destruct Hbs; lra.
Qed.

Lemma scan_spec (query_tokens target_tokens : list string) :
  target_tokens <> [] ->
  let '(matched_tokens, total_score) := TokenMatcher.scan query_tokens target_tokens in
  total_score == spec_token_total query_tokens target_tokens
  /\ length matched_tokens =
       length (List.filter (spec_accepted target_tokens) query_tokens).
Proof.
  intros Hne. unfold TokenMatcher.scan.
  assert (Hgen : forall (acc_m : list MatchedToken.t) (acc_t : Q),
    let '(matched_tokens, total_score) :=
      fold_left
        (fun '(matched_tokens, total_score) q_token =>
           let '(best_match_score, best_match_token) :=
             TokenMatcher.best_match q_token target_tokens in
           if Qge_bool best_match_score thresholds.LOW_RISK_THRESHOLD
           then (matched_tokens
                   ++ [MatchedToken.mk q_token best_match_token best_match_score],
                 total_score + best_match_score)
           else (matched_tokens, total_score))
        query_tokens (acc_m, acc_t) in
    total_score == acc_t + spec_token_total query_tokens target_tokens
    /\ length matched_tokens =
         (length acc_m
          + length (List.filter (spec_accepted target_tokens) query_tokens))%nat).
  { induction query_tokens as [|q qs IH]; intros acc_m acc_t.
    - cbn. split; [lra|lia].
    - cbn [fold_left].
      pose proof (best_match_accepts q target_tokens Hne) as [Hacc Hval].
      destruct (TokenMatcher.best_match q target_tokens) as [bs bt] eqn:Eb.
      cbn [fst] in Hacc, Hval. rewrite Hacc.
      cbn [spec_token_total foldr List.filter].
      fold (spec_token_total qs target_tokens).
      destruct (spec_accepted target_tokens q) eqn:Ea.
      + specialize (IH (acc_m ++ [MatchedToken.mk q bt bs]) (acc_t + bs)).
        destruct (fold_left _ qs _) as [m t]. destruct IH as [IH1 IH2].
        specialize (Hval eq_refl). split; [lra|].
        rewrite IH2, length_app. cbn. lia.
      + specialize (IH acc_m acc_t).
        destruct (fold_left _ qs _) as [m t]. destruct IH as [IH1 IH2].
        split; [lra|lia]. }
  specialize (Hgen [] 0).
  destruct (fold_left _ query_tokens _) as [m t]. destruct Hgen as [H1 H2].
  split; [lra|exact H2].
Qed.

End TokenFacts.

Section TokenSpecFacts.
Context `{Rapidfuzz}.

(** [spec_best] is the greatest edit-ratio over the target tokens. *)
Lemma spec_best_greatest (q_token : string) (target_tokens : list string) :
  target_tokens <> [] ->
  Forall (fun t => SimilarityCalculator.levenshtein_ratio q_token t
                   <= spec_best q_token target_tokens) target_tokens
  /\ Exists (fun t => spec_best q_token target_tokens
                      == SimilarityCalculator.levenshtein_ratio q_token t)
            target_tokens.
Proof.
  destruct target_tokens as [|t ts]; [congruence|]. intros _.
  unfold spec_best.
  set (lev := SimilarityCalculator.levenshtein_ratio q_token).
  pose proof (fold_Qmax_bounds (map lev ts) (lev t)) as (H0 & Hub & Hatt).
  split.
  - constructor; [exact H0|].
    apply Forall_forall. intros u Hu.
    rewrite Forall_forall in Hub. apply Hub.
    apply list_elem_of_fmap. exists u. split; [reflexivity|exact Hu].
  - destruct Hatt as [Hatt|Hatt]; [left; exact Hatt|right].
    apply Exists_exists in Hatt as (x & Hx & Hrx).
    apply list_elem_of_fmap in Hx as (u & -> & Hu).
    apply Exists_exists. exists u. split; assumption.
Qed.
End TokenSpecFacts.

(** ** The orchestrator on one candidate *)

Section EntryFacts.
Context `{Rapidfuzz}.

Lemma exact_match_is_match (query target : string) :
  Match.is_match (ExactMatcher.match_ query target) =
    Some (PyStr.eqb (PyStr.strip (PyStr.lower query))
                    (PyStr.strip (PyStr.lower target))).
Proof. reflexivity. Qed.

Lemma falsy_spec (s : string) : PyStr.falsy s = true <-> s = "".
Proof. destruct s; cbn; split; congruence. Qed.

(** C8, as the code has it: a candidate with a non-empty comparison
    name equal to the normalized query (case-insensitively, ignoring
    outer whitespace) yields exactly the exact-match record with score
    100 and only the exact matcher runs; a candidate with an empty name
    is skipped without any matcher call; any other candidate yields no
    exact record, at most one fuzzy record followed by at most one token
    record, and both are emitted when both matchers report a match. *)
Theorem C8_exact_short_circuit (query_processed : Profile.t) (sanction_row : Row.t) :
  let name := MatchingEngine.sanction_name_of sanction_row in
  let same :=
    PyStr.eqb (PyStr.strip (PyStr.lower (Profile.normalized query_processed)))
              (PyStr.strip (PyStr.lower name)) in
  let out := MatchingEngine._match_against_entry_traced query_processed sanction_row in
  let fuzzy := FuzzyMatcher.match_ (Profile.normalized query_processed) name in
  let tokens := default [] (Row.tokens sanction_row) in
  let token := TokenMatcher.match_ (Profile.tokens query_processed) tokens in
  (name = "" -> out = ([], []))
  /\ (name <> "" -> same = true ->
      exists m, out = ([m], [CallExact])
                /\ Match.match_type m = Some "exact"
                /\ Match.score m = Some 100
                /\ Match.target_name m = Some (default "" (Row.name sanction_row))
                /\ Match.source m = Some (default "" (Row.source sanction_row)))
  /\ (name <> "" -> same = false ->
      out.1 =
        (if default false (Match.is_match fuzzy)
         then [MatchingEngine.from_row fuzzy sanction_row
                 (MatchingEngine.upper_level (Match.match_level fuzzy))]
         else [])
        ++ (if negb (bool_decide (tokens = [])) && default false (Match.is_match token)
            then [MatchingEngine.from_row token sanction_row "MEDIUM"]
            else [])
      /\ Forall (fun m => Match.match_type m = Some "fuzzy"
                          \/ Match.match_type m = Some "token") out.1
      /\ (length (List.filter (fun m => bool_decide (Match.match_type m = Some "exact"))
                              out.1) = 0)%nat
      /\ (length (List.filter (fun m => bool_decide (Match.match_type m = Some "fuzzy"))
                              out.1) <= 1)%nat
      /\ (length (List.filter (fun m => bool_decide (Match.match_type m = Some "token"))
                              out.1) <= 1)%nat
      /\ hd_error out.2 = Some CallExact).
Proof.
  intros name same out fuzzy tokens token.
  unfold out, MatchingEngine._match_against_entry_traced. fold name.
  split; [|split].
  - intros ->. reflexivity.
  - intros Hname Hsame.
    destruct (PyStr.falsy name) eqn:Ef; [apply falsy_spec in Ef; congruence|].
    unfold ExactMatcher.match_. fold same. rewrite Hsame.
    cbn [default from_option Match.is_match].
    eexists. split; [reflexivity|]. repeat split; reflexivity.
  - intros Hname Hsame.
    destruct (PyStr.falsy name) eqn:Ef; [apply falsy_spec in Ef; congruence|].
    rewrite exact_match_is_match. fold same. rewrite Hsame. cbn [default from_option].
    fold fuzzy tokens.
    assert (Hf : Match.match_type fuzzy = Some "fuzzy").
    { unfold fuzzy, FuzzyMatcher.match_.
      destruct (SimilarityCalculator.weighted_average _ _). reflexivity. }
    assert (Ht : Match.match_type token = Some "token").
    { unfold token, TokenMatcher.match_.
      destruct (Profile.tokens query_processed), tokens; try reflexivity;
        destruct (TokenMatcher.scan _ _); reflexivity. }
    destruct tokens as [|t ts] eqn:Et.
    + cbn [fst snd negb andb bool_decide]. rewrite app_nil_r.
      destruct (default false (Match.is_match fuzzy)); cbn; rewrite ?Hf; cbn;
        repeat split;
        repeat first [ reflexivity | lia
                     | left; first [reflexivity | exact Hf]
                     | right; first [reflexivity | exact Ht]
                     | constructor ].
    + fold token. rewrite <- Et in *. fold token.
      replace (negb (bool_decide (tokens = []))) with true
        by (rewrite Et; reflexivity).
      cbn [fst snd andb].
      destruct (default false (Match.is_match fuzzy)),
               (default false (Match.is_match token));
        cbn; rewrite ?Hf, ?Ht; cbn;
        repeat split;
        repeat first [ reflexivity | lia
                     | left; first [reflexivity | exact Hf]
                     | right; first [reflexivity | exact Ht]
                     | constructor ].
Qed.
End EntryFacts.

Lemma C8_exact_short_circuit_witness :
  let q := Profile.mk "Kim" "kim" "kim" ["kim"] {["kim"]} in
  let row := Row.mk (Some "Kim") (Some "kim") (Some ["kim"]) (Some "OFAC") (Some "SDN") in
  MatchingEngine.sanction_name_of row <> ""
  /\ PyStr.eqb (PyStr.strip (PyStr.lower (Profile.normalized q)))
               (PyStr.strip (PyStr.lower (MatchingEngine.sanction_name_of row))) = true
  /\ exists m,
       @MatchingEngine._match_against_entry_traced sample_fuzz q row = ([m], [CallExact])
       /\ Match.score m = Some 100.
Proof.
  intros q row.
  assert (Hname : MatchingEngine.sanction_name_of row <> "") by discriminate.
  assert (Hsame : PyStr.eqb (PyStr.strip (PyStr.lower (Profile.normalized q)))
                    (PyStr.strip (PyStr.lower (MatchingEngine.sanction_name_of row)))
                  = true) by reflexivity.
  split; [exact Hname|]. split; [exact Hsame|].
  destruct (proj1 (proj2 (@C8_exact_short_circuit sample_fuzz q row)) Hname Hsame)
    as (m & Hout & _ & Hscore & _).
  exists m. split; assumption.
Defined.

(** The claim of C8 as stated fails on a candidate whose normalized name
    is empty: the query "Abu" and the candidate "Abu" both normalize to
    the empty string (the cleaner drops the connecting word), the
    normalized names are equal, and no record is emitted. *)
Lemma C8_counterexample :
  let q := Profile.mk "Abu" "" "" [] ∅ in
  let row := Row.mk (Some "Abu") (Some "") (Some []) (Some "OFAC") (Some "SDN") in
  Row.normalized row = Some (Profile.normalized q)
  /\ PyStr.eqb (PyStr.strip (PyStr.lower (Profile.normalized q)))
               (PyStr.strip (PyStr.lower (MatchingEngine.sanction_name_of row))) = true
  /\ @MatchingEngine._match_against_entry_traced sample_fuzz q row = ([], [])
  /\ length (@MatchingEngine._match_against_entry sample_fuzz q row) <> 1%nat.
Proof. cbv zeta. repeat split; try reflexivity. discriminate. Qed.

(** ** The flagging pipeline *)

Lemma apply_filters_nil (query : string) :
  FalsePositiveFilter.apply_filters [] query = [].
Proof.
  unfold FalsePositiveFilter.apply_filters.
  cbn [fold_left FalsePositiveFilter.filters].
  unfold FalsePositiveFilter._filter_common_words. cbn [List.filter].
  unfold FalsePositiveFilter._filter_short_names.
  destruct (_ <=? _)%nat; reflexivity.
Qed.

(** The division of the title filter is guarded: a non-empty set of title
    words makes the set of common words non-empty. *)
Lemma title_words_guard (query_words target_words : gset string) :
  (0 < size ((query_words ∩ target_words) ∩ FalsePositiveFilter.titles))%nat ->
  (0 < size (query_words ∩ target_words))%nat.
Proof.
  intros Hpos.
  eapply Nat.lt_le_trans; [exact Hpos|].
  apply subseteq_size, intersection_subseteq_l.
Qed.

Section PipelineFacts.
Context `{Clock}.

(** What the pipeline does with a result that has no matches. *)
Lemma process_no_matches (query : string) (pq : option Profile.t) :
  exists r,
    FlaggingEngine.process_screening_result
      (Screening.mk query pq [] (MatchScorer.create_match_summary [])
                    None None None None) = Ok r
    /\ Screening.matches r = []
    /\ Screening.summary r = MatchScorer.create_match_summary []
    /\ Screening.applied_rule r = Some "low_risk_clear"
    /\ (Screening.decision r ≫= Decision.action) = Some "AUTO_CLEAR".
Proof.
  unfold FlaggingEngine.process_screening_result, FlaggingEngine.filtered.
  cbn [Screening.matches Screening.query]. rewrite apply_filters_nil.
  eexists. split; [reflexivity|]. repeat split; reflexivity.
Qed.
End PipelineFacts.

Section ScreenFacts.
Context `{Rapidfuzz} `{Preprocessor} `{Clock}.

(** C6: a query whose trimmed length is below 3 (the empty string
    included), whatever the candidates, and any query against an empty
    candidate collection, screen without error to a result with zero
    matches, highest risk NONE, [can_auto_clear] true and the decision
    AUTO_CLEAR. *)
Theorem C6_short_query_or_no_candidates
    (query_name : string) (sanctions_df : list Row.t) :
  (PyStr.len (PyStr.strip query_name) < 3)%nat \/ sanctions_df = [] ->
  exists r,
    screen query_name sanctions_df = Ok r
    /\ Screening.matches r = []
    /\ Summary.total_matches (Screening.summary r) = Some 0%nat
    /\ Summary.highest_risk (Screening.summary r) = Some "NONE"
    /\ Summary.can_auto_clear (Screening.summary r) = Some true
    /\ (Screening.decision r ≫= Decision.action) = Some "AUTO_CLEAR".
Proof.
  intros Hcase.
  assert (Hscr : exists pq,
             MatchingEngine.screen_name query_name sanctions_df =
               Screening.mk query_name pq [] (MatchScorer.create_match_summary [])
                            None None None None).
  { destruct Hcase as [Hshort | ->].
    - exists None. apply screen_name_short. exact Hshort.
    - unfold MatchingEngine.screen_name.
      destruct (_ || _); [exists None|eexists (Some _)]; reflexivity. }
  destruct Hscr as [pq Hscr]. unfold screen. rewrite Hscr.
  destruct (process_no_matches query_name pq) as (r & Hr & Hm & Hs & _ & Ha).
  exists r. rewrite Hs. repeat split; try assumption; reflexivity.
Qed.
End ScreenFacts.

Lemma C6_short_query_or_no_candidates_witness :
  let df := [Row.mk (Some "Al") (Some "al") (Some ["al"]) (Some "OFAC") (Some "SDN")] in
  ((PyStr.len (PyStr.strip " Al ") < 3)%nat \/ df = [])
  /\ exists r,
       @screen sample_fuzz sample_preprocessor sample_clock " Al " df = Ok r
       /\ Screening.matches r = []
       /\ (Screening.decision r ≫= Decision.action) = Some "AUTO_CLEAR".
Proof.
  intros df.
  assert (Hcase : (PyStr.len (PyStr.strip " Al ") < 3)%nat \/ df = [])
    by (left; cbn; lia).
  split; [exact Hcase|].
  destruct (@C6_short_query_or_no_candidates
              sample_fuzz sample_preprocessor sample_clock " Al " df Hcase)
    as (r & Hr & Hm & _ & _ & _ & Ha).
  exists r. repeat split; assumption.
Defined.

(** ** The rule engine and the decision it hands over *)

Lemma Ok_inj {A : Type} (a b : A) : Ok a = Ok b -> a = b.
Proof. congruence. Qed.

Lemma run_rules_decided (table : list (string * BusinessRules.rule))
    (sr fr : Screening.t) :
  Forall (fun entry => forall ms sm r d, entry.2 ms sm r = Ok (Some d) -> rule_shape d)
         table ->
  BusinessRules.run_rules table sr = Ok fr ->
  exists d rule_name, fr = BusinessRules.decided sr d rule_name /\ rule_shape d.
Proof.
  induction 1 as [|[rule_name rule_func] table Hrule Htable IH]; cbn; intros Hrun.
  - injection Hrun as <-. eexists _, _. split; [reflexivity|].
    repeat split; reflexivity.
  - destruct (rule_func _ _ _) as [[d|]|e] eqn:Er; cbn in Hrun.
    + injection Hrun as <-. eexists _, _. split; [reflexivity|].
      eapply Hrule. cbn. exact Er.
    + apply IH, Hrun.
    + discriminate.
Qed.

Lemma rules_shape :
  Forall (fun entry : string * BusinessRules.rule =>
            forall ms sm r d, entry.2 ms sm r = Ok (Some d) -> rule_shape d)
         BusinessRules.rules.
Proof.
  unfold BusinessRules.rules.
  constructor; [|constructor; [|constructor; [|constructor; [|constructor;
    [|constructor]]]]]; cbn; intros ms sm r d Hd.
  - unfold BusinessRules._exact_ofac_block in Hd.
    destruct (List.find _ _); inversion Hd; subst; repeat split; reflexivity.
  - unfold BusinessRules._high_risk_escalate in Hd.
    destruct (Qge_bool _ _); [|discriminate].
    destruct (max_by _ _); cbn in Hd; inversion Hd; subst; repeat split; reflexivity.
  - unfold BusinessRules._medium_risk_review in Hd.
    destruct (_ && _); inversion Hd; subst; repeat split; reflexivity.
  - unfold BusinessRules._low_risk_clear in Hd.
    destruct (default _ _); inversion Hd; subst; repeat split; reflexivity.
  - unfold BusinessRules._common_name_filter in Hd.
    destruct (_ && _); inversion Hd; subst; repeat split; reflexivity.
Qed.

Lemma apply_rules_decided (sr fr : Screening.t) :
  BusinessRules.apply_rules sr = Ok fr ->
  exists d rule_name, fr = BusinessRules.decided sr d rule_name /\ rule_shape d.
Proof. apply run_rules_decided, rules_shape. Qed.

Section FlaggingFacts.
Context `{Clock}.

(** The result of the pipeline, in terms of the rule engine's output on
    the filtered matches and the summary as it came in. *)
Lemma process_screening_result_inv (r r' : Screening.t) :
  FlaggingEngine.process_screening_result r = Ok r' ->
  exists d rule_name,
    BusinessRules.apply_rules (FlaggingEngine.filtered r) =
      Ok (BusinessRules.decided (FlaggingEngine.filtered r) d rule_name)
    /\ rule_shape d
    /\ Screening.query r' = Screening.query r
    /\ Screening.matches r' =
         FalsePositiveFilter.apply_filters (Screening.matches r) (Screening.query r)
    /\ Screening.summary r' = Screening.summary r
    /\ Screening.applied_rule r' = Some rule_name
    /\ Screening.decision r' = Some (FlaggingEngine.finalize d).
Proof.
  unfold FlaggingEngine.process_screening_result.
  destruct (BusinessRules.apply_rules _) as [fr|e] eqn:Ea;
    cbn [mbind result_bind]; [|discriminate].
  intros Hr. apply Ok_inj in Hr. subst r'.
  destruct (apply_rules_decided _ _ Ea) as (d & rule_name & -> & Hshape).
  exists d, rule_name.
  split; [reflexivity|]. split; [exact Hshape|].
  repeat split; reflexivity.
Qed.

Lemma finalize_cases (d : Decision.t) :
  rule_shape d ->
  (DecisionMaker.validate_decision d = true
   /\ FlaggingEngine.finalize d =
        Decision.with_workflow d (DecisionMaker.get_workflow_routing d)
   /\ Decision.requires_approval (FlaggingEngine.finalize d) = None
   /\ Decision.sla_hours (FlaggingEngine.finalize d) = None
   /\ Decision.workflow (FlaggingEngine.finalize d) =
        Some (DecisionMaker.get_workflow_routing d))
  \/ (DecisionMaker.validate_decision d = false
      /\ FlaggingEngine.finalize d = FlaggingEngine.fallback_decision
      /\ Decision.action (FlaggingEngine.finalize d) = Some "MANUAL_REVIEW"
      /\ Decision.requires_approval (FlaggingEngine.finalize d) = Some false
      /\ Decision.sla_hours (FlaggingEngine.finalize d) = Some 24%Z
      /\ Decision.workflow (FlaggingEngine.finalize d) = None).
Proof.
  intros (Hra & Hsla & _). unfold FlaggingEngine.finalize.
  destruct (DecisionMaker.validate_decision d); [left|right].
  - cbn. rewrite Hra, Hsla. repeat split; reflexivity.
  - repeat split; reflexivity.
Qed.

(** The escalation rule fails when the summary reports a high score and
    no match is left after filtering. *)
Lemma high_risk_escalate_raises (r : Screening.t) :
  FalsePositiveFilter.apply_filters (Screening.matches r) (Screening.query r) = [] ->
  85 <= default 0 (Summary.highest_score (Screening.summary r)) ->
  FlaggingEngine.process_screening_result r =
    Raise (ValueError "max() arg is an empty sequence").
Proof.
  intros Hnone Hhigh.
  unfold FlaggingEngine.process_screening_result, FlaggingEngine.filtered.
  rewrite Hnone.
  unfold BusinessRules.apply_rules, BusinessRules.rules.
  cbn [BusinessRules.run_rules]. cbn [Screening.matches Screening.summary].
  unfold BusinessRules._exact_ofac_block at 1. cbn [List.find mbind result_bind].
  unfold BusinessRules._high_risk_escalate at 1.
  apply Qge_bool_true in Hhigh. rewrite Hhigh. reflexivity.
Qed.

(** The decision of the common-name rule has no timestamp and is
    replaced by the fallback decision. *)
Lemma common_name_falls_back (r : Screening.t) :
  let fr := FlaggingEngine.filtered r in
  let ms := Screening.matches fr in
  let sm := Screening.summary fr in
  BusinessRules._exact_ofac_block ms sm fr = Ok None ->
  BusinessRules._high_risk_escalate ms sm fr = Ok None ->
  BusinessRules._medium_risk_review ms sm fr = Ok None ->
  BusinessRules._low_risk_clear ms sm fr = Ok None ->
  PyStr.member (PyStr.strip (PyStr.lower (Screening.query r)))
               BusinessRules.common_names = true ->
  default 0 (Summary.highest_score (Screening.summary r)) < 80 ->
  exists r',
    FlaggingEngine.process_screening_result r = Ok r'
    /\ Screening.applied_rule r' = Some "common_name_filter"
    /\ Screening.decision r' = Some FlaggingEngine.fallback_decision.
Proof.
  intros fr ms sm H1 H2 H3 H4 Hname Hscore.
  unfold FlaggingEngine.process_screening_result.
  fold fr. unfold BusinessRules.apply_rules, BusinessRules.rules.
  cbn [BusinessRules.run_rules]. fold ms sm.
  rewrite H1. cbn [mbind result_bind]. rewrite H2. cbn [mbind result_bind].
  rewrite H3. cbn [mbind result_bind]. rewrite H4. cbn [mbind result_bind].
  unfold BusinessRules._common_name_filter.
  replace (Screening.query fr) with (Screening.query r) by reflexivity.
  replace sm with (Screening.summary r) by reflexivity.
  rewrite Hname. apply Qlt_bool_true in Hscore. rewrite Hscore.
  cbn [andb mbind result_bind].
  eexists. split; [reflexivity|]. split; reflexivity.
Qed.
End FlaggingFacts.

Section SummaryFacts.
Context `{Rapidfuzz} `{Preprocessor} `{Clock}.

(** The summary of a screening call is computed by the matching engine
    over the ranked match list, before false-positive filtering; the
    flagging pipeline replaces the match list by the filtered one and
    never recomputes the summary, so the decision rules read the filtered
    matches together with the summary of the unfiltered list. *)
Lemma summary_precedes_filtering
    (query_name : string) (sanctions_df : list Row.t) (r' : Screening.t) :
  screen query_name sanctions_df = Ok r' ->
  let r := MatchingEngine.screen_name query_name sanctions_df in
  Screening.summary r' = MatchScorer.create_match_summary (Screening.matches r)
  /\ Screening.matches r' =
       FalsePositiveFilter.apply_filters (Screening.matches r) query_name
  /\ exists d rule_name,
       BusinessRules.apply_rules (FlaggingEngine.filtered r) =
         Ok (BusinessRules.decided (FlaggingEngine.filtered r) d rule_name)
       /\ Screening.matches (FlaggingEngine.filtered r) =
            FalsePositiveFilter.apply_filters (Screening.matches r) query_name
       /\ Screening.summary (FlaggingEngine.filtered r) =
            MatchScorer.create_match_summary (Screening.matches r)
       /\ Screening.applied_rule r' = Some rule_name
       /\ Screening.decision r' = Some (FlaggingEngine.finalize d).
Proof.
  intros Hscreen r.
  apply process_screening_result_inv in Hscreen
    as (d & rule_name & Hrules & _ & Hq & Hm & Hs & Hrule & Hd).
  fold r in Hrules, Hq, Hm, Hs.
  assert (Hquery : Screening.query r = query_name) by apply screen_name_query.
  assert (Hsum : Screening.summary r =
                 MatchScorer.create_match_summary (Screening.matches r))
    by apply screen_name_summary.
  rewrite Hquery in Hm. rewrite Hsum in Hs.
  split; [exact Hs|]. split; [exact Hm|].
  exists d, rule_name. split; [exact Hrules|].
  split; [unfold FlaggingEngine.filtered; cbn [Screening.matches];
          rewrite Hquery; reflexivity|].
  split; [exact Hsum|]. split; assumption.
Qed.
End SummaryFacts.

(** C1 on the code: for the query "Ali Hassan" with a strong match on
    the short name "Ali" (risk score 88) and a weak match on a longer name
    (risk score 65), the short-name filter removes the strong match, yet
    the summary that the rules read still counts two matches with the
    highest score 88.  The escalation rule fires on that score, reports it
    in its reason and attaches the remaining match of score 65; the
    compliance record, which recomputes the highest score from the
    filtered list, says 65; and the rules applied to the summary of the
    surviving match give AUTO_CLEAR. *)
Theorem C1_decision_reads_stale_summary (clk : Clock) :
  Screening.summary ali_screening
  = MatchScorer.create_match_summary (Screening.matches ali_screening)
  /\ exists r' d c h r'',
       @FlaggingEngine.process_screening_result clk ali_screening = Ok r'
       /\ Screening.matches r' = [ali_weak_match]
       /\ risk_of ali_weak_match == 65
       /\ Screening.summary r' = Screening.summary ali_screening
       /\ Screening.summary r' <> MatchScorer.create_match_summary (Screening.matches r')
       /\ Summary.total_matches (Screening.summary r') = Some 2%nat
       /\ Summary.highest_score (Screening.summary r') = Some h /\ h == 88
       /\ Screening.applied_rule r' = Some "high_risk_escalate"
       /\ Screening.decision r' = Some d
       /\ Decision.action d = Some "ESCALATE"
       /\ Decision.reason d = Some "High-risk match (score: 88.0)"
       /\ Decision.match_details d = Some (Some ali_weak_match)
       /\ Screening.compliance r' = Some c
       /\ Compliance.highest_risk_score c == 65
       /\ @FlaggingEngine.process_screening_result clk
            (screening_of "Ali Hassan" (Screening.matches r')) = Ok r''
       /\ (Screening.decision r'' ≫= Decision.action) = Some "AUTO_CLEAR".
Proof.
  split; [reflexivity|].
  destruct (@FlaggingEngine.process_screening_result clk ali_screening)
    as [r'|e] eqn:E; [|vm_compute in E; discriminate].
  vm_compute in E. apply Ok_inj in E. subst r'.
  eexists _, _, _, _, _. split; [reflexivity|].
  split; [vm_compute; reflexivity|].
  split; [vm_compute; reflexivity|].
  split; [vm_compute; reflexivity|].
  split; [intros Heq; apply (f_equal Summary.total_matches) in Heq;
          vm_compute in Heq; discriminate|].
  split; [reflexivity|]. split; [reflexivity|].
  split; [vm_compute; reflexivity|].
  split; [reflexivity|]. split; [reflexivity|]. split; [reflexivity|].
  split; [vm_compute; reflexivity|].
  split; [vm_compute; reflexivity|].
  split; [reflexivity|].
  split; [vm_compute; reflexivity|].
  split; vm_compute; reflexivity.
Qed.

(** C2 on the code: the query "Kim" against the OFAC candidate "Kim"
    gives one exact match with risk score 100; the short-name filter
    discards it, the summary still reports 100, and the escalation rule
    takes the maximum of an empty list. *)
Theorem C2_escalation_raises_on_filtered_list (fz : Rapidfuzz) (clk : Clock) :
  (exists m, Screening.matches
               (@MatchingEngine.screen_name fz sample_preprocessor "Kim" [kim_row]) = [m]
             /\ Match.match_type m = Some "exact"
             /\ Match.risk_score m = Some 100)
  /\ FalsePositiveFilter.apply_filters
       (Screening.matches
          (@MatchingEngine.screen_name fz sample_preprocessor "Kim" [kim_row]))
       "Kim" = []
  /\ @screen fz sample_preprocessor clk "Kim" [kim_row] =
       Raise (ValueError "max() arg is an empty sequence").
Proof.
  split; [eexists; repeat split; vm_compute; reflexivity|].
  split; vm_compute; reflexivity.
Qed.

(** C3 on the code: for the common name "John Smith" with a highest
    score of 70.2 the first four rules do not fire, the common-name rule
    does, its decision lacks the timestamp that validation requires, and
    the caller receives the fallback MANUAL_REVIEW decision. *)
Theorem C3_common_name_decision_replaced (clk : Clock) :
  let fr := FlaggingEngine.filtered john_screening in
  BusinessRules._common_name_filter
    (Screening.matches fr) (Screening.summary fr) fr
  = Ok (Some (Decision.mk (Some "AUTO_CLEAR")
                (Some "Common name with low confidence match")
                None (Some "MEDIUM") (Some "LOW")
                None None (Some "common_name") None None None))
  /\ exists r',
       @FlaggingEngine.process_screening_result clk john_screening = Ok r'
       /\ Screening.applied_rule r' = Some "common_name_filter"
       /\ (Screening.decision r' ≫= Decision.action) = Some "MANUAL_REVIEW"
       /\ (Screening.decision r' ≫= Decision.reason) =
            Some "Decision validation failed, routing for manual review"
       /\ (Screening.decision r' ≫= Decision.filter_applied) = None.
Proof.
  split; [vm_compute; reflexivity|].
  eexists. split; [vm_compute; reflexivity|].
  repeat split; reflexivity.
Qed.

(** C4 on the code: the exact OFAC match of the repository's own test is
    answered with BLOCK at priority CRITICAL; the returned decision has a
    workflow record but neither [requires_approval] nor [sla_hours], and
    the compliance record reports no approval and 24 hours, where the
    tables give approval required and 0 hours. *)
Theorem C4_block_decision_not_enriched (clk : Clock) :
  exists r' d c,
    @FlaggingEngine.process_screening_result clk osama_screening = Ok r'
    /\ Screening.decision r' = Some d
    /\ Decision.action d = Some "BLOCK"
    /\ Decision.priority d = Some "CRITICAL"
    /\ Decision.requires_approval d = None
    /\ Decision.sla_hours d = None
    /\ Decision.workflow d =
         Some (Workflow.mk "immediate_action" true (Some "compliance_manager"))
    /\ Screening.compliance r' = Some c
    /\ Compliance.requires_approval c = false
    /\ Compliance.sla_hours c = 24%Z
    /\ DecisionMaker._requires_approval "BLOCK" = true
    /\ DecisionMaker._get_sla_hours "BLOCK" "CRITICAL" = 0%Z.
Proof.
  eexists _, _, _. split; [vm_compute; reflexivity|].
  repeat split; reflexivity.
Qed.

Lemma C10_ranked_matches_at_least_low_witness :
  let df := [Row.mk (Some "Smith John") (Some "smith john") (Some ["smith"; "john"])
                    (Some "LOCAL") (Some "Individual")] in
  exists m,
    m ∈ @MatchingEngine.collect sample_fuzz (@process_single sample_preprocessor "John Smith") df
    /\ Match.score m = Some (200 # 2)
    /\ MatchScorer.calculate_risk_score m (default "" (Match.source m)) < 60
    /\ MatchingEngine.annotate m
         ∉ Screening.matches
             (@MatchingEngine.screen_name sample_fuzz sample_preprocessor "John Smith" df).
Proof.
  intros df.
  pose (m := @MatchingEngine.from_row
               (@TokenMatcher.match_ sample_fuzz ["john"; "smith"] ["smith"; "john"])
               (Row.mk (Some "Smith John") (Some "smith john") (Some ["smith"; "john"])
                       (Some "LOCAL") (Some "Individual"))
               "MEDIUM").
  assert (Hin : m ∈ @MatchingEngine.collect sample_fuzz
                      (@process_single sample_preprocessor "John Smith") df)
    by (vm_compute; apply list_elem_of_here).
  assert (Hlow : MatchScorer.calculate_risk_score m (default "" (Match.source m)) < 60)
    by reflexivity.
  exists m. split; [exact Hin|]. split; [reflexivity|]. split; [exact Hlow|].
  exact (proj1 (proj2 (@C10_ranked_matches_at_least_low
                         sample_fuzz sample_preprocessor "John Smith" df))
               m Hin Hlow).
Defined.

(** ** The same inputs, for any preprocessor *)

Lemma apply_filters_short_query (matches : list Match.t) (query : string) :
  (PyStr.len (PyStr.strip query) <= 3)%nat ->
  FalsePositiveFilter.apply_filters matches query = [].
Proof.
  intros Hlen. apply Nat.leb_le in Hlen.
  unfold FalsePositiveFilter.apply_filters.
  cbn [fold_left FalsePositiveFilter.filters].
  unfold FalsePositiveFilter._filter_short_names at 1. rewrite Hlen.
  reflexivity.
Qed.

Section AnyPreprocessor.
Context `{Rapidfuzz} `{Preprocessor} `{Clock}.

(** Whatever else the preprocessor does, if it normalizes "Kim" to "kim"
    the screening of "Kim" against the OFAC candidate "Kim" raises. *)
Lemma screen_kim_raises :
  Profile.normalized (process_single "Kim") = "kim" ->
  screen "Kim" [kim_row] = Raise (ValueError "max() arg is an empty sequence").
Proof.
  intros Hnorm. unfold screen. apply high_risk_escalate_raises.
  - rewrite screen_name_query. apply apply_filters_short_query. cbn. lia.
  - unfold MatchingEngine.screen_name, MatchingEngine.collect,
      MatchingEngine._match_against_entry,
      MatchingEngine._match_against_entry_traced, ExactMatcher.match_.
    cbn [flat_map]. rewrite Hnorm. vm_compute. discriminate.
Qed.
End AnyPreprocessor.

(** * Further properties of the code *)

(** ** The matchers *)

Section MatcherFacts.
Context `{Rapidfuzz}.

Lemma levenshtein_ratio_bounds (a b : string) :
  fuzz_bounded -> 0 <= SimilarityCalculator.levenshtein_ratio a b <= 100.
Proof.
  intros Hb. unfold SimilarityCalculator.levenshtein_ratio.
  destruct (_ || _); [lra|]. apply (Hb a b).
Qed.

(** X1: when the query or the target is the empty string the fuzzy
    matcher does not consult the metric library: all four metrics are 0,
    the weighted score is 0, the level is "none" and no match is
    reported. *)
Theorem X1_fuzzy_empty_input (query target : string) :
  query = "" \/ target = "" ->
  let r := FuzzyMatcher.match_ query target in
  exists score,
    Match.score r = Some score /\ score == 0
    /\ Match.details r = Some (FuzzyDetails 0 0 0 0)
    /\ Match.match_level r = Some "none"
    /\ Match.is_match r = Some false.
Proof.
  intros Hempty.
  assert (Hf : PyStr.falsy query || PyStr.falsy target = true).
  { destruct Hempty as [-> | ->]; [reflexivity|apply orb_true_r]. }
  unfold FuzzyMatcher.match_, SimilarityCalculator.weighted_average,
    SimilarityCalculator.levenshtein_ratio, SimilarityCalculator.partial_ratio,
    SimilarityCalculator.token_sort_ratio, SimilarityCalculator.token_set_ratio.
  rewrite Hf. eexists. split; [reflexivity|]. repeat split; reflexivity.
Qed.

(** X2: when the four metrics lie in 0..100 the fuzzy score lies in
    0..100 (the weights sum to one); a match is reported exactly when the
    score is at least 60, which is exactly when the level is not "none",
    and the level is "high" exactly from 85 on. *)
Theorem X2_fuzzy_score_and_level (query target : string) :
  fuzz_bounded ->
  let r := FuzzyMatcher.match_ query target in
  exists score level,
    Match.score r = Some score /\ Match.match_level r = Some level
    /\ 0 <= score <= 100
    /\ (Match.is_match r = Some true <-> 60 <= score)
    /\ (Match.is_match r = Some true <-> level <> "none")
    /\ (level = "high" <-> 85 <= score)
    /\ (level = "medium" <-> 70 <= score < 85)
    /\ (level = "low" <-> 60 <= score < 70).
Proof.
  intros Hb.
  unfold FuzzyMatcher.match_, SimilarityCalculator.weighted_average.
  set (l := SimilarityCalculator.levenshtein_ratio query target).
  set (p := SimilarityCalculator.partial_ratio query target).
  set (ts := SimilarityCalculator.token_sort_ratio query target).
  set (tset := SimilarityCalculator.token_set_ratio query target).
  assert (Hl : 0 <= l <= 100) by (apply levenshtein_ratio_bounds, Hb).
  assert (Hp : 0 <= p <= 100).
  { unfold p, SimilarityCalculator.partial_ratio.
    destruct (_ || _); [lra|]. apply (Hb query target). }
  assert (Hts : 0 <= ts <= 100).
  { unfold ts, SimilarityCalculator.token_sort_ratio.
    destruct (_ || _); [lra|]. apply (Hb query target). }
  assert (Htset : 0 <= tset <= 100).
  { unfold tset, SimilarityCalculator.token_set_ratio.
    destruct (_ || _); [lra|]. apply (Hb query target). }
  cbn [Match.score Match.match_level Match.is_match].
  set (s := 0 + l * (3 # 10) + p * (2 # 10) + ts * (3 # 10) + tset * (2 # 10)).
  assert (Hs : 0 <= s <= 100) by (unfold s; lra).
  exists s, (FuzzyMatcher.match_level_of s).
  split; [reflexivity|]. split; [reflexivity|]. split; [exact Hs|].
  unfold FuzzyMatcher.match_level_of, thresholds.HIGH_RISK_THRESHOLD,
    thresholds.MEDIUM_RISK_THRESHOLD, thresholds.LOW_RISK_THRESHOLD.
  destruct (Qge_bool s 85) eqn:E1;
    [apply Qge_bool_true in E1|apply Qge_bool_false in E1];
  destruct (Qge_bool s 70) eqn:E2;
    [apply Qge_bool_true in E2|apply Qge_bool_false in E2| |];
  try (apply Qge_bool_true in E2); try (apply Qge_bool_false in E2);
  destruct (Qge_bool s 60) eqn:E3;
    try (apply Qge_bool_true in E3); try (apply Qge_bool_false in E3);
  repeat split; intros; first [reflexivity | discriminate | congruence | lra].
Qed.
End MatcherFacts.

Lemma X2_fuzzy_score_and_level_witness :
  @fuzz_bounded sample_fuzz
  /\ exists score,
       Match.score (@FuzzyMatcher.match_ sample_fuzz "john smith" "john smith")
         = Some score
       /\ 0 <= score <= 100.
Proof.
  assert (Hb : @fuzz_bounded sample_fuzz).
  { intros a b. cbn. destruct (PyStr.eqb a b); repeat split; discriminate. }
  split; [exact Hb|].
  destruct (@X2_fuzzy_score_and_level sample_fuzz "john smith" "john smith" Hb)
    as (score & level & Hs & _ & Hrange & _).
  exists score. split; assumption.
Defined.

Lemma X1_fuzzy_empty_input_witness :
  ("" = "" \/ "laden" = "")
  /\ Match.is_match (@FuzzyMatcher.match_ sample_fuzz "" "laden") = Some false.
Proof.
  assert (Hempty : "" = "" \/ "laden" = "") by (left; reflexivity).
  split; [exact Hempty|].
  destruct (@X1_fuzzy_empty_input sample_fuzz "" "laden" Hempty)
    as (score & _ & _ & _ & _ & Hm).
  exact Hm.
Defined.



Lemma lower_lower_ascii (c : ascii) :
  PyStr.lower_ascii (PyStr.lower_ascii c) = PyStr.lower_ascii c.
Proof. destruct c as [[] [] [] [] [] [] [] []]; reflexivity. Qed.



Section TokenBounds.
Context `{Rapidfuzz}.

Lemma spec_best_le_100 (q_token : string) (target_tokens : list string) :
  fuzz_bounded -> spec_best q_token target_tokens <= 100.
Proof.
  intros Hb. destruct target_tokens as [|t ts]; [cbn; lra|].
  destruct (spec_best_greatest q_token (t :: ts)) as [_ Hatt]; [discriminate|].
  apply Exists_exists in Hatt as (u & _ & ->).
  apply levenshtein_ratio_bounds, Hb.
Qed.

Lemma spec_token_total_bounds (query_tokens target_tokens : list string) :
  fuzz_bounded ->
  0 <= spec_token_total query_tokens target_tokens
    <= 100 * Qnat (length (List.filter (spec_accepted target_tokens) query_tokens)).
Proof.
  intros Hb. induction query_tokens as [|q qs IH];
    [split; vm_compute; discriminate|].
  cbn [spec_token_total foldr List.filter].
  fold (spec_token_total qs target_tokens).
  pose proof (spec_best_le_100 q target_tokens Hb) as Hle.
  destruct (spec_accepted target_tokens q) eqn:Ea.
  - apply Qge_bool_true in Ea. cbn [length]. unfold Qnat in *.
    rewrite Nat2Z.inj_succ, <- Z.add_1_r, inject_Z_plus.
    change (inject_Z 1) with 1. lra.
  - lra.
Qed.

(** X4: when the edit ratio lies in 0..100 the token score lies in
    0..100, and a token match is only reported when at least 60 percent
    of the query tokens found a partner; so the weak-partial filter, which
    removes token matches with a score below 70 and a match ratio below
    0.6, never removes a match that the token matcher reported. *)
Theorem X4_token_match_ratio (query_tokens target_tokens : list string)
    (sanction_row : Row.t) (query : string) :
  fuzz_bounded ->
  let r := TokenMatcher.match_ query_tokens target_tokens in
  (0 <= raw_score r <= 100)
  /\ (Match.is_match r = Some true ->
      6 # 10 <= details_match_ratio (Match.details r)
      /\ FalsePositiveFilter._filter_weak_partial_matches
           [MatchingEngine.from_row r sanction_row "MEDIUM"] query
         = [MatchingEngine.from_row r sanction_row "MEDIUM"]).
Proof.
  intros Hb r. subst r. unfold TokenMatcher.match_.
  destruct query_tokens as [|q qs]; [split; [cbn; lra|discriminate]|].
  destruct target_tokens as [|t ts]; [split; [cbn; lra|discriminate]|].
  pose proof (scan_spec (q :: qs) (t :: ts)) as Hscan.
  destruct (TokenMatcher.scan (q :: qs) (t :: ts)) as [matched total].
  destruct Hscan as [Htot Hlen]; [discriminate|].
  pose proof (spec_token_total_bounds (q :: qs) (t :: ts) Hb) as [Hlo Hhi].
  rewrite <- Hlen, <- Htot in Hhi. rewrite <- Htot in Hlo.
  set (n := Qnat (length (q :: qs))) in *.
  set (k := Qnat (length matched)) in *.
  assert (Hn : 1 <= n).
  { unfold n, Qnat. cbn [length]. rewrite Nat2Z.inj_succ, <- Z.add_1_r, inject_Z_plus.
    assert (0 <= inject_Z (Z.of_nat (length qs)))
      by (change 0 with (inject_Z 0); rewrite <- Zle_Qle; lia).
    change (inject_Z 1) with 1. lra. }
  assert (Hkn : k <= n).
  { unfold k, n, Qnat. rewrite <- Zle_Qle, Hlen. apply inj_le, filter_length_le. }
  set (score := total / n).
  set (ratio := k / n).
  assert (Hsn : score * n == total) by (unfold score; field; lra).
  assert (Hrn : ratio * n == k) by (unfold ratio; field; lra).
  unfold raw_score. cbn [Match.score Match.is_match Match.details default from_option
                         details_match_ratio].
  change (id score) with score.
  clearbody score ratio n k.
  split; [split; nra|].
  intros Htrue. injection Htrue as Htrue.
  apply Qge_bool_true in Htrue. unfold thresholds.LOW_RISK_THRESHOLD in Htrue.
  assert (Hr : 6 # 10 <= ratio) by nra.
  split; [exact Hr|].
  unfold FalsePositiveFilter._filter_weak_partial_matches.
  cbn [List.filter MatchingEngine.from_row Match.with_row Match.details Match.score
       Match.match_type details_match_ratio].
  apply Qlt_bool_false in Hr. rewrite Hr, andb_false_r. reflexivity.
Qed.
End TokenBounds.

Lemma sample_fuzz_bounded : @fuzz_bounded sample_fuzz.
Proof. intros a b. cbn. destruct (PyStr.eqb a b); repeat split; discriminate. Qed.

Lemma X4_token_match_ratio_witness :
  let r := @TokenMatcher.match_ sample_fuzz ["john"; "smith"] ["smith"; "john"] in
  @fuzz_bounded sample_fuzz
  /\ Match.is_match r = Some true
  /\ 6 # 10 <= details_match_ratio (Match.details r).
Proof.
  intros r.
  assert (Hm : Match.is_match r = Some true) by reflexivity.
  split; [exact sample_fuzz_bounded|]. split; [exact Hm|].
  exact (proj1 (proj2 (@X4_token_match_ratio sample_fuzz ["john"; "smith"]
                         ["smith"; "john"] kim_row "John Smith" sample_fuzz_bounded)
                      Hm)).
Defined.

(** ** The scorer *)

Lemma py_min_mono (a b c : Q) : a <= b -> py_min a c <= py_min b c.
Proof.
  intros Hab. unfold py_min.
  destruct (Qlt_bool c a) eqn:Ea, (Qlt_bool c b) eqn:Eb;
    try apply Qlt_bool_true in Ea; try apply Qlt_bool_false in Ea;
    try apply Qlt_bool_true in Eb; try apply Qlt_bool_false in Eb; lra.
Qed.

(** X5: for a match with a non-negative raw score the risk score grows
    with the priority of the source: a source of higher list priority
    never gives a lower risk score, OFAC gives the highest and an unlisted
    source the lowest. *)
Theorem X5_risk_score_monotone_in_priority (m : Match.t) (s1 s2 : string) :
  0 <= raw_score m ->
  ((thresholds.list_priority_get s1 50 <= thresholds.list_priority_get s2 50)%Z ->
   MatchScorer.calculate_risk_score m s1 <= MatchScorer.calculate_risk_score m s2)
  /\ MatchScorer.calculate_risk_score m s1 <= MatchScorer.calculate_risk_score m "OFAC"
  /\ MatchScorer.calculate_risk_score m "" <= MatchScorer.calculate_risk_score m s1.
Proof.
  intros Hraw. unfold raw_score in Hraw.
  assert (Hmono : forall a b,
    (thresholds.list_priority_get a 50 <= thresholds.list_priority_get b 50)%Z ->
    MatchScorer.calculate_risk_score m a <= MatchScorer.calculate_risk_score m b).
  { intros a b Hp. unfold MatchScorer.calculate_risk_score.
    apply py_min_mono.
    assert (Hq : inject_Z (thresholds.list_priority_get a 50) / 100
                 <= inject_Z (thresholds.list_priority_get b 50) / 100).
    { apply Qmult_le_compat_r; [rewrite <- Zle_Qle; exact Hp|discriminate]. }
    assert (H0 : 0 <= inject_Z (thresholds.list_priority_get a 50) / 100).
    { rewrite list_priority_get_50.
      pose proof (spec_list_priority_range a) as [Hlo _].
      apply Qle_shift_div_l; [lra|]. rewrite Qmult_0_l.
      change 0 with (inject_Z 0). rewrite <- Zle_Qle. lia. }
    set (pa := inject_Z (thresholds.list_priority_get a 50) / 100) in *.
    set (pb := inject_Z (thresholds.list_priority_get b 50) / 100) in *.
    set (raw := default 0 (Match.score m)) in *.
    destruct (bool_decide _); nra. }
  split; [apply Hmono|]. split; apply Hmono.
  - rewrite !list_priority_get_50.
    pose proof (spec_list_priority_range s1). change (spec_list_priority "OFAC") with 100%Z.
    lia.
  - rewrite !list_priority_get_50.
    pose proof (spec_list_priority_range s1). change (spec_list_priority "") with 50%Z.
    lia.
Qed.

Lemma X5_risk_score_monotone_in_priority_witness :
  let m := Match.mk (Some "fuzzy") (Some 80) (Some true) (Some "medium") None
                    (Some "John Smith") (Some "UN") None None None None in
  0 <= raw_score m
  /\ MatchScorer.calculate_risk_score m "EU" <= MatchScorer.calculate_risk_score m "UN".
Proof.
  intros m.
  assert (Hraw : 0 <= raw_score m) by discriminate.
  split; [exact Hraw|].
  apply (proj1 (X5_risk_score_monotone_in_priority m "EU" "UN" Hraw)).
  vm_compute. discriminate.
Defined.

Lemma fold_py_max_bounds (l : list Q) (b : Q) :
  let r := fold_left py_max l b in
  b <= r /\ Forall (fun x => x <= r) l /\ (r = b \/ r ∈ l).
Proof.
  revert b. induction l as [|x l IH]; intros b; cbn.
  - split; [lra|]. split; [constructor|]. left. reflexivity.
  - destruct (IH (py_max b x)) as (Hb & Hall & Hex).
    assert (Hm : b <= py_max b x /\ x <= py_max b x
                 /\ (py_max b x = b \/ py_max b x = x)).
    { unfold py_max. destruct (Qgt_bool x b) eqn:E.
      - apply Qgt_bool_true in E. repeat split; [lra|lra|right; reflexivity].
      - apply Qgt_bool_false in E. repeat split; [lra|lra|left; reflexivity]. }
    destruct Hm as (Hm1 & Hm2 & Hm3).
    split; [lra|]. split; [constructor; [lra|exact Hall]|].
    destruct Hex as [Hex|Hex]; [|right; right; exact Hex].
    destruct Hm3 as [Hm3|Hm3].
    + left. rewrite Hex. exact Hm3.
    + right. rewrite Hex, Hm3. left.
Qed.

(** The highest score of a non-empty summary: above every risk score and
    the risk score of one of the matches. *)
Lemma highest_score_greatest (m : Match.t) (ms : list Match.t) :
  exists h,
    Summary.highest_score (MatchScorer.create_match_summary (m :: ms)) = Some h
    /\ Forall (fun x => risk_of x <= h) (m :: ms)
    /\ Exists (fun x => h = risk_of x) (m :: ms).
Proof.
  cbn [MatchScorer.create_match_summary Summary.highest_score].
  eexists. split; [reflexivity|].
  cbn [map max_default].
  pose proof (fold_py_max_bounds (map (fun x => default 0 (Match.risk_score x)) ms)
                                 (default 0 (Match.risk_score m))) as (H0 & Hall & Hex).
  cbv zeta in H0, Hall, Hex.
  set (h := fold_left py_max _ _) in *.
  split.
  - constructor; [exact H0|].
    apply Forall_forall. intros x Hx. rewrite Forall_forall in Hall.
    apply Hall. apply list_elem_of_fmap. exists x. split; [reflexivity|exact Hx].
  - destruct Hex as [Hex|Hex]; [left; exact Hex|right].
    apply list_elem_of_fmap in Hex as (x & Hx & Hin).
    apply Exists_exists. exists x. split; assumption.
Qed.

Lemma count_level_cons (level : string) (m : Match.t) (ms : list Match.t) :
  MatchScorer.count_level level (m :: ms) =
    ((if PyStr.eqb (MatchScorer.determine_risk_level (risk_of m)) level
      then 1 else 0) + MatchScorer.count_level level ms)%nat.
Proof.
  unfold MatchScorer.count_level, risk_of. cbn [List.filter].
  destruct (PyStr.eqb _ _); reflexivity.
Qed.

Lemma count_levels_le (ms : list Match.t) :
  (MatchScorer.count_level "HIGH" ms + MatchScorer.count_level "MEDIUM" ms
   + MatchScorer.count_level "LOW" ms <= length ms)%nat
  /\ (Forall (fun m => 60 <= risk_of m) ms ->
      (MatchScorer.count_level "HIGH" ms + MatchScorer.count_level "MEDIUM" ms
       + MatchScorer.count_level "LOW" ms = length ms)%nat).
Proof.
  induction ms as [|m ms [IH1 IH2]]; [split; [reflexivity|intros _; reflexivity]|].
  rewrite !count_level_cons. cbn [length]. unfold PyStr.eqb.
  destruct (determine_risk_level_spec (risk_of m))
    as [[Hs ->]|[[Hs ->]|[[Hs ->]|[Hs ->]]]];
    repeat first [ rewrite bool_decide_eq_true_2 by reflexivity
                 | rewrite bool_decide_eq_false_2 by discriminate ];
    (split; [lia|]); intros Hall; apply Forall_cons in Hall as [Hm Hall];
    specialize (IH2 Hall); first [lia | lra].
Qed.

(** The summary facts shared by the statements below. *)
Lemma X6_core (m : Match.t) (ms : list Match.t) :
  Forall (fun x => 60 <= risk_of x) (m :: ms) ->
  let s := MatchScorer.create_match_summary (m :: ms) in
  exists h b,
    Summary.highest_score s = Some h
    /\ Forall (fun x => risk_of x <= h) (m :: ms)
    /\ Exists (fun x => h = risk_of x) (m :: ms)
    /\ Summary.highest_risk s = Some (MatchScorer.determine_risk_level h)
    /\ (Summary.can_auto_clear s = Some true <-> h < 60)
    /\ Summary.risk_breakdown s = Some b
    /\ (Breakdown.HIGH b + Breakdown.MEDIUM b + Breakdown.LOW b = S (length ms))%nat.
Proof.
  intros Hall s. destruct (highest_score_greatest m ms) as (h & Hh & Hub & Hatt).
  fold s in Hh. exists h.
  assert (Hh' : h = max_default 0 (map (fun x => default 0 (Match.risk_score x)) (m :: ms))).
  { unfold s in Hh. cbn in Hh. injection Hh as <-. reflexivity. }
  unfold s. cbn [MatchScorer.create_match_summary Summary.highest_score
                 Summary.highest_risk Summary.can_auto_clear Summary.risk_breakdown].
  rewrite <- Hh'. eexists.
  split; [reflexivity|]. split; [exact Hub|]. split; [exact Hatt|].
  split; [reflexivity|].
  unfold MatchScorer.should_auto_clear, thresholds.AUTO_CLEAR_BELOW,
    thresholds.LOW_RISK_THRESHOLD.
  split; [rewrite <- Qlt_bool_true; split; congruence|].
  split; [reflexivity|].
  cbn [Breakdown.HIGH Breakdown.MEDIUM Breakdown.LOW].
  destruct (count_levels_le (m :: ms)) as [_ Heq]. exact (Heq Hall).
Qed.



(** ** The result of the matching engine *)

Section EngineResultFacts.
Context `{Rapidfuzz} `{Preprocessor}.

Lemma screen_name_significant (query_name : string) (sanctions_df : list Row.t) :
  Forall (fun m => 60 <= risk_of m)
         (Screening.matches (MatchingEngine.screen_name query_name sanctions_df)).
Proof.
  destruct (screen_name_matches query_name sanctions_df) as [-> | ->]; [constructor|].
  eapply Permutation_Forall; [symmetry; apply rank_matches_perm|].
  apply Forall_forall. intros m Hm.
  apply list_elem_of_In, filter_In in Hm as [_ Hsig].
  apply significant_spec in Hsig. exact Hsig.
Qed.

Lemma screen_name_sorted (query_name : string) (sanctions_df : list Row.t) :
  StronglySorted (desc_by spec_sort_key)
    (Screening.matches (MatchingEngine.screen_name query_name sanctions_df)).
Proof.
  destruct (screen_name_matches query_name sanctions_df) as [-> | ->]; [constructor|].
  rewrite rank_matches_spec_key. apply sorted_reverse_sorted.
Qed.

Lemma desc_by_risk (a b : Match.t) :
  desc_by spec_sort_key a b -> risk_of b <= risk_of a.
Proof.
  unfold desc_by, key_ge. rewrite key_compare_lt_iff. cbn. unfold risk_of.
  intros Hnlt. apply Qnot_lt_le. intros Hlt. apply Hnlt. left. exact Hlt.
Qed.

(** X7: in the result of the matching engine the summary allows
    auto-clear exactly when the ranked list is empty, and reports the
    level NONE exactly then; when the list is not empty the highest score
    of the summary is the risk score of the first ranked match and is at
    least 60, and the HIGH, MEDIUM and LOW counts add up to the number of
    matches. *)
Theorem X7_engine_summary (query_name : string) (sanctions_df : list Row.t) :
  let r := MatchingEngine.screen_name query_name sanctions_df in
  let s := Screening.summary r in
  (Summary.can_auto_clear s = Some true <-> Screening.matches r = [])
  /\ (Summary.highest_risk s = Some "NONE" <-> Screening.matches r = [])
  /\ forall m ms,
       Screening.matches r = m :: ms ->
       exists h b,
         Summary.highest_score s = Some h /\ h == risk_of m /\ 60 <= h
         /\ Summary.risk_breakdown s = Some b
         /\ (Breakdown.HIGH b + Breakdown.MEDIUM b + Breakdown.LOW b
             = length (m :: ms))%nat.
Proof.
  intros r s. subst s r.
  rewrite (screen_name_summary query_name sanctions_df).
  pose proof (screen_name_significant query_name sanctions_df) as Hsig.
  pose proof (screen_name_sorted query_name sanctions_df) as Hsorted.
  destruct (Screening.matches _) as [|m ms].
  - split; [split; reflexivity|]. split; [split; reflexivity|]. discriminate.
  - destruct (X6_core m ms Hsig) as (h & b & Hh & Hub & Hatt & Hrisk & Hclr & Hb & Hsum).
    assert (Hhm : h == risk_of m).
    { apply Forall_cons in Hub as [Hm _].
      apply StronglySorted_inv in Hsorted as [_ Hhd].
      apply Exists_cons in Hatt as [->|Hatt]; [reflexivity|].
      apply Exists_exists in Hatt as (x & Hx & ->).
      rewrite Forall_forall in Hhd. specialize (Hhd x Hx).
      apply desc_by_risk in Hhd. lra. }
    assert (H60 : 60 <= h).
    { apply Forall_cons in Hsig as [Hm _]. lra. }
    split; [split; [intros Ht; apply Hclr in Ht; lra|discriminate]|].
    split.
    { split; [|discriminate]. rewrite Hrisk. intros Hn.
      destruct (determine_risk_level_spec h) as [[_ E]|[[_ E]|[[_ E]|[Hlt _]]]];
        [rewrite E in Hn; discriminate..|lra]. }
    intros m' ms' Heq. injection Heq as <- <-.
    exists h, b. repeat split; assumption.
Qed.
End EngineResultFacts.

Lemma X7_engine_summary_witness :
  let r := @MatchingEngine.screen_name sample_fuzz sample_preprocessor "Kim" [kim_row] in
  exists m h,
    Screening.matches r = [m]
    /\ Summary.highest_score (Screening.summary r) = Some h
    /\ h == risk_of m.
Proof.
  intros r.
  destruct (Screening.matches r) as [|m ms] eqn:E; [vm_compute in E; discriminate|].
  destruct (proj2 (proj2 (@X7_engine_summary sample_fuzz sample_preprocessor
                            "Kim" [kim_row])) m ms E)
    as (h & b & Hh & Hhm & _).
  assert (Hms : ms = []) by (vm_compute in E; congruence).
  exists m, h. rewrite Hms. split; [reflexivity|]. split; assumption.
Defined.

Section EntryResultFacts.
Context `{Rapidfuzz}.

Lemma fuzzy_match_fields (query target : string) :
  exists score,
    FuzzyMatcher.match_ query target =
      Match.mk (Some "fuzzy") (Some score)
               (Some (Qge_bool score thresholds.LOW_RISK_THRESHOLD))
               (Some (FuzzyMatcher.match_level_of score))
               (Some (snd (SimilarityCalculator.weighted_average query target)))
               None None None None None None.
Proof.
  unfold FuzzyMatcher.match_.
  destruct (SimilarityCalculator.weighted_average query target) as [s d].
  exists s. reflexivity.
Qed.

Lemma token_match_is_match (query_tokens target_tokens : list string) :
  Match.is_match (TokenMatcher.match_ query_tokens target_tokens) = Some true ->
  60 <= raw_score (TokenMatcher.match_ query_tokens target_tokens).
Proof.
  unfold TokenMatcher.match_, raw_score.
  destruct query_tokens as [|q qs]; [discriminate|].
  destruct target_tokens as [|t ts]; [discriminate|].
  destruct (TokenMatcher.scan _ _) as [matched total].
  cbn [Match.is_match Match.score default from_option].
  intros Hm. injection Hm as Hm. apply Qge_bool_true in Hm. exact Hm.
Qed.

(** X8: every record that the orchestrator emits for a candidate comes
    from a matcher that reported a match with a raw score of at least 60,
    belongs to a candidate with a non-empty name, carries the name, source
    and list type of that candidate and a confidence of HIGH, MEDIUM or
    LOW; a candidate yields at most two records, so a screening collects
    at most twice as many records as there are candidates. *)
Theorem X8_emitted_records (query_processed : Profile.t) (sanctions_df : list Row.t) :
  (forall sanction_row m,
     m ∈ MatchingEngine._match_against_entry query_processed sanction_row ->
     MatchingEngine.sanction_name_of sanction_row <> ""
     /\ Match.is_match m = Some true
     /\ 60 <= raw_score m
     /\ Match.target_name m = Some (default "" (Row.name sanction_row))
     /\ Match.source m = Some (default "" (Row.source sanction_row))
     /\ Match.list_type m = Some (default "" (Row.list_type sanction_row))
     /\ (Match.confidence m = Some "HIGH" \/ Match.confidence m = Some "MEDIUM"
         \/ Match.confidence m = Some "LOW"))
  /\ (forall sanction_row,
        (length (MatchingEngine._match_against_entry query_processed sanction_row)
         <= 2)%nat)
  /\ (length (MatchingEngine.collect query_processed sanctions_df)
      <= 2 * length sanctions_df)%nat.
Proof.
  assert (Hone : forall sanction_row m,
     m ∈ MatchingEngine._match_against_entry query_processed sanction_row ->
     MatchingEngine.sanction_name_of sanction_row <> ""
     /\ Match.is_match m = Some true
     /\ 60 <= raw_score m
     /\ Match.target_name m = Some (default "" (Row.name sanction_row))
     /\ Match.source m = Some (default "" (Row.source sanction_row))
     /\ Match.list_type m = Some (default "" (Row.list_type sanction_row))
     /\ (Match.confidence m = Some "HIGH" \/ Match.confidence m = Some "MEDIUM"
         \/ Match.confidence m = Some "LOW")).
  { intros row m.
    unfold MatchingEngine._match_against_entry,
      MatchingEngine._match_against_entry_traced.
    destruct (PyStr.falsy (MatchingEngine.sanction_name_of row)) eqn:Ef;
      [cbn; intros Hin; inversion Hin|].
    assert (Hname : MatchingEngine.sanction_name_of row <> "")
      by (intros Hn; apply falsy_spec in Hn; congruence).
    rewrite exact_match_is_match.
    destruct (PyStr.eqb _ _) eqn:Esame; cbn [default from_option fst].
    { intros Hin. apply list_elem_of_singleton in Hin as ->.
      unfold ExactMatcher.match_. rewrite Esame.
      repeat split; try reflexivity; [exact Hname|discriminate|].
      left. reflexivity. }
    destruct (fuzzy_match_fields (Profile.normalized query_processed)
                (MatchingEngine.sanction_name_of row)) as (fs & ->).
    cbn [Match.is_match Match.match_level default from_option].
    assert (Hfuzzy : forall x,
      x ∈ (if Qge_bool fs thresholds.LOW_RISK_THRESHOLD
           then [MatchingEngine.from_row
                   (Match.mk (Some "fuzzy") (Some fs)
                      (Some (Qge_bool fs thresholds.LOW_RISK_THRESHOLD))
                      (Some (FuzzyMatcher.match_level_of fs))
                      (Some (snd (SimilarityCalculator.weighted_average
                                    (Profile.normalized query_processed)
                                    (MatchingEngine.sanction_name_of row))))
                      None None None None None None)
                   row (MatchingEngine.upper_level
                          (Some (FuzzyMatcher.match_level_of fs)))]
           else []) ->
      Match.is_match x = Some true /\ 60 <= raw_score x
      /\ Match.target_name x = Some (default "" (Row.name row))
      /\ Match.source x = Some (default "" (Row.source row))
      /\ Match.list_type x = Some (default "" (Row.list_type row))
      /\ (Match.confidence x = Some "HIGH" \/ Match.confidence x = Some "MEDIUM"
          \/ Match.confidence x = Some "LOW")).
    { intros x. destruct (Qge_bool fs thresholds.LOW_RISK_THRESHOLD) eqn:Efs;
        [|intros Hin; inversion Hin].
      intros Hin. apply list_elem_of_singleton in Hin as ->.
      pose proof Efs as Hfs. apply Qge_bool_true in Hfs.
      unfold thresholds.LOW_RISK_THRESHOLD in Hfs.
      cbn [MatchingEngine.from_row Match.with_row Match.is_match Match.target_name
           Match.source Match.list_type Match.confidence].
      split; [reflexivity|]. split; [exact Hfs|].
      repeat (split; [reflexivity|]).
      unfold FuzzyMatcher.match_level_of, thresholds.HIGH_RISK_THRESHOLD,
        thresholds.MEDIUM_RISK_THRESHOLD, thresholds.LOW_RISK_THRESHOLD.
      destruct (Qge_bool fs 85); [left; reflexivity|].
      destruct (Qge_bool fs 70); [right; left; reflexivity|].
      apply Qge_bool_true in Hfs. rewrite Hfs. right; right; reflexivity. }
    destruct (default [] (Row.tokens row)) as [|t ts] eqn:Et.
    { cbn [fst]. intros Hin. split; [exact Hname|]. apply Hfuzzy, Hin. }
    cbn [fst]. intros Hin. split; [exact Hname|].
    apply elem_of_app in Hin as [Hin|Hin]; [apply Hfuzzy, Hin|].
    destruct (Match.is_match (TokenMatcher.match_ _ _)) as [[|]|] eqn:Etok;
      cbn [default from_option] in Hin; try (inversion Hin; fail).
    apply list_elem_of_singleton in Hin as ->.
    pose proof (token_match_is_match _ _ Etok) as Hraw. unfold raw_score in Hraw.
    cbn [MatchingEngine.from_row Match.with_row Match.is_match Match.target_name
         Match.source Match.list_type Match.confidence].
    repeat split; try reflexivity; try assumption.
    right; left; reflexivity. }
  assert (Hlen : forall sanction_row,
    (length (MatchingEngine._match_against_entry query_processed sanction_row)
     <= 2)%nat).
  { intros row.
    unfold MatchingEngine._match_against_entry,
      MatchingEngine._match_against_entry_traced.
    destruct (PyStr.falsy _); [cbn; lia|].
    destruct (default false (Match.is_match (ExactMatcher.match_ _ _))); [cbn; lia|].
    destruct (default [] (Row.tokens row)); cbn [fst];
      repeat match goal with
             | |- context [if ?b then _ else _] => destruct b
             end; cbn; lia. }
  split; [exact Hone|]. split; [exact Hlen|].
  unfold MatchingEngine.collect.
  induction sanctions_df as [|row df IH]; [cbn; lia|].
  cbn [flat_map length]. rewrite length_app. specialize (Hlen row). lia.
Qed.
End EntryResultFacts.

Lemma X8_emitted_records_witness :
  let q := Profile.mk "Kim" "kim" "kim" ["kim"] {["kim"]} in
  exists m,
    m ∈ @MatchingEngine._match_against_entry sample_fuzz q kim_row
    /\ Match.source m = Some "OFAC" /\ 60 <= raw_score m.
Proof.
  intros q.
  pose (m := MatchingEngine.from_row (ExactMatcher.match_ "kim" "kim") kim_row "HIGH").
  assert (Hin : m ∈ @MatchingEngine._match_against_entry sample_fuzz q kim_row)
    by (vm_compute; apply list_elem_of_here).
  destruct (proj1 (@X8_emitted_records sample_fuzz q [kim_row]) kim_row m Hin)
    as (_ & _ & Hraw & _ & Hsrc & _).
  exists m. split; [exact Hin|]. split; assumption.
Defined.

(** ** The false-positive filters *)

Lemma List_filter_sublist {A : Type} (f : A -> bool) (l : list A) :
  sublist (List.filter f l) l.
Proof.
  induction l as [|x l IH]; cbn; [constructor|].
  destruct (f x); [apply sublist_skip|apply sublist_cons]; exact IH.
Qed.

Lemma apply_filters_unfold (matches : list Match.t) (query : string) :
  FalsePositiveFilter.apply_filters matches query =
    FalsePositiveFilter._filter_geographic_false_positives
      (FalsePositiveFilter._filter_weak_partial_matches
         (FalsePositiveFilter._filter_title_only_matches
            (FalsePositiveFilter._filter_short_names
               (FalsePositiveFilter._filter_common_words matches query)
               query)
            query)
         query)
      query.
Proof. reflexivity. Qed.

Lemma apply_filters_sublist (matches : list Match.t) (query : string) :
  sublist (FalsePositiveFilter.apply_filters matches query) matches.
Proof.
  rewrite apply_filters_unfold.
  etrans; [apply List_filter_sublist|].
  etrans; [apply List_filter_sublist|].
  etrans; [apply List_filter_sublist|].
  etrans; [|apply List_filter_sublist].
  unfold FalsePositiveFilter._filter_short_names.
  destruct (_ <=? _)%nat; [apply sublist_nil_l|apply List_filter_sublist].
Qed.

Lemma apply_filters_keeps_high (matches : list Match.t) (query : string) (m : Match.t) :
  (3 < PyStr.len (PyStr.strip query))%nat ->
  m ∈ matches -> 90 <= raw_score m ->
  m ∈ FalsePositiveFilter.apply_filters matches query.
Proof.
  intros Hlen Hin Hraw. unfold raw_score in Hraw.
  assert (H75 : Qlt_bool (default 0 (Match.score m)) 75 = false)
    by (apply Qlt_bool_false; lra).
  assert (H90 : Qlt_bool (default 0 (Match.score m)) 90 = false)
    by (apply Qlt_bool_false; lra).
  assert (H80 : Qlt_bool (default 0 (Match.score m)) 80 = false)
    by (apply Qlt_bool_false; lra).
  assert (H70 : Qlt_bool (default 0 (Match.score m)) 70 = false)
    by (apply Qlt_bool_false; lra).
  rewrite apply_filters_unfold.
  apply list_elem_of_In, filter_In. split;
    [|cbv beta zeta; rewrite H75, andb_false_r; reflexivity].
  apply filter_In. split; [|cbv beta zeta; rewrite H70, andb_false_r; reflexivity].
  apply filter_In. split;
    [|cbv beta zeta; unfold FalsePositiveFilter.title_only; cbv beta zeta;
      rewrite H80, andb_false_r; reflexivity].
  unfold FalsePositiveFilter._filter_short_names.
  apply Nat.leb_gt in Hlen. rewrite Hlen.
  apply filter_In. split; [|cbv beta zeta; rewrite H90, andb_false_r; reflexivity].
  apply filter_In. split; [|cbv beta zeta; rewrite H75, andb_false_r; reflexivity].
  apply list_elem_of_In, Hin.
Qed.

(** X10: when the query is an ASCII string whose trimmed form is longer
    than three characters the five filters never remove a match whose raw
    score is at least 90 (every exact match in particular), and whatever
    the query they only remove: what they return is a sub-list, in the
    same order, of what they get. *)
Theorem X10_filters_only_remove (matches : list Match.t) (query : string) :
  sublist (FalsePositiveFilter.apply_filters matches query) matches
  /\ (length (FalsePositiveFilter.apply_filters matches query) <= length matches)%nat
  /\ forall m,
       is_ascii query = true ->
       (3 < PyStr.len (PyStr.strip query))%nat ->
       m ∈ matches -> 90 <= raw_score m ->
       m ∈ FalsePositiveFilter.apply_filters matches query.
Proof.
  split; [apply apply_filters_sublist|].
  split; [apply sublist_length, apply_filters_sublist|].
  intros m _. apply apply_filters_keeps_high.
Qed.

Lemma X10_filters_only_remove_witness :
  let m := Match.mk (Some "exact") (Some 100) (Some true) None None
                    (Some "First Bank Ltd") (Some "OFAC") None (Some "HIGH")
                    (Some 100) (Some "HIGH") in
  is_ascii "First Bank Ltd" = true
  /\ (3 < PyStr.len (PyStr.strip "First Bank Ltd"))%nat
  /\ m ∈ [m] /\ 90 <= raw_score m
  /\ m ∈ FalsePositiveFilter.apply_filters [m] "First Bank Ltd".
Proof.
  intros m.
  assert (Hascii : is_ascii "First Bank Ltd" = true) by reflexivity.
  assert (Hlen : (3 < PyStr.len (PyStr.strip "First Bank Ltd"))%nat) by (cbn; lia).
  assert (Hin : m ∈ [m]) by apply list_elem_of_here.
  assert (Hraw : 90 <= raw_score m) by discriminate.
  split; [exact Hascii|]. split; [exact Hlen|]. split; [exact Hin|].
  split; [exact Hraw|].
  exact (proj2 (proj2 (X10_filters_only_remove [m] "First Bank Ltd"))
           m Hascii Hlen Hin Hraw).
Defined.

(** ** The rule engine, rule by rule *)

Lemma apply_rules_analysis (sr : Screening.t) :
  match BusinessRules.apply_rules sr with
  | Raise e =>
      Screening.matches sr = []
      /\ 85 <= default 0 (Summary.highest_score (Screening.summary sr))
      /\ e = ValueError "max() arg is an empty sequence"
  | Ok fr =>
      exists d rule_name,
        fr = BusinessRules.decided sr d rule_name /\ rule_outcome sr rule_name d
  end.
Proof.
  unfold BusinessRules.apply_rules, BusinessRules.rules, rule_outcome.
  cbn [BusinessRules.run_rules].
  set (ms := Screening.matches sr). set (s := Screening.summary sr).
  set (h := default 0 (Summary.highest_score s)).
  unfold BusinessRules._exact_ofac_block at 1. cbn [mbind result_bind].
  destruct (List.find BusinessRules.is_exact_ofac ms) as [m|] eqn:Efind.
  { eexists _, _. split; [reflexivity|]. left.
    split; [reflexivity|]. split; [reflexivity|]. split; [reflexivity|].
    split; [reflexivity|]. exists m. split; reflexivity. }
  unfold BusinessRules._high_risk_escalate at 1. fold h.
  destruct (Qge_bool h 85) eqn:Eh.
  { apply Qge_bool_true in Eh. destruct ms as [|m0 ms0] eqn:Ems.
    - cbn [max_by mbind result_bind].
      split; [reflexivity|]. split; [exact Eh|reflexivity].
    - cbn [max_by mbind result_bind]. eexists _, _. split; [reflexivity|].
      right; left.
      split; [reflexivity|]. split; [reflexivity|]. split; [reflexivity|].
      split; [reflexivity|]. split; [reflexivity|]. split; [exact Eh|discriminate]. }
  apply Qge_bool_false in Eh. cbn [mbind result_bind].
  unfold BusinessRules._medium_risk_review at 1. fold h.
  assert (Hmedium :
    default false (Summary.requires_review s) && Qlt_bool h 85 = true ->
    Summary.requires_review s = Some true).
  { destruct (Summary.requires_review s) as [[|]|]; cbn; congruence. }
  destruct (default false (Summary.requires_review s) && Qlt_bool h 85) eqn:Emed.
  { cbn [mbind result_bind]. eexists _, _. split; [reflexivity|].
    right; right; left.
    split; [reflexivity|]. split; [reflexivity|]. split; [reflexivity|].
    split; [reflexivity|]. split; [exact Eh|]. apply Hmedium. reflexivity. }
  clear Hmedium. cbn [mbind result_bind].
  unfold BusinessRules._low_risk_clear at 1.
  destruct (default false (Summary.can_auto_clear s)) eqn:Eclr.
  { cbn [mbind result_bind]. eexists _, _. split; [reflexivity|].
    right; right; right; left.
    split; [reflexivity|]. split; [reflexivity|]. split; [reflexivity|].
    split; [reflexivity|]. split; [exact Eh|].
    destruct (Summary.can_auto_clear s) as [[|]|]; cbn in Eclr; congruence. }
  cbn [mbind result_bind].
  unfold BusinessRules._common_name_filter at 1. fold h.
  destruct (PyStr.member _ BusinessRules.common_names && Qlt_bool h 80) eqn:Ecommon.
  { cbn [mbind result_bind]. eexists _, _. split; [reflexivity|].
    right; right; right; right; left.
    apply andb_true_iff in Ecommon as [Ename E80]. apply Qlt_bool_true in E80.
    split; [reflexivity|]. split; [reflexivity|]. split; [reflexivity|].
    split; [reflexivity|]. split; [exact E80|exact Ename]. }
  cbn [mbind result_bind]. eexists _, _. split; [reflexivity|].
  right; right; right; right; right.
  split; [reflexivity|]. split; [reflexivity|]. split; [reflexivity|].
  split; [reflexivity|]. split; [exact Eh|reflexivity].
Qed.

Section PipelineAnalysis.
Context `{Clock}.

Lemma process_analysis (r : Screening.t) :
  match FlaggingEngine.process_screening_result r with
  | Raise e =>
      FalsePositiveFilter.apply_filters (Screening.matches r) (Screening.query r) = []
      /\ 85 <= default 0 (Summary.highest_score (Screening.summary r))
      /\ e = ValueError "max() arg is an empty sequence"
  | Ok r' =>
      exists d rule_name,
        rule_outcome (FlaggingEngine.filtered r) rule_name d
        /\ r' = completed (BusinessRules.decided (FlaggingEngine.filtered r) d rule_name) d
  end.
Proof.
  unfold FlaggingEngine.process_screening_result.
  pose proof (apply_rules_analysis (FlaggingEngine.filtered r)) as Hrules.
  destruct (BusinessRules.apply_rules (FlaggingEngine.filtered r)) as [fr|e];
    cbn [mbind result_bind].
  - destruct Hrules as (d & rule_name & -> & Hout).
    exists d, rule_name. split; [exact Hout|reflexivity].
  - exact Hrules.
Qed.

Lemma validate_with_workflow (d : Decision.t) (w : Workflow.t) :
  DecisionMaker.validate_decision (Decision.with_workflow d w) =
  DecisionMaker.validate_decision d.
Proof. reflexivity. Qed.

Lemma validate_fallback :
  DecisionMaker.validate_decision FlaggingEngine.fallback_decision = true.
Proof. reflexivity. Qed.

Lemma validate_actions (d : Decision.t) :
  DecisionMaker.validate_decision d = true ->
  exists action priority,
    Decision.action d = Some action /\ Decision.priority d = Some priority
    /\ action ∈ DecisionAction.values /\ priority ∈ Priority.values
    /\ is_Some (Decision.reason d) /\ is_Some (Decision.timestamp d)
    /\ is_Some (Decision.confidence d).
Proof.
  unfold DecisionMaker.validate_decision, PyStr.member.
  destruct (Decision.action d) as [a|]; [|discriminate].
  destruct (Decision.reason d); [|discriminate].
  destruct (Decision.timestamp d); [|discriminate].
  destruct (Decision.confidence d); [|discriminate].
  destruct (Decision.priority d) as [p|]; [|discriminate].
  destruct (bool_decide (a ∈ DecisionAction.values)) eqn:Ea; [|discriminate].
  destruct (bool_decide (p ∈ Priority.values)) eqn:Ep; [|discriminate].
  intros _. apply bool_decide_eq_true in Ea. apply bool_decide_eq_true in Ep.
  exists a, p. repeat split; eauto.
Qed.

(** X11: the flagging pipeline fails in exactly one situation: it raises
    (a ValueError) if and only if no match is left after filtering while
    the summary it was given reports a highest score of at least 85. *)
Theorem X11_pipeline_failure_characterised (r : Screening.t) :
  (exists e, FlaggingEngine.process_screening_result r = Raise e)
  <-> (FalsePositiveFilter.apply_filters (Screening.matches r) (Screening.query r) = []
       /\ 85 <= default 0 (Summary.highest_score (Screening.summary r))).
Proof.
  split.
  - intros [e He]. pose proof (process_analysis r) as Ha. rewrite He in Ha.
    destruct Ha as (Hnone & Hhigh & _). split; assumption.
  - intros [Hnone Hhigh]. eexists. apply high_risk_escalate_raises; assumption.
Qed.

(** X12: every decision that the pipeline returns passes the structural
    validation: it has an action among AUTO_CLEAR, MANUAL_REVIEW, ESCALATE
    and BLOCK, a priority among LOW, MEDIUM, HIGH and CRITICAL, a reason,
    a timestamp and a confidence; the fallback decision itself is
    valid. *)
Theorem X12_returned_decision_valid (r r' : Screening.t) :
  FlaggingEngine.process_screening_result r = Ok r' ->
  exists d action priority,
    Screening.decision r' = Some d
    /\ DecisionMaker.validate_decision d = true
    /\ Decision.action d = Some action /\ action ∈ DecisionAction.values
    /\ Decision.priority d = Some priority /\ priority ∈ Priority.values
    /\ is_Some (Decision.reason d) /\ is_Some (Decision.timestamp d)
    /\ is_Some (Decision.confidence d).
Proof.
  intros Hr. pose proof (process_analysis r) as Ha. rewrite Hr in Ha.
  destruct Ha as (d0 & rule_name & _ & ->).
  assert (Hv : DecisionMaker.validate_decision (FlaggingEngine.finalize d0) = true).
  { unfold FlaggingEngine.finalize.
    destruct (DecisionMaker.validate_decision d0) eqn:E.
    - rewrite validate_with_workflow. exact E.
    - apply validate_fallback. }
  destruct (validate_actions _ Hv) as (a & p & Ha & Hp & Hain & Hpin & H1 & H2 & H3).
  exists (FlaggingEngine.finalize d0), a, p.
  split; [reflexivity|]. repeat split; assumption.
Qed.

(** X13: the outcome of the pipeline by rule.  The rules
    exact_ofac_block, high_risk_escalate and low_risk_clear and the
    default hand their own decision over (BLOCK, ESCALATE, AUTO_CLEAR,
    AUTO_CLEAR) with a workflow record added; the decisions of
    medium_risk_review and common_name_filter carry no timestamp and are
    always replaced by the fallback MANUAL_REVIEW decision; and on a
    summary computed by the scorer the rule medium_risk_review is never
    the one applied. *)
Theorem X13_outcome_by_rule (r r' : Screening.t) :
  FlaggingEngine.process_screening_result r = Ok r' ->
  exists rule_name d,
    Screening.applied_rule r' = Some rule_name
    /\ Screening.decision r' = Some d
    /\ ((rule_name = "exact_ofac_block" /\ Decision.action d = Some "BLOCK"
         /\ Decision.priority d = Some "CRITICAL" /\ is_Some (Decision.workflow d))
        \/ (rule_name = "high_risk_escalate" /\ Decision.action d = Some "ESCALATE"
            /\ Decision.priority d = Some "HIGH" /\ is_Some (Decision.workflow d))
        \/ (rule_name = "low_risk_clear" /\ Decision.action d = Some "AUTO_CLEAR"
            /\ is_Some (Decision.workflow d))
        \/ (rule_name = "default" /\ Decision.action d = Some "AUTO_CLEAR"
            /\ is_Some (Decision.workflow d))
        \/ ((rule_name = "medium_risk_review" \/ rule_name = "common_name_filter")
            /\ d = FlaggingEngine.fallback_decision
            /\ Decision.action d = Some "MANUAL_REVIEW"))
    /\ ((exists ms, Screening.summary r = MatchScorer.create_match_summary ms) ->
        rule_name <> "medium_risk_review").
Proof.
  intros Hr. pose proof (process_analysis r) as Ha. rewrite Hr in Ha.
  destruct Ha as (d0 & rule_name & Hout & ->).
  exists rule_name, (FlaggingEngine.finalize d0).
  split; [reflexivity|]. split; [reflexivity|].
  unfold rule_outcome in Hout. cbv zeta in Hout.
  unfold FlaggingEngine.finalize.
  destruct Hout as [(-> & Ha & Hp & Hv & _)|[(-> & Ha & Hp & Hv & _)
    |[(-> & Ha & Hv & _ & Hlt & Hrev)|[(-> & Ha & Hv & _)|[(-> & Ha & Hv & _)
    |(-> & Ha & Hv & _)]]]]]; rewrite Hv.
  - split; [left; repeat split; try assumption; eexists; reflexivity|].
    intros _; discriminate.
  - split; [right; left; repeat split; try assumption; eexists; reflexivity|].
    intros _; discriminate.
  - split; [right; right; right; right; split; [left; reflexivity|];
            split; reflexivity|].
    intros [ms Hs] _.
    replace (Screening.summary (FlaggingEngine.filtered r))
      with (Screening.summary r) in Hlt, Hrev by reflexivity.
    rewrite Hs in Hlt, Hrev. destruct ms as [|m ms]; [discriminate|].
    pose (h := max_default 0 (map (fun x => default 0 (Match.risk_score x)) (m :: ms))).
    change (h < 85) in Hlt.
    change (Some (MatchScorer.requires_review h) = Some true) in Hrev.
    clearbody h. injection Hrev as Hrev. apply Qge_bool_true in Hrev.
    unfold thresholds.REQUIRE_MANUAL_REVIEW_ABOVE, thresholds.HIGH_RISK_THRESHOLD
      in Hrev. lra.
  - split; [right; right; left; repeat split; try assumption; eexists; reflexivity|].
    intros _; discriminate.
  - split; [right; right; right; right; split; [right; reflexivity|];
            split; reflexivity|].
    intros _; discriminate.
  - split; [right; right; right; left; repeat split; try assumption;
            eexists; reflexivity|].
    intros _; discriminate.
Qed.
End PipelineAnalysis.

Lemma X11_pipeline_failure_characterised_witness :
  let r := @MatchingEngine.screen_name sample_fuzz sample_preprocessor "Kim" [kim_row] in
  FalsePositiveFilter.apply_filters (Screening.matches r) (Screening.query r) = []
  /\ 85 <= default 0 (Summary.highest_score (Screening.summary r))
  /\ exists e, @FlaggingEngine.process_screening_result sample_clock r = Raise e.
Proof.
  intros r.
  assert (Hnone : FalsePositiveFilter.apply_filters (Screening.matches r)
                    (Screening.query r) = []) by (vm_compute; reflexivity).
  assert (Hhigh : 85 <= default 0 (Summary.highest_score (Screening.summary r)))
    by (vm_compute; discriminate).
  split; [exact Hnone|]. split; [exact Hhigh|].
  exact (proj2 (@X11_pipeline_failure_characterised sample_clock r)
               (conj Hnone Hhigh)).
Defined.

Lemma X12_returned_decision_valid_witness :
  exists r' d,
    @FlaggingEngine.process_screening_result sample_clock john_screening = Ok r'
    /\ Screening.decision r' = Some d
    /\ DecisionMaker.validate_decision d = true.
Proof.
  destruct (@FlaggingEngine.process_screening_result sample_clock john_screening)
    as [r'|e] eqn:E; [|vm_compute in E; discriminate].
  destruct (@X12_returned_decision_valid sample_clock john_screening r' E)
    as (d & a & p & Hd & Hv & _).
  exists r', d. split; [reflexivity|]. split; assumption.
Defined.

Lemma X13_outcome_by_rule_witness :
  exists r' rule_name,
    @FlaggingEngine.process_screening_result sample_clock osama_screening = Ok r'
    /\ Screening.applied_rule r' = Some rule_name.
Proof.
  destruct (@FlaggingEngine.process_screening_result sample_clock osama_screening)
    as [r'|e] eqn:E; [|vm_compute in E; discriminate].
  destruct (@X13_outcome_by_rule sample_clock osama_screening r' E)
    as (rule_name & d & Hrule & _).
  exists r', rule_name. split; [reflexivity|exact Hrule].
Defined.

(** ** Accounting of the filtered matches *)



Section Accounting.
Context `{Clock}.

End Accounting.


(** ** Queries of three characters, and exact OFAC hits *)

Lemma isspace_lower (c : ascii) : PyStr.isspace (PyStr.lower_ascii c) = PyStr.isspace c.
Proof. destruct c as [[] [] [] [] [] [] [] []]; reflexivity. Qed.

Lemma lstrip_lower (s : string) : PyStr.lstrip (PyStr.lower s) = PyStr.lower (PyStr.lstrip s).
Proof.
  induction s as [|c s IH]; [reflexivity|].
  cbn [PyStr.lower PyStr.lstrip]. rewrite isspace_lower.
  destruct (PyStr.isspace c); [exact IH|reflexivity].
Qed.

Lemma rev_app_lower (a b : string) :
  String.rev_app (PyStr.lower a) (PyStr.lower b) = PyStr.lower (String.rev_app a b).
Proof.
  revert b. induction a as [|c a IH]; intros b; [reflexivity|].
  cbn [PyStr.lower String.rev_app]. apply (IH (String c b)).
Qed.

Lemma strip_lower (s : string) : PyStr.strip (PyStr.lower s) = PyStr.lower (PyStr.strip s).
Proof.
  unfold PyStr.strip, PyStr.rstrip, String.rev.
  rewrite lstrip_lower.
  change "" with (PyStr.lower "") at 1 2.
  rewrite rev_app_lower, lstrip_lower, rev_app_lower. reflexivity.
Qed.

Lemma length_lower (s : string) : String.length (PyStr.lower s) = String.length s.
Proof. induction s as [|c s IH]; [reflexivity|]. cbn. rewrite IH. reflexivity. Qed.

Lemma common_names_long (x : string) :
  PyStr.member x BusinessRules.common_names = true -> (3 < String.length x)%nat.
Proof.
  unfold PyStr.member. intros Hx. apply bool_decide_eq_true in Hx.
  unfold BusinessRules.common_names in Hx.
  repeat (apply elem_of_cons in Hx as [-> | Hx]; [cbn; lia|]).
  inversion Hx.
Qed.

Lemma scorer_summary_not_medium (ms : list Match.t) :
  default 0 (Summary.highest_score (MatchScorer.create_match_summary ms)) < 85 ->
  Summary.requires_review (MatchScorer.create_match_summary ms) = Some true ->
  False.
Proof.
  destruct ms as [|m ms]; [discriminate|]. intros Hlt Hrev.
  pose (h := max_default 0 (map (fun x => default 0 (Match.risk_score x)) (m :: ms))).
  change (h < 85) in Hlt.
  change (Some (MatchScorer.requires_review h) = Some true) in Hrev.
  clearbody h. injection Hrev as Hrev. apply Qge_bool_true in Hrev.
  unfold thresholds.REQUIRE_MANUAL_REVIEW_ABOVE, thresholds.HIGH_RISK_THRESHOLD
    in Hrev. lra.
Qed.

Section ShortAndExact.
Context `{Rapidfuzz} `{Preprocessor} `{Clock}.

(** X14: a query whose trimmed length is at most three characters never
    ends in BLOCK, ESCALATE or MANUAL_REVIEW, whatever the candidates:
    the short-name filter discards every match, and the screening either
    raises the ValueError of the escalation rule or returns no match with
    the decision AUTO_CLEAR. *)
Theorem X14_three_letter_query (query_name : string) (sanctions_df : list Row.t) :
  (PyStr.len (PyStr.strip query_name) <= 3)%nat ->
  screen query_name sanctions_df = Raise (ValueError "max() arg is an empty sequence")
  \/ exists r',
       screen query_name sanctions_df = Ok r'
       /\ Screening.matches r' = []
       /\ (Screening.decision r' ≫= Decision.action) = Some "AUTO_CLEAR"
       /\ (Screening.applied_rule r' = Some "low_risk_clear"
           \/ Screening.applied_rule r' = Some "default").
Proof.
  intros Hlen. unfold screen.
  set (r := MatchingEngine.screen_name query_name sanctions_df).
  assert (Hq : Screening.query r = query_name) by apply screen_name_query.
  assert (Hs : Screening.summary r = MatchScorer.create_match_summary (Screening.matches r))
    by apply screen_name_summary.
  assert (Hnone : FalsePositiveFilter.apply_filters (Screening.matches r)
                    (Screening.query r) = []).
  { rewrite Hq. apply apply_filters_short_query, Hlen. }
  pose proof (process_analysis r) as Ha.
  destruct (FlaggingEngine.process_screening_result r) as [r'|e].
  2:{ left. destruct Ha as (_ & _ & ->). reflexivity. }
  right. destruct Ha as (d & rule_name & Hout & ->).
  exists (completed (BusinessRules.decided (FlaggingEngine.filtered r) d rule_name) d).
  split; [reflexivity|]. split; [exact Hnone|].
  unfold rule_outcome in Hout. cbv zeta in Hout.
  replace (Screening.matches (FlaggingEngine.filtered r))
    with (@nil Match.t) in Hout by (symmetry; exact Hnone).
  replace (Screening.summary (FlaggingEngine.filtered r))
    with (MatchScorer.create_match_summary (Screening.matches r)) in Hout
    by (symmetry; exact Hs).
  replace (Screening.query (FlaggingEngine.filtered r)) with query_name in Hout
    by (symmetry; exact Hq).
  assert (Hfin : DecisionMaker.validate_decision d = true ->
                 Decision.action d = Some "AUTO_CLEAR" ->
                 Screening.decision
                   (completed (BusinessRules.decided (FlaggingEngine.filtered r)
                                 d rule_name) d)
                   ≫= Decision.action = Some "AUTO_CLEAR").
  { intros Hv Hact.
    change (Some (FlaggingEngine.finalize d) ≫= Decision.action = Some "AUTO_CLEAR").
    unfold FlaggingEngine.finalize. rewrite Hv. exact Hact. }
  destruct Hout as [(_ & _ & _ & _ & m & Hfind & _)|[(_ & _ & _ & _ & _ & _ & Hne)
    |[(_ & _ & _ & _ & Hlt & Hrev)|[(-> & Hact & Hv & _)|[(_ & _ & _ & _ & _ & Hname)
    |(-> & Hact & Hv & _)]]]]].
  - discriminate.
  - congruence.
  - exfalso. eapply scorer_summary_not_medium; eassumption.
  - split; [apply Hfin; assumption|left; reflexivity].
  - exfalso. apply common_names_long in Hname.
    rewrite strip_lower, length_lower in Hname. unfold PyStr.len in Hlen. lia.
  - split; [apply Hfin; assumption|right; reflexivity].
Qed.

Lemma exact_entry (query_processed : Profile.t) (sanction_row : Row.t) :
  MatchingEngine.sanction_name_of sanction_row <> "" ->
  PyStr.eqb (PyStr.strip (PyStr.lower (Profile.normalized query_processed)))
            (PyStr.strip (PyStr.lower (MatchingEngine.sanction_name_of sanction_row)))
    = true ->
  exists m,
    MatchingEngine._match_against_entry query_processed sanction_row = [m]
    /\ Match.match_type m = Some "exact" /\ Match.score m = Some 100
    /\ Match.source m = Some (default "" (Row.source sanction_row))
    /\ Match.target_name m = Some (default "" (Row.name sanction_row)).
Proof.
  intros Hname Hsame.
  unfold MatchingEngine._match_against_entry,
    MatchingEngine._match_against_entry_traced.
  destruct (PyStr.falsy _) eqn:Ef; [apply falsy_spec in Ef; congruence|].
  unfold ExactMatcher.match_. rewrite Hsame.
  cbn [default from_option Match.is_match fst].
  eexists. split; [reflexivity|]. repeat split; reflexivity.
Qed.

(** X15: an exact match on a candidate of the OFAC list is always
    blocked when the query is an ASCII string whose trimmed form is
    longer than three characters: whatever else is in the candidate list
    the screening returns the decision BLOCK at priority CRITICAL from
    the rule exact_ofac_block, routed to the queue immediate_action. *)
Theorem X15_exact_ofac_hit_blocks
    (query_name : string) (sanctions_df : list Row.t) (sanction_row : Row.t) :
  is_ascii query_name = true ->
  (3 < PyStr.len (PyStr.strip query_name))%nat ->
  sanction_row ∈ sanctions_df ->
  MatchingEngine.sanction_name_of sanction_row <> "" ->
  PyStr.eqb (PyStr.strip (PyStr.lower (Profile.normalized (process_single query_name))))
            (PyStr.strip (PyStr.lower (MatchingEngine.sanction_name_of sanction_row)))
    = true ->
  Row.source sanction_row = Some "OFAC" ->
  exists r' d w,
    screen query_name sanctions_df = Ok r'
    /\ Screening.applied_rule r' = Some "exact_ofac_block"
    /\ Screening.decision r' = Some d
    /\ Decision.action d = Some "BLOCK"
    /\ Decision.priority d = Some "CRITICAL"
    /\ Decision.workflow d = Some w
    /\ Workflow.queue w = "immediate_action".
Proof.
  intros _ Hlen Hrow Hname Hsame Hsrc.
  destruct (exact_entry (process_single query_name) sanction_row Hname Hsame)
    as (m0 & Hentry & Htype & Hscore & Hsource & _).
  rewrite Hsrc in Hsource. cbn [default from_option] in Hsource.
  set (a0 := MatchingEngine.annotate m0).
  assert (Ha0 : Match.match_type a0 = Some "exact" /\ Match.score a0 = Some 100
                /\ Match.source a0 = Some "OFAC" /\ Match.risk_score a0 = Some 100).
  { unfold a0, MatchingEngine.annotate.
    cbn [Match.with_risk Match.match_type Match.score Match.source Match.risk_score].
    repeat split; try assumption.
    unfold MatchScorer.calculate_risk_score. rewrite Hsource, Hscore, Htype.
    reflexivity. }
  destruct Ha0 as (Hat & Has & Hasrc & Har).
  set (r := MatchingEngine.screen_name query_name sanctions_df).
  assert (Hq : Screening.query r = query_name) by apply screen_name_query.
  assert (Hin : a0 ∈ Screening.matches r).
  { unfold r, MatchingEngine.screen_name.
    assert (Hlong : PyStr.falsy query_name
                    || (PyStr.len (PyStr.strip query_name)
                        <? thresholds.MIN_NAME_LENGTH)%nat = false).
    { apply orb_false_iff. split.
      - destruct query_name; [cbn in Hlen; lia|reflexivity].
      - apply Nat.ltb_ge. unfold thresholds.MIN_NAME_LENGTH. lia. }
    rewrite Hlong. cbn [Screening.matches].
    eapply elem_of_Permutation_proper; [apply rank_matches_perm|].
    apply list_elem_of_In, filter_In. split.
    - apply in_map. unfold MatchingEngine.collect. apply in_flat_map.
      exists sanction_row. split; [apply list_elem_of_In, Hrow|].
      rewrite Hentry. left. reflexivity.
    - unfold MatchingEngine.significant. rewrite Har. reflexivity. }
  assert (Hkept : a0 ∈ FalsePositiveFilter.apply_filters (Screening.matches r)
                          (Screening.query r)).
  { rewrite Hq. apply apply_filters_keeps_high; [exact Hlen|exact Hin|].
    unfold raw_score. rewrite Has. discriminate. }
  assert (Hofac : BusinessRules.is_exact_ofac a0 = true).
  { unfold BusinessRules.is_exact_ofac. rewrite Hasrc, Hat, Has. reflexivity. }
  unfold screen. fold r.
  pose proof (process_analysis r) as Ha.
  destruct (FlaggingEngine.process_screening_result r) as [r'|e].
  2:{ destruct Ha as (Hnone & _). rewrite Hnone in Hkept. inversion Hkept. }
  destruct Ha as (d & rule_name & Hout & ->).
  unfold rule_outcome in Hout. cbv zeta in Hout.
  assert (Hfound : List.find BusinessRules.is_exact_ofac
                     (Screening.matches (FlaggingEngine.filtered r)) <> None).
  { intros Hnone. eapply find_none in Hnone; [|apply list_elem_of_In, Hkept].
    congruence. }
  destruct Hout as [(-> & Hact & Hprio & Hv & _)|[(_ & _ & _ & _ & Hf & _)
    |[(_ & _ & _ & Hf & _)|[(_ & _ & _ & Hf & _)|[(_ & _ & _ & Hf & _)
    |(_ & _ & _ & Hf & _)]]]]]; try congruence.
  eexists _, (FlaggingEngine.finalize d), (DecisionMaker.get_workflow_routing d).
  split; [reflexivity|]. split; [reflexivity|]. split; [reflexivity|].
  unfold FlaggingEngine.finalize. rewrite Hv.
  split; [exact Hact|]. split; [exact Hprio|]. split; [reflexivity|].
  unfold DecisionMaker.get_workflow_routing. rewrite Hact, Hprio. reflexivity.
Qed.
End ShortAndExact.

Lemma X14_three_letter_query_witness :
  (PyStr.len (PyStr.strip "Kim") <= 3)%nat
  /\ (@screen sample_fuzz sample_preprocessor sample_clock "Kim" [kim_row]
        = Raise (ValueError "max() arg is an empty sequence")
      \/ exists r',
           @screen sample_fuzz sample_preprocessor sample_clock "Kim" [kim_row] = Ok r'
           /\ Screening.matches r' = []
           /\ (Screening.decision r' ≫= Decision.action) = Some "AUTO_CLEAR"
           /\ (Screening.applied_rule r' = Some "low_risk_clear"
               \/ Screening.applied_rule r' = Some "default")).
Proof.
  assert (Hlen : (PyStr.len (PyStr.strip "Kim") <= 3)%nat) by (vm_compute; lia).
  split; [exact Hlen|].
  exact (@X14_three_letter_query sample_fuzz sample_preprocessor sample_clock
           "Kim" [kim_row] Hlen).
Defined.

Lemma X15_exact_ofac_hit_blocks_witness :
  exists r' d w,
    @screen sample_fuzz sample_preprocessor sample_clock
      "Osama bin Laden" [kim_row; laden_row] = Ok r'
    /\ Screening.applied_rule r' = Some "exact_ofac_block"
    /\ Screening.decision r' = Some d
    /\ Decision.action d = Some "BLOCK"
    /\ Decision.priority d = Some "CRITICAL"
    /\ Decision.workflow d = Some w
    /\ Workflow.queue w = "immediate_action".
Proof.
  apply (@X15_exact_ofac_hit_blocks sample_fuzz sample_preprocessor sample_clock
           "Osama bin Laden" [kim_row; laden_row] laden_row).
  - reflexivity.
  - vm_compute. lia.
  - apply list_elem_of_In. right. left. reflexivity.
  - discriminate.
  - reflexivity.
  - reflexivity.
Defined.

(** ** The decision tables *)

Lemma sla_row_lookup (low medium high critical : Z) (priority : string) :
  DecisionMaker.sla_row low medium high critical !! priority =
    if decide (priority = "LOW") then Some low
    else if decide (priority = "MEDIUM") then Some medium
    else if decide (priority = "HIGH") then Some high
    else if decide (priority = "CRITICAL") then Some critical
    else None.
Proof.
  unfold DecisionMaker.sla_row.
  repeat case_decide; subst; try reflexivity.
  rewrite !lookup_insert_ne by congruence. apply lookup_empty.
Qed.

Lemma get_sla_hours_spec (action priority : string) :
  DecisionMaker._get_sla_hours action priority =
    default 24%Z
      (if decide (action = "AUTO_CLEAR") then DecisionMaker.sla_row 0 0 0 0 !! priority
       else if decide (action = "MANUAL_REVIEW")
            then DecisionMaker.sla_row 72 24 8 2 !! priority
       else if decide (action = "ESCALATE")
            then DecisionMaker.sla_row 48 12 4 1 !! priority
       else if decide (action = "BLOCK") then DecisionMaker.sla_row 24 8 2 0 !! priority
       else None).
Proof.
  unfold DecisionMaker._get_sla_hours, DecisionMaker.sla_matrix.
  repeat case_decide; subst; try reflexivity.
  rewrite !lookup_insert_ne by (unfold DecisionAction.AUTO_CLEAR,
    DecisionAction.MANUAL_REVIEW, DecisionAction.ESCALATE, DecisionAction.BLOCK;
    congruence).
  rewrite lookup_empty. reflexivity.
Qed.

Lemma priority_rank_values (priority : string) :
  PyStr.member priority Priority.values = true <-> is_Some (priority_rank priority).
Proof.
  unfold PyStr.member, Priority.values, priority_rank.
  rewrite bool_decide_eq_true.
  repeat case_decide; subst; split; intros Hx; try (eexists; reflexivity);
    try (repeat constructor; fail).
  - repeat (apply elem_of_cons in Hx as [?|Hx]; [congruence|]). inversion Hx.
  - destruct Hx as [? Hx]. discriminate.
Qed.

(** X16: the SLA table never grows with the priority: for every action,
    a decision of a higher priority has at most the hours of a lower one,
    all entries lie between 0 and 72, AUTO_CLEAR has no waiting time at
    any priority of the enumeration, and an action or a priority outside
    the enumerations gives the default of 24 hours. *)
Theorem X16_sla_hours_table (action p1 p2 : string) (r1 r2 : nat) :
  priority_rank p1 = Some r1 ->
  priority_rank p2 = Some r2 ->
  (r1 <= r2)%nat ->
  (0 <= DecisionMaker._get_sla_hours action p2
     <= DecisionMaker._get_sla_hours action p1)%Z
  /\ (DecisionMaker._get_sla_hours action p1 <= 72)%Z
  /\ DecisionMaker._get_sla_hours "AUTO_CLEAR" p1 = 0%Z
  /\ (PyStr.member action DecisionAction.values = false ->
      DecisionMaker._get_sla_hours action p1 = 24%Z)
  /\ (forall p, priority_rank p = None ->
                DecisionMaker._get_sla_hours action p = 24%Z).
Proof.
  intros Hr1 Hr2 Hle.
  assert (Hunknown : forall p, priority_rank p = None ->
                               DecisionMaker._get_sla_hours action p = 24%Z).
  { intros p Hp. rewrite get_sla_hours_spec, !sla_row_lookup.
    unfold priority_rank in Hp.
    repeat case_decide; subst; try discriminate; reflexivity. }
  assert (Hother : PyStr.member action DecisionAction.values = false ->
                   DecisionMaker._get_sla_hours action p1 = 24%Z).
  { intros Hm. rewrite get_sla_hours_spec.
    unfold PyStr.member in Hm. apply bool_decide_eq_false in Hm.
    repeat case_decide; subst; try reflexivity;
      exfalso; apply Hm; repeat constructor. }
  split; [|split; [|split; [|split; [exact Hother|exact Hunknown]]]];
    rewrite !get_sla_hours_spec, !sla_row_lookup;
    unfold priority_rank in Hr1, Hr2;
    repeat case_decide; subst; simplify_eq; cbn [default from_option]; unfold id; try congruence; lia.
Qed.

Lemma requires_approval_spec (action : string) :
  DecisionMaker._requires_approval action =
    negb (bool_decide (action = "AUTO_CLEAR" \/ action = "MANUAL_REVIEW")).
Proof.
  unfold DecisionMaker._requires_approval, DecisionMaker.approval_required.
  destruct (decide (action = "AUTO_CLEAR")) as [->|H1]; [reflexivity|].
  destruct (decide (action = "MANUAL_REVIEW")) as [->|H2]; [reflexivity|].
  rewrite bool_decide_eq_false_2 by (intros [?|?]; congruence).
  destruct (decide (action = "ESCALATE")) as [->|H3]; [reflexivity|].
  destruct (decide (action = "BLOCK")) as [->|H4]; [reflexivity|].
  rewrite !lookup_insert_ne by (unfold DecisionAction.AUTO_CLEAR,
    DecisionAction.MANUAL_REVIEW, DecisionAction.ESCALATE, DecisionAction.BLOCK;
    congruence).
  rewrite lookup_empty. reflexivity.
Qed.

Section CreateDecision.
Context `{Clock}.

(** X17: a decision built by create_decision passes validate_decision
    exactly when its action and its priority (MEDIUM when none is given)
    belong to the enumerations, whatever the confidence; it requires
    approval unless the action is AUTO_CLEAR or MANUAL_REVIEW, so an
    unknown action requires approval; its sla_hours is the entry of the
    SLA table, and it carries no workflow. *)
Theorem X17_create_decision (action reason : string) (kwargs : Kwargs.t) :
  let d := DecisionMaker.create_decision action reason kwargs in
  let priority := default "MEDIUM" (Kwargs.priority kwargs) in
  (DecisionMaker.validate_decision d = true
   <-> action ∈ DecisionAction.values /\ priority ∈ Priority.values)
  /\ (Kwargs.priority kwargs = None ->
      DecisionMaker.validate_decision d = PyStr.member action DecisionAction.values)
  /\ Decision.requires_approval d
     = Some (negb (bool_decide (action = "AUTO_CLEAR" \/ action = "MANUAL_REVIEW")))
  /\ (action ∉ DecisionAction.values -> Decision.requires_approval d = Some true)
  /\ Decision.sla_hours d = Some (DecisionMaker._get_sla_hours action priority)
  /\ Decision.workflow d = None
  /\ Decision.action d = Some action /\ Decision.reason d = Some reason.
Proof.
  cbv zeta. unfold DecisionMaker.create_decision, DecisionMaker.validate_decision.
  cbn [Decision.action Decision.reason Decision.timestamp Decision.confidence
       Decision.priority Decision.requires_approval Decision.sla_hours
       Decision.workflow].
  unfold PyStr.member.
  split; [|split; [|split; [|split; [|repeat split]]]].
  - destruct (decide (action ∈ DecisionAction.values)) as [Ha|Ha];
      destruct (decide (default "MEDIUM" (Kwargs.priority kwargs) ∈ Priority.values))
        as [Hp|Hp].
    + rewrite !bool_decide_eq_true_2 by assumption. cbn. tauto.
    + rewrite (bool_decide_eq_true_2 _ Ha), (bool_decide_eq_false_2 _ Hp). cbn.
      split; [discriminate|tauto].
    + rewrite (bool_decide_eq_false_2 _ Ha). cbn. split; [discriminate|tauto].
    + rewrite (bool_decide_eq_false_2 _ Ha). cbn. split; [discriminate|tauto].
  - intros ->. cbn [default from_option].
    rewrite (bool_decide_eq_true_2 ("MEDIUM" ∈ Priority.values))
      by (right; left).
    destruct (bool_decide (action ∈ DecisionAction.values)); reflexivity.
  - rewrite requires_approval_spec. reflexivity.
  - intros Ha. rewrite requires_approval_spec.
    rewrite bool_decide_eq_false_2; [reflexivity|].
    intros [->| ->]; apply Ha; [left|right; left].
Qed.
End CreateDecision.

Lemma X17_create_decision_witness :
  let d := @DecisionMaker.create_decision sample_clock "FREEZE" "unknown action"
             (Kwargs.mk None None None None None) in
  DecisionMaker.validate_decision d = false
  /\ Decision.requires_approval d = Some true
  /\ Decision.sla_hours d = Some 24%Z.
Proof.
  cbv zeta.
  pose proof (@X17_create_decision sample_clock "FREEZE" "unknown action"
                (Kwargs.mk None None None None None)) as Hx.
  cbv zeta in Hx. destruct Hx as (_ & Hv & _ & Ha & Hs & _).
  split; [|split].
  - rewrite (Hv eq_refl). reflexivity.
  - apply Ha. unfold DecisionAction.values. intros Hin.
    repeat (apply elem_of_cons in Hin as [Hin|Hin]; [discriminate|]).
    inversion Hin.
  - rewrite Hs. reflexivity.
Defined.

Lemma routing_lookup (priority action : string) :
  DecisionMaker.routing priority !! action =
    if decide (action = "AUTO_CLEAR") then Some (Workflow.mk "auto_processed" false None)
    else if decide (action = "MANUAL_REVIEW")
         then Some (DecisionMaker.manual_review_route priority)
    else if decide (action = "ESCALATE")
         then Some (Workflow.mk "senior_analyst" true (Some "compliance_manager"))
    else if decide (action = "BLOCK")
         then Some (Workflow.mk "immediate_action" true (Some "compliance_manager"))
    else None.
Proof.
  unfold DecisionMaker.routing.
  repeat case_decide; subst; try reflexivity.
  rewrite !lookup_insert_ne by (unfold DecisionAction.AUTO_CLEAR,
    DecisionAction.MANUAL_REVIEW, DecisionAction.ESCALATE, DecisionAction.BLOCK;
    congruence).
  apply lookup_empty.
Qed.

(** X18: the workflow routing of any decision: only AUTO_CLEAR is routed
    without notification, only BLOCK reaches the queue immediate_action,
    and a decision whose action is missing or outside the enumeration is
    routed like a MANUAL_REVIEW of its priority: to the queue
    analyst_review, with the supervisor as escalation path exactly at the
    priorities HIGH and CRITICAL. *)
Theorem X18_workflow_routing (decision : Decision.t) :
  let w := DecisionMaker.get_workflow_routing decision in
  let priority := default "MEDIUM" (Decision.priority decision) in
  (Workflow.notification w = false <-> Decision.action decision = Some "AUTO_CLEAR")
  /\ (Workflow.queue w = "immediate_action" <-> Decision.action decision = Some "BLOCK")
  /\ (Workflow.queue w = "senior_analyst" <-> Decision.action decision = Some "ESCALATE")
  /\ ((forall a, Decision.action decision = Some a -> a ∉ DecisionAction.values) ->
      Workflow.queue w = "analyst_review"
      /\ Workflow.notification w = true
      /\ (Workflow.escalation_path w = Some "supervisor"
          <-> priority = "HIGH" \/ priority = "CRITICAL")
      /\ (Workflow.escalation_path w = None
          <-> priority <> "HIGH" /\ priority <> "CRITICAL")).
Proof.
  cbv zeta. unfold DecisionMaker.get_workflow_routing.
  assert (Hroute : forall p,
    Workflow.queue (DecisionMaker.manual_review_route p) = "analyst_review"
    /\ Workflow.notification (DecisionMaker.manual_review_route p) = true
    /\ (Workflow.escalation_path (DecisionMaker.manual_review_route p)
          = Some "supervisor" <-> p = "HIGH" \/ p = "CRITICAL")
    /\ (Workflow.escalation_path (DecisionMaker.manual_review_route p) = None
        <-> p <> "HIGH" /\ p <> "CRITICAL")).
  { intros p. unfold DecisionMaker.manual_review_route, PyStr.member.
    cbn [Workflow.queue Workflow.notification Workflow.escalation_path].
    split; [reflexivity|]. split; [reflexivity|].
    destruct (decide (p = "HIGH")) as [->|Hh].
    { rewrite bool_decide_eq_true_2 by left.
      split; split; intuition congruence. }
    destruct (decide (p = "CRITICAL")) as [->|Hc].
    { rewrite bool_decide_eq_true_2 by (right; left).
      split; split; intuition congruence. }
    rewrite bool_decide_eq_false_2.
    - split; split; intuition congruence.
    - intros Hin. repeat (apply elem_of_cons in Hin as [Hin|Hin]; [congruence|]).
      inversion Hin. }
  destruct (Decision.action decision) as [a|].
  2:{ pose proof (Hroute (default "MEDIUM" (Decision.priority decision)))
        as (Hq & Hn & He).
      rewrite Hq, Hn.
      split; [split; discriminate|]. split; [split; discriminate|].
      split; [split; discriminate|]. intros _.
      split; [reflexivity|]. split; [reflexivity|]. exact He. }
  rewrite routing_lookup.
  pose proof (Hroute (default "MEDIUM" (Decision.priority decision)))
    as (Hq & Hn & He1 & He2).
  repeat case_decide; subst; cbn [default from_option id Workflow.queue
    Workflow.notification Workflow.escalation_path]; rewrite ?Hq, ?Hn;
    (split; [|split; [|split]]);
    try (split; congruence);
    try (intros Hnot; exfalso; apply (Hnot _ eq_refl); repeat constructor; fail).
  intros _. split; [reflexivity|]. split; [reflexivity|]. split; assumption.
Qed.

Lemma X18_workflow_routing_witness :
  let d := Decision.mk (Some "FREEZE") (Some "r") (Some "t") (Some "HIGH")
             (Some "CRITICAL") None None None None None None in
  Workflow.queue (DecisionMaker.get_workflow_routing d) = "analyst_review"
  /\ Workflow.escalation_path (DecisionMaker.get_workflow_routing d) = Some "supervisor".
Proof.
  cbv zeta.
  match goal with
  | |- Workflow.queue (DecisionMaker.get_workflow_routing ?d) = _ /\ _ =>
      pose proof (X18_workflow_routing d) as Hx
  end.
  cbv zeta in Hx. destruct Hx as (_ & _ & _ & Hx).
  destruct Hx as (Hq & _ & He & _).
  - intros a Ha. injection Ha as <-. unfold DecisionAction.values. intros Hin.
    repeat (apply elem_of_cons in Hin as [Hin|Hin]; [discriminate|]).
    inversion Hin.
  - split; [exact Hq|]. apply He. right. reflexivity.
Defined.

Lemma X16_sla_hours_table_witness :
  (0 <= DecisionMaker._get_sla_hours "BLOCK" "CRITICAL"
     <= DecisionMaker._get_sla_hours "BLOCK" "LOW")%Z
  /\ (DecisionMaker._get_sla_hours "BLOCK" "LOW" <= 72)%Z
  /\ DecisionMaker._get_sla_hours "BLOCK" "URGENT" = 24%Z.
Proof.
  destruct (X16_sla_hours_table "BLOCK" "LOW" "CRITICAL" 0 3) as (H1 & H2 & _ & _ & H3).
  - reflexivity.
  - reflexivity.
  - lia.
  - split; [exact H1|]. split; [exact H2|]. apply H3. reflexivity.
Defined.

(** ** The decision summary of a processed screening *)

Section DecisionSummaryFacts.
Context `{Clock}.

(** X19: the human-readable summary of any result that the pipeline
    returns: it names the query and the screening id, counts the matches
    that survived filtering, reports one of the four actions with a reason
    and a priority, sets requires_review exactly for MANUAL_REVIEW and
    ESCALATE and immediate_action exactly for BLOCK (never both), and its
    SLA deadline always reads 24 hours, whatever the action and the
    priority. *)
Theorem X19_decision_summary (r r' : Screening.t) :
  FlaggingEngine.process_screening_result r = Ok r' ->
  let s := get_decision_summary r' in
  DecisionSummary.query_name s = Screening.query r
  /\ DecisionSummary.screening_id s = Some FlaggingEngine._generate_screening_id
  /\ DecisionSummary.matches_found s = length (Screening.matches r')
  /\ (exists a,
        DecisionSummary.decision s = Some a /\ a ∈ DecisionAction.values
        /\ DecisionSummary.requires_review s
           = bool_decide (a = "MANUAL_REVIEW" \/ a = "ESCALATE")
        /\ DecisionSummary.immediate_action s = bool_decide (a = "BLOCK"))
  /\ DecisionSummary.requires_review s && DecisionSummary.immediate_action s = false
  /\ is_Some (DecisionSummary.reason s)
  /\ is_Some (DecisionSummary.priority s)
  /\ DecisionSummary.sla_deadline s = "24 hours".
Proof.
  intros Hr. cbv zeta.
  destruct (process_screening_result_inv r r' Hr)
    as (d1 & rule1 & _ & Hshape & _ & _ & _ & _ & Hd1).
  pose proof (process_analysis r) as Ha. rewrite Hr in Ha.
  destruct Ha as (d0 & rule_name & _ & ->).
  change (Some (FlaggingEngine.finalize d0) = Some (FlaggingEngine.finalize d1)) in Hd1.
  injection Hd1 as Hd1.
  assert (Hv : DecisionMaker.validate_decision (FlaggingEngine.finalize d0) = true).
  { unfold FlaggingEngine.finalize.
    destruct (DecisionMaker.validate_decision d0) eqn:E.
    - rewrite validate_with_workflow. exact E.
    - apply validate_fallback. }
  destruct (validate_actions _ Hv) as (a & p & Hact & Hp & Hain & _ & Hreason & _).
  assert (Hsla : default 24%Z (Decision.sla_hours (FlaggingEngine.finalize d0)) = 24%Z).
  { rewrite Hd1. destruct (finalize_cases d1 Hshape)
      as [(_ & _ & _ & -> & _)|(_ & _ & _ & _ & -> & _)]; reflexivity. }
  unfold get_decision_summary.
  change (Screening.decision (completed _ d0)) with (Some (FlaggingEngine.finalize d0)).
  cbn [DecisionSummary.query_name DecisionSummary.screening_id
       DecisionSummary.matches_found DecisionSummary.decision
       DecisionSummary.requires_review DecisionSummary.immediate_action
       DecisionSummary.reason DecisionSummary.priority
       DecisionSummary.sla_deadline mbind option_bind].
  rewrite Hact, Hp, Hsla.
  assert (Hrev : PyStr.member a ["MANUAL_REVIEW"; "ESCALATE"]
                 = bool_decide (a = "MANUAL_REVIEW" \/ a = "ESCALATE")).
  { unfold PyStr.member. apply bool_decide_ext. split.
    - intros Hin. apply elem_of_cons in Hin as [->|Hin]; [left; reflexivity|].
      apply elem_of_cons in Hin as [->|Hin]; [right; reflexivity|]. inversion Hin.
    - intros [->| ->]; [left|right; left]. }
  assert (Himm : bool_decide (Some a = Some "BLOCK") = bool_decide (a = "BLOCK")).
  { apply bool_decide_ext. split; congruence. }
  split; [reflexivity|]. split; [reflexivity|]. split; [reflexivity|].
  split; [exists a; repeat split; assumption|].
  split.
  { rewrite Hrev, Himm. destruct (decide (a = "BLOCK")) as [->|Hb].
    - reflexivity.
    - rewrite (bool_decide_eq_false_2 _ Hb). apply andb_false_r. }
  split; [exact Hreason|]. split; [eexists; reflexivity|]. reflexivity.
Qed.
End DecisionSummaryFacts.

Lemma X19_decision_summary_witness :
  exists r',
    @FlaggingEngine.process_screening_result sample_clock osama_screening = Ok r'
    /\ DecisionSummary.decision (get_decision_summary r') = Some "BLOCK"
    /\ DecisionSummary.immediate_action (get_decision_summary r') = true
    /\ DecisionSummary.sla_deadline (get_decision_summary r') = "24 hours".
Proof.
  destruct (@FlaggingEngine.process_screening_result sample_clock osama_screening)
    as [r'|e] eqn:E; [|vm_compute in E; discriminate].
  pose proof (@X19_decision_summary sample_clock osama_screening r' E) as Hx.
  cbv zeta in Hx. destruct Hx as (_ & _ & _ & _ & _ & _ & _ & Hsla).
  exists r'. split; [reflexivity|].
  vm_compute in E. injection E as <-.
  split; [reflexivity|]. split; [reflexivity|]. exact Hsla.
Defined.

(** ** The audit trail *)

Lemma log_matches_spec (st : AuditStorage.t) (matches : list MatchEntry.t) :
  AuditStorage.log_matches st matches =
    AuditStorage.mk (AuditStorage.screening_log st)
                    (AuditStorage.matches_log st ++ matches)
                    (AuditStorage.system_log st).
Proof.
  unfold AuditStorage.log_matches. revert st.
  induction matches as [|m ms IH]; intros st.
  - cbn [fold_left]. rewrite app_nil_r. destruct st; reflexivity.
  - cbn [fold_left]. rewrite IH.
    cbn [AuditStorage.screening_log AuditStorage.matches_log AuditStorage.system_log].
    rewrite <- app_assoc. reflexivity.
Qed.

Lemma slice_from_positive_limit {A : Type} (limit : Z) (xs : list A) :
  (0 < limit)%Z ->
  rev (AuditStorage.slice_from (- limit) xs) = take (Z.to_nat limit) (rev xs).
Proof.
  intros Hpos. unfold AuditStorage.slice_from.
  destruct (Z.ltb_spec (- limit) 0) as [_|Hge]; [|lia].
  rewrite firstn_rev. f_equal. f_equal. lia.
Qed.

Lemma sublist_rev_rev {A : Type} (l k : list A) :
  sublist l k -> sublist (rev l) (rev k).
Proof.
  induction 1 as [|x l k _ IH|x l k _ IH]; cbn [rev].
  - constructor.
  - apply sublist_app; [exact IH|reflexivity].
  - rewrite <- (app_nil_r (rev l)). apply sublist_app; [exact IH|].
    apply sublist_nil_l.
Qed.

(** X20: the most recent screening events are returned newest first and
    are at most [limit] many when the limit is positive; with the limit 0
    every event of the log is returned, and with a negative limit all but
    the oldest [-limit] events are. *)
Theorem X20_recent_screenings (st : AuditStorage.t) (limit : Z) :
  let log := AuditStorage.screening_log st in
  let recent := AuditStorage.get_recent_screenings st limit in
  ((0 < limit)%Z ->
   recent = take (Z.to_nat limit) (rev log)
   /\ length recent = Nat.min (Z.to_nat limit) (length log))
  /\ (limit = 0%Z -> recent = rev log)
  /\ ((limit < 0)%Z -> recent = rev (drop (Z.to_nat (- limit)) log))
  /\ sublist recent (rev log).
Proof.
  cbv zeta. unfold AuditStorage.get_recent_screenings.
  split; [|split; [|split]].
  - intros Hpos. rewrite slice_from_positive_limit by exact Hpos.
    split; [reflexivity|]. rewrite length_take, length_rev. reflexivity.
  - intros ->. reflexivity.
  - intros Hneg. unfold AuditStorage.slice_from.
    destruct (Z.ltb_spec (- limit) 0) as [Hlt|_]; [lia|]. reflexivity.
  - apply sublist_rev_rev. unfold AuditStorage.slice_from.
    destruct (- limit <? 0)%Z; apply sublist_drop.
Qed.

Lemma X20_recent_screenings_witness :
  let e (i : string) :=
    LogEntry.mk i "2024-01-01T00:00:00" "SCREENING" "Kim" "AUTO_CLEAR" "NONE" 0 0
                None None None in
  let st := AuditStorage.mk [e "a"; e "b"; e "c"] [] [] in
  AuditStorage.get_recent_screenings st 2 = [e "c"; e "b"]
  /\ AuditStorage.get_recent_screenings st 0 = [e "c"; e "b"; e "a"].
Proof.
  cbv zeta.
  match goal with
  | |- AuditStorage.get_recent_screenings ?st 2 = _ /\ _ =>
      pose proof (X20_recent_screenings st 2) as H2;
      pose proof (X20_recent_screenings st 0) as H0
  end.
  cbv zeta in H2, H0.
  destruct H2 as (H2 & _). destruct H0 as (_ & H0 & _).
  split.
  - rewrite (proj1 (H2 ltac:(lia))). reflexivity.
  - rewrite (H0 eq_refl). reflexivity.
Defined.

Section AuditFacts.
Context `{Clock} `{Uuid}.

(** X21: logging a screening is append-only and consistent: the
    screening log gains exactly one event, which carries the returned
    screening id, the query, the action of the decision (UNKNOWN when the
    result has none) and the number of matches; the match log gains one
    line per match of the result, in order, each under the same screening
    id; the system log is untouched; and the new event is the first one
    that get_recent_screenings returns. *)
Theorem X21_log_screening (st : AuditStorage.t) (query : string)
    (screening_result : Screening.t) (processing_time_ms : Q)
    (user_id session_id source_ip : option string) (limit : Z) :
  let out := AuditLogger.log_screening st query screening_result processing_time_ms
               user_id session_id source_ip in
  let st' := fst out in
  let screening_id := snd out in
  let matches := Screening.matches screening_result in
  exists e,
    AuditStorage.screening_log st' = AuditStorage.screening_log st ++ [e]
    /\ LogEntry.screening_id e = screening_id
    /\ LogEntry.query e = query
    /\ LogEntry.event_type e = "SCREENING"
    /\ LogEntry.decision e
       = default "UNKNOWN" (Screening.decision screening_result ≫= Decision.action)
    /\ LogEntry.matches_count e = length matches
    /\ AuditStorage.matches_log st'
       = AuditStorage.matches_log st ++ map (AuditLogger.match_entry screening_id) matches
    /\ (length (AuditStorage.matches_log st')
        = length (AuditStorage.matches_log st) + LogEntry.matches_count e)%nat
    /\ Forall (fun m => MatchEntry.screening_id m = screening_id)
              (map (AuditLogger.match_entry screening_id) matches)
    /\ AuditStorage.system_log st' = AuditStorage.system_log st
    /\ ((0 < limit)%Z ->
        head (AuditStorage.get_recent_screenings st' limit) = Some e).
Proof.
  cbv zeta. unfold AuditLogger.log_screening. cbv zeta. cbn [fst snd].
  set (e := LogEntry.mk _ _ _ _ _ _ _ _ _ _ _).
  set (st1 := AuditStorage.log_screening st e).
  set (ms := Screening.matches screening_result).
  assert (Hst : match ms with
                | [] => st1
                | _ :: _ => AuditStorage.log_matches st1
                              (map (AuditLogger.match_entry uuid4) ms)
                end
                = AuditStorage.mk (AuditStorage.screening_log st ++ [e])
                    (AuditStorage.matches_log st
                       ++ map (AuditLogger.match_entry uuid4) ms)
                    (AuditStorage.system_log st)).
  { destruct ms as [|m ms'].
    - cbn [map]. rewrite app_nil_r. reflexivity.
    - rewrite log_matches_spec. reflexivity. }
  rewrite Hst.
  cbn [AuditStorage.screening_log AuditStorage.matches_log AuditStorage.system_log].
  exists e.
  split; [reflexivity|]. split; [reflexivity|]. split; [reflexivity|].
  split; [reflexivity|]. split; [reflexivity|]. split; [reflexivity|].
  split; [reflexivity|].
  split; [rewrite length_app, length_map; reflexivity|].
  split; [apply Forall_forall; intros x Hx;
          apply list_elem_of_fmap in Hx as (m & -> & _); reflexivity|].
  split; [reflexivity|].
  intros Hpos. unfold AuditStorage.get_recent_screenings.
  rewrite slice_from_positive_limit by exact Hpos.
  cbn [AuditStorage.screening_log]. rewrite rev_app_distr. cbn [rev app].
  destruct (Z.to_nat limit) as [|n] eqn:En; [lia|]. reflexivity.
Qed.
End AuditFacts.

Lemma X21_log_screening_witness :
  let out := @AuditLogger.log_screening sample_clock sample_uuid AuditStorage.empty
               "Osama bin Laden" osama_screening 12 None None None in
  exists e,
    AuditStorage.screening_log (fst out) = [e]
    /\ head (AuditStorage.get_recent_screenings (fst out) 100) = Some e
    /\ length (AuditStorage.matches_log (fst out)) = 1%nat.
Proof.
  cbv zeta.
  destruct (@X21_log_screening sample_clock sample_uuid AuditStorage.empty
              "Osama bin Laden" osama_screening 12 None None None 100)
    as (e & Hlog & _ & _ & _ & _ & _ & _ & _ & _ & _ & Hrecent).
  exists e. split; [exact Hlog|]. split; [apply Hrecent; lia|]. reflexivity.
Defined.

(** ** Strings as lists of characters *)

Lemma chars_inj (a b : string) : chars a = chars b -> a = b.
Proof.
  revert b. induction a as [|c a IH]; intros [|d b] Hab; try discriminate.
  - reflexivity.
  - cbn [chars] in Hab. injection Hab as -> Hab. f_equal. apply IH, Hab.
Qed.

Lemma chars_app (a b : string) : chars (a +:+ b) = chars a ++ chars b.
Proof.
  induction a as [|c a IH]; [reflexivity|].
  change (c :: chars (a +:+ b) = c :: (chars a ++ chars b)).
  rewrite IH. reflexivity.
Qed.

Lemma chars_rev_app (a b : string) :
  chars (String.rev_app a b) = rev (chars a) ++ chars b.
Proof.
  revert b. induction a as [|c a IH]; intros b; [reflexivity|].
  cbn [String.rev_app chars rev]. rewrite IH, <- app_assoc. reflexivity.
Qed.

Lemma chars_rev (s : string) : chars (String.rev s) = rev (chars s).
Proof. unfold String.rev. rewrite chars_rev_app. apply app_nil_r. Qed.

Lemma string_rev_involutive (s : string) : String.rev (String.rev s) = s.
Proof. apply chars_inj. rewrite !chars_rev. apply rev_involutive. Qed.

Lemma string_rev_app (a b : string) :
  String.rev (a +:+ b) = String.rev b +:+ String.rev a.
Proof.
  apply chars_inj. rewrite chars_rev, !chars_app, !chars_rev. apply rev_app_distr.
Qed.

Lemma string_app_nil_r (s : string) : s +:+ "" = s.
Proof. apply chars_inj. rewrite chars_app. apply app_nil_r. Qed.

Lemma string_app_assoc (a b c : string) : (a +:+ b) +:+ c = a +:+ (b +:+ c).
Proof. apply chars_inj. rewrite !chars_app. symmetry. apply app_assoc. Qed.

Lemma no_space_chars (s : string) :
  no_space s = true <-> Forall (fun c => PyStr.isspace c = false) (chars s).
Proof.
  induction s as [|c s IH]; cbn [no_space chars].
  - split; [constructor|reflexivity].
  - rewrite andb_true_iff, negb_true_iff, Forall_cons, IH. reflexivity.
Qed.

Lemma no_space_rev (s : string) : no_space (String.rev s) = no_space s.
Proof.
  apply eq_true_iff_eq. rewrite !no_space_chars, chars_rev.
  split; intros Hx; [rewrite <- (rev_involutive (chars s))|]; apply Forall_rev, Hx.
Qed.

Lemma falsy_rev (s : string) : PyStr.falsy (String.rev s) = PyStr.falsy s.
Proof.
  destruct s as [|c s]; [reflexivity|].
  destruct (String.rev (String c s)) as [|d r] eqn:E; [|reflexivity].
  apply (f_equal chars) in E. rewrite chars_rev in E.
  cbn [chars rev] in E. destruct (rev (chars s)); discriminate.
Qed.

Lemma is_token_rev (s : string) : is_token (String.rev s) = is_token s.
Proof. unfold is_token. rewrite falsy_rev, no_space_rev. reflexivity. Qed.

(** ** [str.split] and [' '.join] *)

Lemma split_go_tokens (cur : option string) (s : string) :
  (forall acc, cur = Some acc -> is_token acc = true) ->
  Forall (fun w => is_token w = true) (PyStr.split_go cur s).
Proof.
  revert cur. induction s as [|c s IH]; intros cur Hcur; cbn [PyStr.split_go].
  - destruct cur as [acc|]; cbn; [|constructor].
    constructor; [|constructor]. rewrite is_token_rev. apply Hcur. reflexivity.
  - destruct (PyStr.isspace c) eqn:Ec.
    + apply Forall_app. split.
      * destruct cur as [acc|]; cbn; [|constructor].
        constructor; [|constructor]. rewrite is_token_rev. apply Hcur. reflexivity.
      * apply IH. discriminate.
    + apply IH. intros acc [= <-]. unfold is_token. cbn [PyStr.falsy no_space negb].
      rewrite Ec. cbn [negb andb].
      destruct cur as [acc|]; cbn [default from_option]; [|reflexivity].
      specialize (Hcur acc eq_refl). unfold is_token in Hcur.
      apply andb_true_iff in Hcur as [_ Hcur]. exact Hcur.
Qed.

Lemma split_tokens (s : string) :
  Forall (fun w => is_token w = true) (PyStr.split s).
Proof. apply split_go_tokens. discriminate. Qed.

Lemma split_go_word (c : ascii) (w : string) (cur : option string) (s : string) :
  no_space (String c w) = true ->
  PyStr.split_go cur (String c w +:+ s)
  = PyStr.split_go (Some (String.rev_app (String c w) (default "" cur))) s.
Proof.
  revert c cur. induction w as [|c' w IH]; intros c cur Hns;
    cbn [no_space] in Hns; apply andb_true_iff in Hns as [Hc Hw];
    apply negb_true_iff in Hc.
  - change (String c "" +:+ s) with (String c s).
    cbn [PyStr.split_go]. rewrite Hc. reflexivity.
  - change (String c (String c' w) +:+ s) with (String c (String c' w +:+ s)).
    cbn [PyStr.split_go]. rewrite Hc. rewrite IH by exact Hw. reflexivity.
Qed.

Lemma split_word_then (w rest : string) :
  is_token w = true ->
  PyStr.split (w +:+ String " " rest) = w :: PyStr.split rest.
Proof.
  unfold is_token. intros Hw. apply andb_true_iff in Hw as [Hne Hns].
  destruct w as [|c w]; [discriminate|].
  unfold PyStr.split. rewrite split_go_word by exact Hns.
  cbn [PyStr.split_go PyStr.isspace default from_option].
  change (String.rev_app (String c w) "") with (String.rev (String c w)).
  cbn [fmap option_fmap option_map option_list app].
  rewrite string_rev_involutive. reflexivity.
Qed.

Lemma split_word (w : string) : is_token w = true -> PyStr.split w = [w].
Proof.
  unfold is_token. intros Hw. apply andb_true_iff in Hw as [Hne Hns].
  destruct w as [|c w]; [discriminate|].
  unfold PyStr.split. rewrite <- (string_app_nil_r (String c w)) at 1.
  rewrite split_go_word by exact Hns.
  cbn [PyStr.split_go default from_option].
  change (String.rev_app (String c w) "") with (String.rev (String c w)).
  cbn [fmap option_fmap option_map option_list].
  rewrite string_rev_involutive. reflexivity.
Qed.

Lemma split_join (words : list string) :
  Forall (fun w => is_token w = true) words ->
  PyStr.split (PyText.join " " words) = words.
Proof.
  induction words as [|w ws IH]; intros Hws; [reflexivity|].
  apply Forall_cons in Hws as [Hw Hws].
  destruct ws as [|w' ws].
  - cbn [PyText.join]. apply split_word, Hw.
  - change (PyText.join " " (w :: w' :: ws))
      with (w +:+ String " " (PyText.join " " (w' :: ws))).
    rewrite split_word_then by exact Hw. rewrite IH by exact Hws. reflexivity.
Qed.

(** ** The cleaner's word filters *)

Lemma List_filter_idem {A : Type} (f : A -> bool) (l : list A) :
  List.filter f (List.filter f l) = List.filter f l.
Proof.
  induction l as [|x l IH]; [reflexivity|]. cbn [List.filter].
  destruct (f x) eqn:E; [|exact IH]. cbn [List.filter]. rewrite E, IH. reflexivity.
Qed.

Lemma List_filter_Forall {A : Type} (P : A -> Prop) (f : A -> bool) (l : list A) :
  Forall P l -> Forall P (List.filter f l).
Proof.
  intros Hl. apply Forall_forall. intros x Hx.
  apply list_elem_of_In, filter_In in Hx as [Hx _].
  rewrite Forall_forall in Hl. apply Hl, list_elem_of_In, Hx.
Qed.

Lemma List_filter_pass {A : Type} (f : A -> bool) (l : list A) :
  Forall (fun x => f x = true) (List.filter f l).
Proof.
  apply Forall_forall. intros x Hx.
  apply list_elem_of_In, filter_In in Hx as [_ Hx]. exact Hx.
Qed.

Lemma split_join_filter (f : string -> bool) (text : string) :
  PyStr.split (PyText.join " " (List.filter f (PyStr.split text)))
  = List.filter f (PyStr.split text).
Proof. apply split_join, List_filter_Forall, split_tokens. Qed.

Lemma not_member (w : string) (xs : list string) :
  negb (PyStr.member w xs) = true <-> w ∉ xs.
Proof.
  unfold PyStr.member. rewrite negb_true_iff, bool_decide_eq_false. reflexivity.
Qed.

Lemma word_removal_split (text : string) :
  PyStr.split (TextCleaner.remove_titles text)
  = List.filter (fun w => negb (PyStr.member w TextCleaner.titles)) (PyStr.split text)
  /\ PyStr.split (TextCleaner.remove_common_words text)
     = List.filter (fun w => negb (PyStr.member w TextCleaner.stop_words))
                   (PyStr.split text).
Proof.
  unfold TextCleaner.remove_titles, TextCleaner.remove_common_words.
  rewrite !split_join_filter. split; reflexivity.
Qed.

(** X22: remove_titles and remove_common_words work word by word: the
    words of the result are the words of the text that are not in the
    list of titles (of stop words), in their order; so the result contains
    no title (no stop word) as a word, and removing twice is the same as
    removing once. *)
Theorem X22_word_removal (text : string) :
  PyStr.split (TextCleaner.remove_titles text)
  = List.filter (fun w => negb (PyStr.member w TextCleaner.titles)) (PyStr.split text)
  /\ PyStr.split (TextCleaner.remove_common_words text)
     = List.filter (fun w => negb (PyStr.member w TextCleaner.stop_words))
                   (PyStr.split text)
  /\ Forall (fun w => w ∉ TextCleaner.titles)
            (PyStr.split (TextCleaner.remove_titles text))
  /\ Forall (fun w => w ∉ TextCleaner.stop_words)
            (PyStr.split (TextCleaner.remove_common_words text))
  /\ TextCleaner.remove_titles (TextCleaner.remove_titles text)
     = TextCleaner.remove_titles text
  /\ TextCleaner.remove_common_words (TextCleaner.remove_common_words text)
     = TextCleaner.remove_common_words text.
Proof.
  unfold TextCleaner.remove_titles, TextCleaner.remove_common_words.
  rewrite !split_join_filter, !List_filter_idem.
  split; [reflexivity|]. split; [reflexivity|].
  split; [|split; [|split; reflexivity]].
  - eapply Forall_impl; [apply List_filter_pass|].
    intros w Hw. apply not_member in Hw. exact Hw.
  - eapply Forall_impl; [apply List_filter_pass|].
    intros w Hw. apply not_member in Hw. exact Hw.
Qed.

(** ** The preprocessing pipeline *)

Section ProcessSingle.
Context `{Unidecode} `{Rapidfuzz}.

(** X23: the cleaned field of a processed name consists of the words of
    the cleaned text that are neither titles nor stop words, so none of
    its words is a title or a stop word.  A name whose words are all
    titles or stop words is processed to the empty name with no tokens
    and no variants, and a candidate row built from such a name never
    matches: the matching engine emits no record for it, whatever the
    query. *)
Theorem X23_process_single_words (name : string) :
  let p := NameProcessor.process_single name in
  let words := PyStr.split (TextCleaner.clean name) in
  PyStr.split (Profile.cleaned p)
  = List.filter (fun w => negb (PyStr.member w TextCleaner.stop_words))
      (List.filter (fun w => negb (PyStr.member w TextCleaner.titles)) words)
  /\ Forall (fun w => (w ∉ TextCleaner.titles) /\ (w ∉ TextCleaner.stop_words))
            (PyStr.split (Profile.cleaned p))
  /\ (forallb (fun w => PyStr.member w TextCleaner.titles
                        || PyStr.member w TextCleaner.stop_words) words = true ->
      Profile.cleaned p = "" /\ Profile.normalized p = ""
      /\ Profile.tokens p = [] /\ Profile.variants p = ∅
      /\ forall (query_processed : Profile.t) (row : Row.t),
           Row.name row = Some name ->
           MatchingEngine._match_against_entry query_processed
             (NameProcessor.process_row row) = []).
Proof.
  cbv zeta.
  assert (Hsplit : PyStr.split (Profile.cleaned (NameProcessor.process_single name))
    = List.filter (fun w => negb (PyStr.member w TextCleaner.stop_words))
        (List.filter (fun w => negb (PyStr.member w TextCleaner.titles))
           (PyStr.split (TextCleaner.clean name)))).
  { unfold NameProcessor.process_single.
    destruct (PyStr.falsy name) eqn:Ef.
    - apply falsy_spec in Ef. subst name. reflexivity.
    - cbn [Profile.cleaned].
      destruct (word_removal_split (TextCleaner.clean name)) as [Ht _].
      destruct (word_removal_split
                  (TextCleaner.remove_titles (TextCleaner.clean name))) as [_ Hs].
      rewrite Hs, Ht. reflexivity. }
  split; [exact Hsplit|]. split.
  { rewrite Hsplit. apply Forall_forall. intros w Hw.
    apply list_elem_of_In, filter_In in Hw as [Hw Hs].
    apply filter_In in Hw as [_ Ht].
    apply not_member in Hs, Ht. split; assumption. }
  intros Hall.
  assert (Hnil : List.filter (fun w => negb (PyStr.member w TextCleaner.stop_words))
            (List.filter (fun w => negb (PyStr.member w TextCleaner.titles))
               (PyStr.split (TextCleaner.clean name))) = []).
  { rewrite forallb_forall in Hall.
    destruct (List.filter _ (List.filter _ _)) as [|w ws] eqn:E; [reflexivity|].
    assert (Hw : In w (w :: ws)) by (left; reflexivity).
    rewrite <- E in Hw. apply filter_In in Hw as [Hw Hs].
    apply filter_In in Hw as [Hw Ht]. specialize (Hall w Hw).
    apply negb_true_iff in Hs, Ht. rewrite Hs, Ht in Hall. discriminate. }
  assert (Hp : NameProcessor.process_single name = Profile.mk name "" "" [] ∅
               \/ NameProcessor.process_single name = Profile.mk "" "" "" [] ∅).
  { unfold NameProcessor.process_single.
    destruct (PyStr.falsy name) eqn:Ef; [right; reflexivity|left].
    assert (Hc : TextCleaner.remove_common_words
                   (TextCleaner.remove_titles (TextCleaner.clean name)) = "").
    { unfold TextCleaner.remove_common_words at 1.
      destruct (word_removal_split (TextCleaner.clean name)) as [-> _].
      rewrite Hnil. reflexivity. }
    rewrite Hc. reflexivity. }
  assert (Hfields : Profile.cleaned (NameProcessor.process_single name) = ""
                    /\ Profile.normalized (NameProcessor.process_single name) = ""
                    /\ Profile.tokens (NameProcessor.process_single name) = []
                    /\ Profile.variants (NameProcessor.process_single name) = ∅).
  { destruct Hp as [-> | ->]; repeat split; reflexivity. }
  destruct Hfields as (Hc & Hn & Ht & Hv).
  split; [exact Hc|]. split; [exact Hn|]. split; [exact Ht|]. split; [exact Hv|].
  intros q row Hrow.
  unfold MatchingEngine._match_against_entry,
    MatchingEngine._match_against_entry_traced, MatchingEngine.sanction_name_of,
    NameProcessor.process_row.
  cbn [Row.normalized default from_option]. rewrite Hrow.
  cbn [default from_option]. change (id name) with name. rewrite Hn. reflexivity.
Qed.
End ProcessSingle.

Lemma X23_process_single_words_witness :
  let p := @NameProcessor.process_single ascii_unidecode "Sheikh Abu Al" in
  Profile.normalized p = "" /\ Profile.tokens p = []
  /\ @MatchingEngine._match_against_entry sample_fuzz
       (@NameProcessor.process_single ascii_unidecode "Osama bin Laden")
       (@NameProcessor.process_row ascii_unidecode
          (Row.mk (Some "Sheikh Abu Al") None None (Some "OFAC") (Some "SDN"))) = [].
Proof.
  cbv zeta.
  destruct (@X23_process_single_words ascii_unidecode sample_fuzz "Sheikh Abu Al")
    as (_ & _ & Hx).
  destruct Hx as (_ & Hn & Ht & _ & Hrow); [reflexivity|].
  split; [exact Hn|]. split; [exact Ht|]. apply Hrow. reflexivity.
Defined.

(** ** The shape of cleaned text *)

Lemma chars_lower (s : string) : chars (PyStr.lower s) = map PyStr.lower_ascii (chars s).
Proof. induction s as [|c s IH]; [reflexivity|]. cbn [PyStr.lower chars map]. rewrite IH. reflexivity. Qed.

Lemma lstrip_chars (P : ascii -> Prop) (s : string) :
  Forall P (chars s) -> Forall P (chars (PyStr.lstrip s)).
Proof.
  induction s as [|c s IH]; intros Hs; [exact Hs|].
  cbn [PyStr.lstrip]. destruct (PyStr.isspace c); [|exact Hs].
  apply IH. cbn [chars] in Hs. apply Forall_cons in Hs as [_ Hs]. exact Hs.
Qed.

Lemma rev_chars (P : ascii -> Prop) (s : string) :
  Forall P (chars s) -> Forall P (chars (String.rev s)).
Proof. intros Hs. rewrite chars_rev. apply Forall_rev, Hs. Qed.

Lemma strip_chars (P : ascii -> Prop) (s : string) :
  Forall P (chars s) -> Forall P (chars (PyStr.strip s)).
Proof.
  intros Hs. unfold PyStr.strip, PyStr.rstrip.
  apply rev_chars, lstrip_chars, rev_chars, lstrip_chars, Hs.
Qed.

Lemma collapse_ws_chars (P : ascii -> Prop) (in_run : bool) (s : string) :
  Forall P (chars s) ->
  Forall (fun c => (P c /\ PyStr.isspace c = false) \/ c = " "%char)
         (chars (PyText.collapse_ws_go in_run s)).
Proof.
  revert in_run. induction s as [|c s IH]; intros in_run Hs; [constructor|].
  cbn [chars] in Hs. apply Forall_cons in Hs as [Hc Hs].
  cbn [PyText.collapse_ws_go]. destruct (PyStr.isspace c) eqn:Ec.
  - destruct in_run; [apply IH, Hs|].
    cbn [chars]. constructor; [right; reflexivity|apply IH, Hs].
  - cbn [chars]. constructor; [left; split; assumption|apply IH, Hs].
Qed.

Lemma delete_chars_chars (P : ascii -> Prop) (drop : ascii -> bool) (s : string) :
  Forall P (chars s) ->
  Forall (fun c => P c /\ drop c = false) (chars (PyText.delete_chars drop s)).
Proof.
  induction s as [|c s IH]; intros Hs; [constructor|].
  cbn [chars] in Hs. apply Forall_cons in Hs as [Hc Hs].
  cbn [PyText.delete_chars]. destruct (drop c) eqn:Ed; [apply IH, Hs|].
  cbn [chars]. constructor; [split; assumption|apply IH, Hs].
Qed.

Lemma lstrip_idem (s : string) : PyStr.lstrip (PyStr.lstrip s) = PyStr.lstrip s.
Proof.
  induction s as [|c s IH]; [reflexivity|].
  cbn [PyStr.lstrip]. destruct (PyStr.isspace c) eqn:Ec; [exact IH|].
  cbn [PyStr.lstrip]. rewrite Ec. reflexivity.
Qed.

Lemma rstrip_idem (s : string) : PyStr.rstrip (PyStr.rstrip s) = PyStr.rstrip s.
Proof.
  unfold PyStr.rstrip. rewrite string_rev_involutive, lstrip_idem. reflexivity.
Qed.

Lemma lstrip_length (s : string) :
  (String.length (PyStr.lstrip s) <= String.length s)%nat.
Proof.
  induction s as [|c s IH]; [reflexivity|].
  cbn [PyStr.lstrip]. destruct (PyStr.isspace c); cbn [String.length]; lia.
Qed.

Lemma lstrip_suffix (s : string) : exists ws, s = ws +:+ PyStr.lstrip s.
Proof.
  induction s as [|c s [ws IH]]; [exists ""; reflexivity|].
  cbn [PyStr.lstrip]. destruct (PyStr.isspace c).
  - exists (String c ws). change (String c s = String c (ws +:+ PyStr.lstrip s)).
    rewrite <- IH. reflexivity.
  - exists "". reflexivity.
Qed.

Lemma rstrip_prefix (s : string) : exists ws, s = PyStr.rstrip s +:+ ws.
Proof.
  destruct (lstrip_suffix (String.rev s)) as [ws Hws].
  exists (String.rev ws). unfold PyStr.rstrip.
  rewrite <- string_rev_app, <- Hws, string_rev_involutive. reflexivity.
Qed.

Lemma string_length_app (a b : string) :
  String.length (a +:+ b) = (String.length a + String.length b)%nat.
Proof.
  induction a as [|c a IH]; [reflexivity|].
  change (S (String.length (a +:+ b)) = S (String.length a + String.length b)).
  rewrite IH. reflexivity.
Qed.

Lemma lstrip_rstrip (s : string) :
  PyStr.lstrip s = s -> PyStr.lstrip (PyStr.rstrip s) = PyStr.rstrip s.
Proof.
  intros Hs. destruct (rstrip_prefix s) as [ws Hws].
  destruct (PyStr.rstrip s) as [|c r]; [reflexivity|].
  cbn [PyStr.lstrip]. destruct (PyStr.isspace c) eqn:Ec; [|reflexivity].
  exfalso. rewrite Hws in Hs.
  change (PyStr.lstrip (String c (r +:+ ws)) = String c (r +:+ ws)) in Hs.
  cbn [PyStr.lstrip] in Hs. rewrite Ec in Hs. pose proof (lstrip_length (r +:+ ws)) as Hlen.
  rewrite Hs in Hlen. cbn [String.length] in Hlen. lia.
Qed.

Lemma strip_idem (s : string) :
  PyStr.lstrip (PyStr.strip s) = PyStr.strip s
  /\ PyStr.rstrip (PyStr.strip s) = PyStr.strip s
  /\ PyStr.strip (PyStr.strip s) = PyStr.strip s.
Proof.
  unfold PyStr.strip.
  assert (Hl : PyStr.lstrip (PyStr.rstrip (PyStr.lstrip s))
               = PyStr.rstrip (PyStr.lstrip s))
    by apply lstrip_rstrip, lstrip_idem.
  split; [exact Hl|]. split; [apply rstrip_idem|].
  rewrite Hl. apply rstrip_idem.
Qed.

Lemma collapse_ws_run (s : string) :
  forallb PyStr.isspace (chars s) = true -> PyText.collapse_ws_go true s = "".
Proof.
  induction s as [|c s IH]; intros Hs; [reflexivity|].
  cbn [chars forallb] in Hs. apply andb_true_iff in Hs as [Hc Hs].
  cbn [PyText.collapse_ws_go]. rewrite Hc. apply IH, Hs.
Qed.

Lemma collapse_ws_blank (s : string) :
  forallb PyStr.isspace (chars s) = true ->
  PyText.collapse_ws s = "" \/ PyText.collapse_ws s = " ".
Proof.
  unfold PyText.collapse_ws. destruct s as [|c s]; intros Hs; [left; reflexivity|].
  cbn [chars forallb] in Hs. apply andb_true_iff in Hs as [Hc Hs].
  cbn [PyText.collapse_ws_go]. rewrite Hc, collapse_ws_run by exact Hs.
  right. reflexivity.
Qed.

Lemma lower_blank (s : string) :
  forallb PyStr.isspace (chars s) = true ->
  forallb PyStr.isspace (chars (PyStr.lower s)) = true.
Proof.
  induction s as [|c s IH]; intros Hs; [reflexivity|].
  cbn [chars forallb] in Hs. apply andb_true_iff in Hs as [Hc Hs].
  cbn [PyStr.lower chars forallb]. rewrite isspace_lower, Hc. apply IH, Hs.
Qed.

(** X24: the shape of cleaned text: it contains no punctuation character
    other than the apostrophe and no upper-case letter, its only
    whitespace character is the blank, and it neither starts nor ends
    with whitespace, so that stripping it changes nothing; a text of
    whitespace only is cleaned to the empty string. *)
Theorem X24_clean_shape (text : string) :
  let out := TextCleaner.clean text in
  Forall (fun c => TextCleaner.punctuation c = false
                   /\ PyStr.lower_ascii c = c
                   /\ (PyStr.isspace c = false \/ c = " "%char))
         (chars out)
  /\ PyStr.lower out = out
  /\ PyStr.lstrip out = out /\ PyStr.rstrip out = out /\ PyStr.strip out = out
  /\ (forallb PyStr.isspace (chars text) = true -> out = "").
Proof.
  cbv zeta. unfold TextCleaner.clean.
  destruct (PyStr.falsy text) eqn:Ef.
  { repeat split; try reflexivity. constructor. }
  set (low := PyStr.lower text).
  assert (Hlow : Forall (fun c => PyStr.lower_ascii c = c) (chars low)).
  { unfold low. rewrite chars_lower. apply Forall_forall. intros c Hc.
    apply list_elem_of_fmap in Hc as (d & -> & _). apply lower_lower_ascii. }
  assert (Hchars : Forall (fun c => TextCleaner.punctuation c = false
                            /\ PyStr.lower_ascii c = c
                            /\ (PyStr.isspace c = false \/ c = " "%char))
                     (chars (PyStr.strip
                        (PyText.delete_chars TextCleaner.punctuation
                           (PyText.collapse_ws low))))).
  { apply strip_chars.
    pose proof (collapse_ws_chars _ false low Hlow) as Hcol.
    pose proof (delete_chars_chars _ TextCleaner.punctuation _ Hcol) as Hdel.
    eapply Forall_impl; [exact Hdel|].
    intros c [[[Hl Hs]| ->] Hp].
    - split; [exact Hp|]. split; [exact Hl|]. left. exact Hs.
    - split; [exact Hp|]. split; [reflexivity|]. right. reflexivity. }
  split; [exact Hchars|]. split.
  { apply chars_inj. rewrite chars_lower.
    induction Hchars as [|c l (_ & Hc & _) _ IH]; [reflexivity|].
    cbn [map]. rewrite Hc, IH. reflexivity. }
  destruct (strip_idem (PyText.delete_chars TextCleaner.punctuation
                          (PyText.collapse_ws low))) as (Hl & Hr & Hs).
  split; [exact Hl|]. split; [exact Hr|]. split; [exact Hs|].
  intros Hblank. unfold low.
  destruct (collapse_ws_blank (PyStr.lower text) (lower_blank text Hblank))
    as [-> | ->]; reflexivity.
Qed.

Lemma X24_clean_shape_witness :
  TextCleaner.clean "   " = "".
Proof.
  destruct (X24_clean_shape "   ") as (_ & _ & _ & _ & _ & Hx).
  apply Hx. reflexivity.
Defined.

(** ** The tokenizer *)

Lemma split_go_chars (P : ascii -> Prop) (cur : option string) (s : string) :
  Forall P (chars s) ->
  (forall acc, cur = Some acc -> Forall P (chars acc)) ->
  Forall (fun w => Forall P (chars w)) (PyStr.split_go cur s).
Proof.
  revert cur. induction s as [|c s IH]; intros cur Hs Hcur; cbn [PyStr.split_go].
  - destruct cur as [acc|]; cbn; [|constructor].
    constructor; [|constructor]. apply rev_chars, Hcur. reflexivity.
  - cbn [chars] in Hs. apply Forall_cons in Hs as [Hc Hs].
    destruct (PyStr.isspace c).
    + apply Forall_app. split.
      * destruct cur as [acc|]; cbn; [|constructor].
        constructor; [|constructor]. apply rev_chars, Hcur. reflexivity.
      * apply IH; [exact Hs|discriminate].
    + apply IH; [exact Hs|]. intros acc [= <-]. cbn [chars].
      constructor; [exact Hc|].
      destruct cur as [acc|]; cbn [default from_option]; [|constructor].
      apply Hcur. reflexivity.
Qed.

Lemma split_on_go_chars (P : ascii -> Prop) (c : ascii) (cur s : string) :
  Forall (fun a => P a /\ a <> c) (chars cur) ->
  Forall P (chars s) ->
  Forall (fun p => Forall (fun a => P a /\ a <> c) (chars p))
         (PyText.split_on_go c cur s).
Proof.
  revert cur. induction s as [|a s IH]; intros cur Hcur Hs; cbn [PyText.split_on_go].
  - constructor; [|constructor]. apply rev_chars, Hcur.
  - cbn [chars] in Hs. apply Forall_cons in Hs as [Ha Hs].
    destruct (Ascii.eqb a c) eqn:Eac.
    + constructor; [apply rev_chars, Hcur|]. apply IH; [constructor|exact Hs].
    + apply IH; [|exact Hs]. cbn [chars]. constructor; [|exact Hcur].
      split; [exact Ha|]. apply Ascii.eqb_neq, Eac.
Qed.

Lemma split_on_go_absent (c : ascii) (cur s : string) :
  Forall (fun a => a <> c) (chars s) ->
  PyText.split_on_go c cur s = [String.rev_app cur s].
Proof.
  revert cur. induction s as [|a s IH]; intros cur Hs; [reflexivity|].
  cbn [chars] in Hs. apply Forall_cons in Hs as [Ha Hs].
  cbn [PyText.split_on_go]. apply Ascii.eqb_neq in Ha. rewrite Ha.
  rewrite IH by exact Hs. reflexivity.
Qed.

Lemma split_go_blank (s : string) :
  forallb PyStr.isspace (chars s) = true -> PyStr.split_go None s = [].
Proof.
  induction s as [|c s IH]; intros Hs; [reflexivity|].
  cbn [chars forallb] in Hs. apply andb_true_iff in Hs as [Hc Hs].
  cbn [PyStr.split_go]. rewrite Hc. cbn. apply IH, Hs.
Qed.

Lemma tokenize_length (text t : string) :
  t ∈ NameTokenizer.tokenize text -> (2 <= PyStr.len t)%nat.
Proof.
  unfold NameTokenizer.tokenize, NameTokenizer.min_token_length.
  destruct (PyStr.falsy text); [intros Ht; inversion Ht|].
  intros Ht. apply list_elem_of_In, filter_In in Ht as [_ Ht].
  apply Nat.leb_le, Ht.
Qed.

(** X25: every token of a text has at least two characters, contains
    neither whitespace nor a hyphen, and is made of characters of the
    text; on a text without hyphens the tokens are the words of at least
    two characters; a text of whitespace only has no token. *)
Theorem X25_tokenize (text : string) :
  Forall (fun t => (2 <= PyStr.len t)%nat /\ no_space t = true
                   /\ Forall (fun c => c <> "-"%char /\ c ∈ chars text) (chars t))
         (NameTokenizer.tokenize text)
  /\ (Forall (fun c => c <> "-"%char) (chars text) ->
      NameTokenizer.tokenize text
      = List.filter (fun t => (2 <=? PyStr.len t)%nat) (PyStr.split text))
  /\ (forallb PyStr.isspace (chars text) = true -> NameTokenizer.tokenize text = []).
Proof.
  unfold NameTokenizer.tokenize, NameTokenizer.min_token_length.
  split; [|split].
  - destruct (PyStr.falsy text); [constructor|].
    pose (P := fun c : ascii => PyStr.isspace c = false /\ c ∈ chars text).
    assert (Hwords : Forall (fun w => Forall P (chars w)) (PyStr.split text)).
    { pose proof (split_tokens text) as Htok.
      pose proof (split_go_chars (fun c => c ∈ chars text) None text) as Hin.
      apply Forall_forall. intros w Hw. apply Forall_forall. intros c Hc.
      split.
      - rewrite Forall_forall in Htok. specialize (Htok w Hw).
        unfold is_token in Htok. apply andb_true_iff in Htok as [_ Hns].
        apply no_space_chars in Hns. rewrite Forall_forall in Hns. apply Hns, Hc.
      - assert (Hall : Forall (fun w => Forall (fun c => c ∈ chars text) (chars w))
                         (PyStr.split text)).
        { apply Hin; [apply Forall_forall; auto|discriminate]. }
        rewrite Forall_forall in Hall. specialize (Hall w Hw).
        rewrite Forall_forall in Hall. apply Hall, Hc. }
    assert (Hparts : Forall (fun p => Forall (fun a => P a /\ a <> "-"%char) (chars p))
                       (flat_map (PyText.split_on "-") (PyStr.split text))).
    { apply Forall_forall. intros p Hp.
      apply list_elem_of_In, in_flat_map in Hp as (w & Hw & Hp).
      rewrite Forall_forall in Hwords. specialize (Hwords w (proj2 (list_elem_of_In _ _) Hw)).
      pose proof (split_on_go_chars P "-" "" w (Forall_nil_2 _) Hwords) as Hsp.
      rewrite Forall_forall in Hsp. apply Hsp, list_elem_of_In, Hp. }
    apply Forall_forall. intros t Ht.
    apply list_elem_of_In, filter_In in Ht as [Ht Hlen].
    rewrite Forall_forall in Hparts.
    specialize (Hparts t (proj2 (list_elem_of_In _ _) Ht)).
    split; [apply Nat.leb_le, Hlen|]. split.
    + apply no_space_chars. eapply Forall_impl; [exact Hparts|].
      intros c [[Hs _] _]. exact Hs.
    + eapply Forall_impl; [exact Hparts|]. intros c [[_ Hin] Hne]. split; assumption.
  - intros Hno. destruct (PyStr.falsy text) eqn:Ef.
    { apply falsy_spec in Ef. subst text. reflexivity. }
    f_equal.
    assert (Hwords : Forall (fun w => Forall (fun c => c <> "-"%char) (chars w))
                       (PyStr.split text)).
    { apply split_go_chars; [exact Hno|discriminate]. }
    induction Hwords as [|w ws Hw _ IH]; [reflexivity|].
    cbn [flat_map]. rewrite IH. unfold PyText.split_on.
    rewrite split_on_go_absent by exact Hw. reflexivity.
  - intros Hblank. destruct (PyStr.falsy text); [reflexivity|].
    unfold PyStr.split. rewrite split_go_blank by exact Hblank. reflexivity.
Qed.

Lemma X25_tokenize_witness :
  NameTokenizer.tokenize "jean pierre de la tour"
  = ["jean"; "pierre"; "de"; "la"; "tour"]
  /\ NameTokenizer.tokenize "  " = [].
Proof.
  destruct (X25_tokenize "jean pierre de la tour") as (_ & Hx & _).
  destruct (X25_tokenize "  ") as (_ & _ & Hy).
  split.
  - rewrite Hx; [reflexivity|].
    repeat (constructor; [discriminate|]). constructor.
  - apply Hy. reflexivity.
Defined.

Lemma ngrams_from_length (n count : nat) (tokens : list string) :
  length (NameTokenizer.ngrams_from n count tokens) = count.
Proof.
  revert tokens. induction count as [|count IH]; intros tokens; [reflexivity|].
  cbn [NameTokenizer.ngrams_from length]. rewrite IH. reflexivity.
Qed.

Lemma ngrams_from_lookup (n count i : nat) (tokens : list string) :
  (i < count)%nat ->
  NameTokenizer.ngrams_from n count tokens !! i
  = Some (PyText.join " " (take n (drop i tokens))).
Proof.
  revert i tokens. induction count as [|count IH]; intros i tokens Hi; [lia|].
  cbn [NameTokenizer.ngrams_from]. destruct i as [|i].
  - reflexivity.
  - cbn [lookup list_lookup]. rewrite IH by lia.
    destruct tokens as [|t ts]; [|reflexivity].
    cbn [tail]. rewrite !drop_nil. reflexivity.
Qed.

(** X26: the n-grams of a token list.  A list shorter than [n] is
    returned as it is; otherwise there are [len - n + 1] n-grams, and the
    one at position [i] joins the [n] tokens from position [i] with
    blanks; with [n = 0] the result consists of [len + 1] empty
    strings. *)
Theorem X26_generate_ngrams (tokens : list string) (n : nat) :
  ((length tokens < n)%nat -> NameTokenizer.generate_ngrams tokens n = tokens)
  /\ ((n <= length tokens)%nat ->
      length (NameTokenizer.generate_ngrams tokens n) = (length tokens - n + 1)%nat
      /\ forall i, (i < length tokens - n + 1)%nat ->
           NameTokenizer.generate_ngrams tokens n !! i
           = Some (PyText.join " " (take n (drop i tokens))))
  /\ (n = 0%nat ->
      NameTokenizer.generate_ngrams tokens n = replicate (length tokens + 1) "").
Proof.
  unfold NameTokenizer.generate_ngrams. split; [|split].
  - intros Hlt. apply Nat.ltb_lt in Hlt. rewrite Hlt. reflexivity.
  - intros Hle. apply Nat.ltb_ge in Hle. rewrite Hle.
    split; [apply ngrams_from_length|]. intros i Hi. apply ngrams_from_lookup, Hi.
  - intros ->. cbn [Nat.ltb Nat.leb]. rewrite Nat.sub_0_r.
    apply list_eq. intros i.
    destruct (decide (i < length tokens + 1)%nat) as [Hi|Hi].
    + rewrite ngrams_from_lookup by exact Hi.
      rewrite lookup_replicate_2 by exact Hi. reflexivity.
    + rewrite !lookup_ge_None_2; [reflexivity| |].
      * rewrite length_replicate. lia.
      * rewrite ngrams_from_length. lia.
Qed.

Lemma X26_generate_ngrams_witness :
  NameTokenizer.generate_ngrams ["laden"] 2 = ["laden"]
  /\ NameTokenizer.generate_ngrams ["osama"; "bin"; "laden"] 2 !! 1%nat
     = Some "bin laden"
  /\ NameTokenizer.generate_ngrams ["osama"; "bin"] 0 = [""; ""; ""].
Proof.
  destruct (X26_generate_ngrams ["laden"] 2) as (H1 & _).
  destruct (X26_generate_ngrams ["osama"; "bin"; "laden"] 2) as (_ & H2 & _).
  destruct (X26_generate_ngrams ["osama"; "bin"] 0) as (_ & _ & H3).
  split; [apply H1; cbn; lia|]. split.
  - destruct H2 as [_ H2]; [cbn; lia|]. rewrite H2 by (cbn; lia). reflexivity.
  - rewrite H3 by reflexivity. reflexivity.
Defined.

Lemma bigram_lookup (tokens : list string) (i : nat) (a b : string) :
  tokens !! i = Some a -> tokens !! S i = Some b ->
  take 2 (drop i tokens) = [a; b].
Proof.
  intros Ha Hb.
  rewrite (drop_S _ _ _ Ha), (drop_S _ _ _ Hb). reflexivity.
Qed.

Lemma bigrams_spec (tokens : list string) (v : string) :
  (1 < length tokens)%nat ->
  v ∈ NameTokenizer.generate_ngrams tokens 2
  <-> exists i a b, tokens !! i = Some a /\ tokens !! S i = Some b
                    /\ v = a +:+ " " +:+ b.
Proof.
  intros Hlen. unfold NameTokenizer.generate_ngrams.
  assert (Hge : (length tokens <? 2)%nat = false) by (apply Nat.ltb_ge; lia).
  rewrite Hge. rewrite list_elem_of_lookup. split.
  - intros [i Hi].
    assert (Hlt : (i < length tokens - 2 + 1)%nat).
    { apply lookup_lt_Some in Hi. rewrite ngrams_from_length in Hi. exact Hi. }
    rewrite ngrams_from_lookup in Hi by exact Hlt. injection Hi as <-.
    destruct (lookup_lt_is_Some_2 tokens i) as [a Ha]; [lia|].
    destruct (lookup_lt_is_Some_2 tokens (S i)) as [b Hb]; [lia|].
    exists i, a, b. split; [exact Ha|]. split; [exact Hb|].
    rewrite (bigram_lookup _ _ _ _ Ha Hb). reflexivity.
  - intros (i & a & b & Ha & Hb & ->). exists i.
    apply lookup_lt_Some in Hb as Hlt.
    rewrite ngrams_from_lookup by lia.
    rewrite (bigram_lookup _ _ _ _ Ha Hb). reflexivity.
Qed.

(** X27: the search variants of a text: the set never contains the
    empty string; it contains the text itself unless that is empty, every
    token, and every pair of neighbouring tokens joined by a blank; and it
    contains nothing else. *)
Theorem X27_all_variants (text : string) :
  let variants := NameTokenizer.get_all_variants text in
  let tokens := NameTokenizer.tokenize text in
  ("" ∉ variants)
  /\ (text <> "" -> text ∈ variants)
  /\ (forall t, t ∈ tokens -> t ∈ variants)
  /\ (forall i a b, tokens !! i = Some a -> tokens !! S i = Some b ->
                    (a +:+ " " +:+ b) ∈ variants)
  /\ (forall v, v ∈ variants ->
        v = text \/ v ∈ tokens
        \/ exists i a b, tokens !! i = Some a /\ tokens !! S i = Some b
                         /\ v = a +:+ " " +:+ b).
Proof.
  cbv zeta. unfold NameTokenizer.get_all_variants.
  set (tokens := NameTokenizer.tokenize text).
  assert (Htok : forall t, t ∈ tokens -> t <> "").
  { intros t Ht. apply tokenize_length in Ht. intros ->. cbn in Ht. lia. }
  assert (Hbig : forall a b : string, a +:+ " " +:+ b <> "").
  { intros [|c a] b; discriminate. }
  split; [|split; [|split; [|split]]].
  - rewrite elem_of_difference, elem_of_singleton. tauto.
  - intros Hne. rewrite elem_of_difference, elem_of_singleton.
    split; [|exact Hne].
    destruct (1 <? length tokens)%nat; rewrite ?elem_of_union, elem_of_singleton;
      tauto.
  - intros t Ht. rewrite elem_of_difference, elem_of_singleton.
    split; [|apply Htok, Ht].
    destruct (1 <? length tokens)%nat;
      rewrite ?elem_of_union, elem_of_list_to_set; tauto.
  - intros i a b Ha Hb. rewrite elem_of_difference, elem_of_singleton.
    split; [|apply Hbig].
    assert (Hlen : (1 < length tokens)%nat).
    { apply lookup_lt_Some in Hb. lia. }
    apply Nat.ltb_lt in Hlen as Hlt. rewrite Hlt.
    rewrite elem_of_union, elem_of_list_to_set. right.
    apply bigrams_spec; [exact Hlen|]. exists i, a, b. auto.
  - intros v Hv. rewrite elem_of_difference in Hv. destruct Hv as [Hv _].
    destruct (1 <? length tokens)%nat eqn:Hlt.
    + apply Nat.ltb_lt in Hlt.
      rewrite !elem_of_union, elem_of_singleton, !elem_of_list_to_set in Hv.
      destruct Hv as [[Hv|Hv]|Hv]; [left; exact Hv|right; left; exact Hv|].
      right. right. apply bigrams_spec in Hv; [exact Hv|exact Hlt].
    + rewrite elem_of_union, elem_of_singleton, elem_of_list_to_set in Hv.
      destruct Hv as [Hv|Hv]; [left; exact Hv|right; left; exact Hv].
Qed.

Lemma X27_all_variants_witness :
  "osama laden" ∈ NameTokenizer.get_all_variants "osama laden"
  /\ "laden" ∈ NameTokenizer.get_all_variants "osama laden"
  /\ "" ∉ NameTokenizer.get_all_variants "".
Proof.
  destruct (X27_all_variants "osama laden") as (_ & H1 & H2 & _).
  destruct (X27_all_variants "") as (H3 & _).
  split; [apply H1; discriminate|]. split; [|exact H3].
  apply H2. apply list_elem_of_In. right. left. reflexivity.
Defined.

(** ** Queries that are preprocessed to the empty name *)

Section EmptyQuery.
Context `{Rapidfuzz} `{Preprocessor} `{Clock}.

Lemma empty_query_entry (query_processed : Profile.t) (sanction_row : Row.t) :
  Profile.normalized query_processed = "" ->
  Profile.tokens query_processed = [] ->
  PyStr.strip (PyStr.lower (MatchingEngine.sanction_name_of sanction_row)) <> ""
  \/ MatchingEngine.sanction_name_of sanction_row = "" ->
  MatchingEngine._match_against_entry query_processed sanction_row = [].
Proof.
  intros Hn Ht Hrow.
  unfold MatchingEngine._match_against_entry,
    MatchingEngine._match_against_entry_traced.
  destruct (PyStr.falsy (MatchingEngine.sanction_name_of sanction_row)) eqn:Ef;
    [reflexivity|].
  destruct Hrow as [Hrow|Hrow]; [|apply falsy_spec in Hrow; congruence].
  rewrite Hn, Ht. unfold ExactMatcher.match_.
  assert (He : PyStr.eqb (PyStr.strip (PyStr.lower ""))
                 (PyStr.strip (PyStr.lower (MatchingEngine.sanction_name_of
                                              sanction_row))) = false).
  { unfold PyStr.eqb. apply bool_decide_eq_false_2. intros Heq.
    apply Hrow. rewrite <- Heq. reflexivity. }
  rewrite He. cbn [Match.is_match default from_option].
  unfold FuzzyMatcher.match_, SimilarityCalculator.weighted_average,
    SimilarityCalculator.levenshtein_ratio, SimilarityCalculator.partial_ratio,
    SimilarityCalculator.token_sort_ratio, SimilarityCalculator.token_set_ratio.
  cbn [PyStr.falsy orb Match.is_match default from_option].
  change (Qge_bool (0 + 0 * (3 # 10) + 0 * (2 # 10) + 0 * (3 # 10) + 0 * (2 # 10))
                   thresholds.LOW_RISK_THRESHOLD) with false.
  cbn [id]. destruct (default [] (Row.tokens sanction_row)); reflexivity.
Qed.

(** X29: a query that the preprocessor reduces to the empty name with no
    tokens matches nothing: when every candidate's comparison name is
    empty or not blank, the screening returns no match and the decision
    AUTO_CLEAR, whatever the metric functions and the candidates. *)
Theorem X29_empty_normalized_query_clears
    (query_name : string) (sanctions_df : list Row.t) :
  Profile.normalized (process_single query_name) = "" ->
  Profile.tokens (process_single query_name) = [] ->
  Forall (fun row =>
            PyStr.strip (PyStr.lower (MatchingEngine.sanction_name_of row)) <> ""
            \/ MatchingEngine.sanction_name_of row = "") sanctions_df ->
  exists r,
    screen query_name sanctions_df = Ok r
    /\ Screening.matches r = []
    /\ Screening.applied_rule r = Some "low_risk_clear"
    /\ (Screening.decision r ≫= Decision.action) = Some "AUTO_CLEAR".
Proof.
  intros Hn Ht Hrows.
  assert (Hscr : exists pq,
             MatchingEngine.screen_name query_name sanctions_df =
               Screening.mk query_name pq [] (MatchScorer.create_match_summary [])
                            None None None None).
  { unfold MatchingEngine.screen_name.
    destruct (_ || _); [exists None; reflexivity|].
    exists (Some (process_single query_name)).
    assert (Hcol : MatchingEngine.collect (process_single query_name) sanctions_df = []).
    { unfold MatchingEngine.collect.
      induction Hrows as [|row rows Hrow _ IH]; [reflexivity|].
      cbn [flat_map]. rewrite IH, (empty_query_entry _ _ Hn Ht Hrow). reflexivity. }
    cbv zeta. rewrite Hcol. reflexivity. }
  destruct Hscr as [pq Hscr]. unfold screen. rewrite Hscr.
  destruct (process_no_matches query_name pq) as (r & Hr & Hm & _ & Hrule & Ha).
  exists r. repeat split; assumption.
Qed.
End EmptyQuery.

Lemma X29_empty_normalized_query_clears_witness :
  exists r,
    @screen sample_fuzz (@name_processor ascii_unidecode) sample_clock
      "Sheikh Abu Al" [laden_row; kim_row] = Ok r
    /\ Screening.matches r = []
    /\ (Screening.decision r ≫= Decision.action) = Some "AUTO_CLEAR".
Proof.
  destruct (@X29_empty_normalized_query_clears sample_fuzz
              (@name_processor ascii_unidecode) sample_clock
              "Sheikh Abu Al" [laden_row; kim_row])
    as (r & Hr & Hm & _ & Ha).
  - reflexivity.
  - reflexivity.
  - constructor; [left; intros Heq; vm_compute in Heq; discriminate|].
    constructor; [left; intros Heq; vm_compute in Heq; discriminate|].
    constructor.
  - exists r. repeat split; assumption.
Defined.

(** ** Spacing around hyphens and apostrophes *)

Lemma tight_list_app (x : ascii) (l1 : list ascii) (a : ascii) (l2 : list ascii) :
  tight_list x (l1 ++ a :: l2) = tight_list x (l1 ++ [a]) && tight_list x (a :: l2).
Proof.
  induction l1 as [|b l1 IH].
  - cbn [app]. cbn [tight_list]. rewrite andb_true_r. reflexivity.
  - cbn [app]. cbn [tight_list]. rewrite IH.
    destruct l1 as [|c l1]; cbn [app]; rewrite andb_assoc; reflexivity.
Qed.

Lemma tight_list_absent (x : ascii) (l : list ascii) :
  Forall (fun c => c <> x) l -> tight_list x l = true.
Proof.
  induction 1 as [|a l Ha Hl IH]; [reflexivity|].
  cbn [tight_list]. rewrite IH, andb_true_r.
  destruct Hl as [|b l Hb _]; [reflexivity|].
  unfold space_next_to. apply Ascii.eqb_neq in Ha, Hb. rewrite Ha, Hb.
  rewrite andb_false_r. reflexivity.
Qed.

Lemma tight_list_tail (x a : ascii) (l : list ascii) :
  tight_list x (a :: l) = true -> tight_list x l = true.
Proof. cbn [tight_list]. intros Hx. apply andb_true_iff in Hx as [_ Hx]. exact Hx. Qed.

Lemma tight_list_cons (x a : ascii) (l : list ascii) :
  (forall b, space_next_to x a b = false) ->
  tight_list x l = true -> tight_list x (a :: l) = true.
Proof.
  intros Ha Hl. cbn [tight_list]. rewrite Hl, andb_true_r.
  destruct l as [|b l]; [reflexivity|]. rewrite Ha. reflexivity.
Qed.

Lemma spaces_not (x : ascii) (l : list ascii) :
  PyStr.isspace x = false ->
  Forall (fun c => PyStr.isspace c = true) l -> Forall (fun c => c <> x) l.
Proof.
  intros Hx Hl. eapply Forall_impl; [exact Hl|]. intros c Hc ->. congruence.
Qed.

Lemma tighten_go_tight (x : ascii) (s : string) :
  PyStr.isspace x = false ->
  forall (pending : string) (after : bool) (prev : option ascii),
    Forall (fun c => PyStr.isspace c = true) (chars pending) ->
    (if after then pending = "" /\ prev = Some x
     else forall p, prev = Some p -> p <> x /\ PyStr.isspace p = false) ->
    tight_list x (option_list prev ++ chars (PyText.tighten_go x pending after s)) = true.
Proof.
  intros Hx. induction s as [|c s IH]; intros pending after prev Hpend Hinv.
  - cbn [PyText.tighten_go]. rewrite chars_rev.
    destruct after.
    + destruct Hinv as [-> ->]. reflexivity.
    + apply tight_list_absent, Forall_app. split.
      * destruct prev as [p|]; cbn; [|constructor].
        constructor; [apply (Hinv p eq_refl)|constructor].
      * apply Forall_rev, spaces_not; assumption.
  - cbn [PyText.tighten_go]. destruct (Ascii.eqb c x) eqn:Ecx.
    + apply Ascii.eqb_eq in Ecx. subst c. cbn [chars].
      rewrite tight_list_app. apply andb_true_iff. split.
      * destruct after.
        { destruct Hinv as [_ ->]. cbn. unfold space_next_to.
          rewrite Hx, andb_false_r. reflexivity. }
        destruct prev as [p|]; [|reflexivity].
        destruct (Hinv p eq_refl) as [_ Hp]. cbn. unfold space_next_to.
        rewrite Hp, Hx, andb_false_r. reflexivity.
      * apply (IH "" true (Some x)); [constructor|split; reflexivity].
    + destruct (PyStr.isspace c) eqn:Ec.
      * destruct after.
        { destruct Hinv as [-> ->].
          apply (IH "" true (Some x)); [constructor|split; reflexivity]. }
        apply (IH (String c pending) false prev); [|exact Hinv].
        cbn [chars]. constructor; assumption.
      * rewrite chars_app, chars_rev. cbn [chars].
        rewrite app_assoc, tight_list_app. apply andb_true_iff. split.
        { destruct after.
          - destruct Hinv as [-> ->]. cbn. unfold space_next_to.
            rewrite Hx, Ec, Ecx, !andb_false_r. reflexivity.
          - apply tight_list_absent. rewrite <- app_assoc.
            apply Forall_app. split.
            + destruct prev as [p|]; cbn; [|constructor].
              constructor; [apply (Hinv p eq_refl)|constructor].
            + apply Forall_app. split.
              * apply Forall_rev, spaces_not; assumption.
              * constructor; [apply Ascii.eqb_neq, Ecx|constructor]. }
        apply (IH "" false (Some c)); [constructor|].
        intros p [= <-]. split; [apply Ascii.eqb_neq, Ecx|exact Ec].
Qed.

Lemma tighten_go_preserves (x y : ascii) (s : string) :
  x <> y -> PyStr.isspace x = false ->
  forall (pending : string) (after : bool) (prev : option ascii),
    (after = true -> pending = "" /\ prev = Some x) ->
    tight_list y (option_list prev ++ rev (chars pending) ++ chars s) = true ->
    tight_list y (option_list prev ++ chars (PyText.tighten_go x pending after s)) = true.
Proof.
  intros Hxy Hx.
  assert (Hfree : forall b, space_next_to y x b = false).
  { intros b. unfold space_next_to. apply Ascii.eqb_neq in Hxy.
    rewrite Hx, Hxy. reflexivity. }
  induction s as [|c s IH]; intros pending after prev Hinv Hin.
  - cbn [PyText.tighten_go]. rewrite chars_rev.
    cbn [chars] in Hin. rewrite app_nil_r in Hin. exact Hin.
  - cbn [chars] in Hin. rewrite app_assoc, tight_list_app in Hin.
    apply andb_true_iff in Hin as [Hpre Hsuf].
    cbn [PyText.tighten_go]. destruct (Ascii.eqb c x) eqn:Ecx.
    + apply Ascii.eqb_eq in Ecx. subst c. cbn [chars].
      rewrite tight_list_app. apply andb_true_iff. split.
      * destruct prev as [p|]; [|reflexivity]. cbn. unfold space_next_to.
        apply Ascii.eqb_neq in Hxy. rewrite Hxy, Hx, !andb_false_r. reflexivity.
      * apply (IH "" true (Some x)); [split; reflexivity|exact Hsuf].
    + destruct (PyStr.isspace c) eqn:Ec.
      * destruct after.
        { destruct (Hinv eq_refl) as [-> ->].
          apply IH; [intros _; split; reflexivity|].
          cbn [option_list rev chars app].
          apply tight_list_cons; [exact Hfree|].
          apply (tight_list_tail y c), Hsuf. }
        apply IH; [discriminate|]. cbn [chars rev].
        rewrite <- !app_assoc. cbn [app].
        rewrite app_assoc, tight_list_app. apply andb_true_iff.
        split; assumption.
      * rewrite chars_app, chars_rev. cbn [chars].
        rewrite app_assoc, tight_list_app. apply andb_true_iff.
        split; [exact Hpre|].
        apply (IH "" false (Some c)); [discriminate|exact Hsuf].
Qed.

Lemma tighten_go_solid (x : ascii) (s : string) :
  PyStr.isspace x = false ->
  forall (pending : string) (after : bool),
    Forall (fun c => PyStr.isspace c = true) (chars pending) ->
    solid_chars (PyText.tighten_go x pending after s) = solid_chars s.
Proof.
  intros Hx. unfold solid_chars.
  assert (Hsp : forall pending,
            Forall (fun c => PyStr.isspace c = true) (chars pending) ->
            List.filter (fun c => negb (PyStr.isspace c)) (rev (chars pending)) = []).
  { intros pending Hp. apply Forall_rev in Hp.
    induction Hp as [|a l Ha _ IHl]; [reflexivity|].
    cbn [List.filter]. rewrite Ha. exact IHl. }
  induction s as [|c s IH]; intros pending after Hpend.
  - cbn [PyText.tighten_go]. rewrite chars_rev. apply Hsp, Hpend.
  - cbn [PyText.tighten_go]. destruct (Ascii.eqb c x) eqn:Ecx.
    + apply Ascii.eqb_eq in Ecx. subst c. cbn [chars List.filter].
      rewrite Hx. cbn [negb]. rewrite IH by constructor. reflexivity.
    + destruct (PyStr.isspace c) eqn:Ec.
      * cbn [chars List.filter]. rewrite Ec. cbn [negb].
        destruct after; apply IH; [constructor|].
        cbn [chars]. constructor; assumption.
      * rewrite chars_app, chars_rev, List.filter_app, Hsp by exact Hpend.
        cbn [chars List.filter app]. rewrite Ec. cbn [negb].
        rewrite IH by constructor. reflexivity.
Qed.

Section NormalizeSpacing.
Context `{Unidecode}.

(** X28: after normalize_spacing no whitespace character stands next to
    a hyphen or an apostrophe, and only whitespace has been removed: the
    characters that are not whitespace are those of the input, in their
    order.  The result of normalize therefore has no whitespace next to a
    hyphen or an apostrophe either. *)
Theorem X28_normalize_spacing (text : string) :
  tight "'" (NameNormalizer.normalize_spacing text) = true
  /\ tight "-" (NameNormalizer.normalize_spacing text) = true
  /\ solid_chars (NameNormalizer.normalize_spacing text) = solid_chars text
  /\ tight "'" (NameNormalizer.normalize text) = true
  /\ tight "-" (NameNormalizer.normalize text) = true.
Proof.
  assert (Hsp : forall t,
            tight "'" (NameNormalizer.normalize_spacing t) = true
            /\ tight "-" (NameNormalizer.normalize_spacing t) = true).
  { intros t. unfold NameNormalizer.normalize_spacing, PyText.tighten, tight.
    split.
    - apply (tighten_go_tight "'" _ eq_refl "" false None); [constructor|].
      discriminate.
    - apply (tighten_go_preserves "'" "-" _ ltac:(discriminate) eq_refl "" false None);
        [discriminate|].
      apply (tighten_go_tight "-" _ eq_refl "" false None); [constructor|].
      discriminate. }
  split; [apply Hsp|]. split; [apply Hsp|]. split.
  - unfold NameNormalizer.normalize_spacing, PyText.tighten.
    rewrite !tighten_go_solid by (try reflexivity; constructor). reflexivity.
  - unfold NameNormalizer.normalize.
    destruct (PyStr.falsy text); [split; reflexivity|]. apply Hsp.
Qed.
End NormalizeSpacing.

(** * The binary64 model: risk score and token score *)

(** ** The order of binary64 numbers *)

Lemma SFcompare_trans (x y z : spec_float) (c1 c2 : comparison) :
  SFcompare x y = Some c1 -> SFcompare y z = Some c2 ->
  c1 <> Gt -> c2 <> Gt ->
  exists c3, SFcompare x z = Some c3 /\ c3 <> Gt /\ (c3 = Eq -> c1 = Eq /\ c2 = Eq).
Proof.
  destruct x as [sx|sx| |sx mx ex], y as [sy|sy| |sy my ey], z as [sz|sz| |sz mz ez];
    cbn [SFcompare]; try discriminate;
    try destruct sx; try destruct sy; try destruct sz;
    intros H1 H2 N1 N2; injection H1 as <-; injection H2 as <-;
    try congruence;
    try (eexists; split; [reflexivity|]; split; [discriminate|]; intros; split; congruence).
  all: change (Pos.compare_cont Eq) with Pos.compare in *.
  all: destruct (Z.compare_spec ex ey), (Z.compare_spec ey ez), (Z.compare_spec ex ez);
    try destruct (Pos.compare_spec mx my); try destruct (Pos.compare_spec my mz);
    try destruct (Pos.compare_spec mx mz); subst; cbn in *; try congruence; try lia;
    try (eexists; split; [reflexivity|]; split; [discriminate|]; intros; split; congruence).
Qed.

Lemma SFcompare_antisym (x y : spec_float) (c : comparison) :
  SFcompare x y = Some c -> SFcompare y x = Some (CompOpp c).
Proof.
  destruct x as [sx|sx| |sx mx ex], y as [sy|sy| |sy my ey];
    cbn [SFcompare]; try discriminate;
    try destruct sx; try destruct sy; intros H1; injection H1 as <-;
    try reflexivity.
  all: change (Pos.compare_cont Eq) with Pos.compare in *.
  all: rewrite (Z.compare_antisym ex ey), (Pos.compare_antisym mx my);
    destruct (Z.compare ex ey), (Pos.compare mx my); reflexivity.
Qed.

Lemma SFcompare_total (x y : spec_float) :
  x <> S754_nan -> y <> S754_nan -> exists c, SFcompare x y = Some c.
Proof.
  destruct x as [sx|sx| |sx mx ex], y as [sy|sy| |sy my ey];
    cbn [SFcompare]; try congruence; intros _ _; eexists; reflexivity.
Qed.

Lemma SFleb_spec (x y : spec_float) :
  SFleb x y = true <-> exists c, SFcompare x y = Some c /\ c <> Gt.
Proof.
  unfold SFleb. destruct (SFcompare x y) as [[]|]; split;
    try discriminate; try (intros (c & H & N); congruence);
    intros _; eexists; (split; [reflexivity|discriminate]).
Qed.

Lemma SFltb_spec (x y : spec_float) : SFltb x y = true <-> SFcompare x y = Some Lt.
Proof. unfold SFltb. destruct (SFcompare x y) as [[]|]; split; congruence. Qed.

Lemma SFleb_not_nan (x y : spec_float) :
  SFleb x y = true -> x <> S754_nan /\ y <> S754_nan.
Proof.
  destruct x, y; cbn; try discriminate; intros _; split; discriminate.
Qed.

Lemma SFleb_refl (x : spec_float) : x <> S754_nan -> SFleb x x = true.
Proof.
  destruct x as [s|s| |s m e]; try destruct s; unfold SFleb; cbn [SFcompare];
    try congruence; try reflexivity; intros _;
    change (Pos.compare_cont Eq m m) with (Pos.compare m m);
    rewrite Z.compare_refl, Pos.compare_refl; reflexivity.
Qed.

Section FloatOrder.
Local Open Scope float_scope.

Lemma f64_leb_trans (a b c : float) :
  (a <=? b) = true -> (b <=? c) = true -> (a <=? c) = true.
Proof.
  rewrite !leb_spec, !SFleb_spec.
  intros (c1 & H1 & N1) (c2 & H2 & N2).
  destruct (SFcompare_trans _ _ _ _ _ H1 H2 N1 N2) as (c3 & H3 & N3 & _).
  exists c3. split; assumption.
Qed.

Lemma f64_ltb_leb (a b : float) : (a <? b) = true -> (a <=? b) = true.
Proof.
  rewrite ltb_spec, leb_spec, SFltb_spec, SFleb_spec. intros H.
  exists Lt. split; [exact H|discriminate].
Qed.

Lemma f64_leb_refl_l (a b : float) : (a <=? b) = true -> (a <=? a) = true.
Proof.
  rewrite !leb_spec. intros H. apply SFleb_not_nan in H as [H _].
  apply SFleb_refl, H.
Qed.

Lemma f64_leb_refl_r (a b : float) : (a <=? b) = true -> (b <=? b) = true.
Proof.
  rewrite !leb_spec. intros H. apply SFleb_not_nan in H as [_ H].
  apply SFleb_refl, H.
Qed.

(** For numbers (not NaN), [not (b < a)] is [a <= b]. *)
Lemma f64_not_ltb_leb (a b : float) :
  (a <=? a) = true -> (b <=? b) = true -> (b <? a) = false -> (a <=? b) = true.
Proof.
  rewrite ltb_spec, !leb_spec. intros Ha Hb Hlt.
  apply SFleb_not_nan in Ha as [Ha _]. apply SFleb_not_nan in Hb as [Hb _].
  destruct (SFcompare_total _ _ Hb Ha) as [c Hc].
  apply SFleb_spec. exists (CompOpp c). split; [apply SFcompare_antisym, Hc|].
  unfold SFltb in Hlt. rewrite Hc in Hlt. destruct c; cbn; congruence.
Qed.

Lemma f64_ltb_not_leb (a b : float) : (a <? b) = true -> (b <=? a) = false.
Proof.
  rewrite ltb_spec, leb_spec, SFltb_spec. intros H.
  apply SFcompare_antisym in H. unfold SFleb. rewrite H. reflexivity.
Qed.
End FloatOrder.

(** ** Rounding keeps the sign *)

Lemma shr_1_nonneg (mrs : shr_record) : (0 <= shr_m mrs)%Z -> (0 <= shr_m (shr_1 mrs))%Z.
Proof.
  destruct mrs as [m r s]. destruct m as [|p|p]; cbn; intros H; try lia.
  destruct p; cbn; lia.
Qed.

Lemma iter_pos_nonneg (n : positive) (mrs : shr_record) :
  (0 <= shr_m mrs)%Z -> (0 <= shr_m (SpecFloat.iter_pos shr_1 n mrs))%Z.
Proof.
  revert mrs. induction n as [n IH|n IH|]; intros mrs H; cbn [SpecFloat.iter_pos].
  - apply IH, IH, shr_1_nonneg, H.
  - apply IH, IH, H.
  - apply shr_1_nonneg, H.
Qed.

Lemma shr_fexp_nonneg (m e : Z) (l : location) :
  (0 <= m)%Z -> (0 <= shr_m (fst (shr_fexp prec emax m e l)))%Z.
Proof.
  intros H. unfold shr_fexp, shr.
  assert (H0 : (0 <= shr_m (shr_record_of_loc m l))%Z)
    by (destruct l as [|[]]; exact H).
  destruct (fexp prec emax (Zdigits2 m + e) - e)%Z; cbn [fst];
    [exact H0|apply iter_pos_nonneg, H0|exact H0].
Qed.

Lemma round_nearest_even_nonneg (m : Z) (l : location) :
  (0 <= m)%Z -> (0 <= round_nearest_even m l)%Z.
Proof.
  intros H. destruct l as [|[]]; cbn; try lia. destruct (Z.even m); lia.
Qed.

Lemma binary_round_aux_nonneg (mx ex : Z) (lx : location) :
  (0 <= mx)%Z -> sf_nonneg (binary_round_aux prec emax false mx ex lx).
Proof.
  intros H. unfold binary_round_aux.
  pose proof (shr_fexp_nonneg mx ex lx H) as H1.
  destruct (shr_fexp prec emax mx ex lx) as [mrs' e']. cbn [fst] in H1.
  pose proof (shr_fexp_nonneg _ e' loc_Exact
                (round_nearest_even_nonneg _ (loc_of_shr_record mrs') H1)) as H2.
  destruct (shr_fexp prec emax _ e' loc_Exact) as [mrs'' e'']. cbn [fst] in H2.
  destruct (shr_m mrs'') as [|p|p]; [exact I| |lia].
  destruct (e'' <=? emax - prec)%Z; reflexivity.
Qed.

Lemma sf_nonneg_spec (x : spec_float) :
  SFleb (S754_zero false) x = true <-> sf_nonneg x.
Proof.
  destruct x as [s|[]| |[] m e]; cbn; split; try discriminate; try reflexivity;
    try tauto; try congruence.
Qed.

Section FloatProduct.
Local Open Scope float_scope.

Lemma Prim2SF_zero : Prim2SF 0 = S754_zero false.
Proof. reflexivity. Qed.

Lemma f64_nonneg_spec (a : float) : (0 <=? a) = true <-> sf_nonneg (Prim2SF a).
Proof. rewrite leb_spec, Prim2SF_zero. apply sf_nonneg_spec. Qed.

(** The product of a number between 0 and a finite bound with a positive
    finite number is a number, and not negative. *)
Lemma f64_mul_nonneg (a b bound : float) (sB : bool) (mB mb : positive) (eB eb : Z) :
  (0 <=? a) = true -> (a <=? bound) = true ->
  Prim2SF bound = S754_finite sB mB eB ->
  Prim2SF b = S754_finite false mb eb ->
  (0 <=? a * b) = true.
Proof.
  intros Ha Hab HB Hb. apply f64_nonneg_spec. apply f64_nonneg_spec in Ha.
  rewrite leb_spec, HB in Hab. rewrite mul_spec, Hb.
  destruct (Prim2SF a) as [s|s| |s m e]; cbn in Ha.
  - exact I.
  - subst s. destruct sB; discriminate.
  - contradiction.
  - subst s. apply binary_round_aux_nonneg. lia.
Qed.
End FloatProduct.

(** ** The risk score *)

Section RiskScore64.
Local Open Scope float_scope.

Lemma multiplier_finite (source : string) (exact : bool) :
  exists mb eb,
    Prim2SF (if exact then F64.of_Z (spec_list_priority source) / 100 * 1.2
             else F64.of_Z (spec_list_priority source) / 100)
    = S754_finite false mb eb.
Proof.
  unfold spec_list_priority.
  repeat case_decide; destruct exact; eexists _, _; vm_compute; reflexivity.
Qed.

Lemma py_min_100_range (a : float) :
  (0 <=? a) = true ->
  (0 <=? F64.py_min a 100) = true /\ (F64.py_min a 100 <=? 100) = true.
Proof.
  intros Ha. unfold F64.py_min. destruct (100 <? a) eqn:E.
  - split; reflexivity.
  - split; [exact Ha|].
    apply f64_not_ltb_leb; [apply (f64_leb_refl_r 0 a Ha)|reflexivity|exact E].
Qed.

(** For the score 100 of an exact match it makes no difference whether
    the boost is applied to the multiplier, as the code does, or to the
    product of score and multiplier. *)
Lemma boost_order_at_100 (source : string) (exact : bool) :
  spec_risk_score64 100 source exact
  = F64.py_min (100 * (F64.of_Z (spec_list_priority source) / 100)
                * (if exact then 1.2 else 1)) 100.
Proof.
  unfold spec_risk_score64, spec_list_priority.
  repeat case_decide; destruct exact; vm_compute; reflexivity.
Qed.

(** C5: in binary64, as the code computes it, the risk score of a match
    record is [min(raw * multiplier, 100)] where the multiplier is
    [list_priority(source)/100], times 1.2 for an exact match, with the
    priority table OFAC 100, UN 90, HMT 80, EU 70, otherwise 50; for the
    raw score 100 this is also the value of
    [min(raw * (list_priority/100) * boost, 100)] read from left to right;
    for a raw score in [0,100] the risk score lies in [0,100]; and the
    risk level written next to it by the engine is the thresholding of
    that score at 85, 70 and 60. *)
Theorem C5_risk_score_binary64 (m : Match64.t) (source : string) :
  let raw := default 0 (Match64.score m) in
  let exact := bool_decide (Match64.match_type m = Some "exact") in
  let rs := Binary64.MatchScorer.calculate_risk_score m source in
  rs = spec_risk_score64 raw source exact
  /\ (raw = 100 ->
      rs = F64.py_min (raw * (F64.of_Z (spec_list_priority source) / 100)
                       * (if exact then 1.2 else 1)) 100)
  /\ ((0 <=? raw) = true -> (raw <=? 100) = true ->
      (0 <=? rs) = true /\ (rs <=? 100) = true)
  /\ (let m' := Binary64.annotate m in
      exists rs' lvl,
        Match64.risk_score m' = Some rs'
        /\ rs' = Binary64.MatchScorer.calculate_risk_score m
                   (default "" (Match64.source m))
        /\ Match64.risk_level m' = Some lvl
        /\ (lvl = "HIGH" <-> (85 <=? rs') = true)
        /\ (lvl = "MEDIUM" <-> (70 <=? rs') = true /\ (85 <=? rs') = false)
        /\ (lvl = "LOW" <-> (60 <=? rs') = true /\ (70 <=? rs') = false)
        /\ (lvl = "NONE" <-> (60 <=? rs') = false)).
Proof.
  intros raw exact rs.
  assert (Hformula : rs = spec_risk_score64 raw source exact).
  { unfold rs, Binary64.MatchScorer.calculate_risk_score, spec_risk_score64.
    rewrite list_priority_get_50. fold raw. fold exact.
    destruct exact; reflexivity. }
  split; [exact Hformula|]. split; [|split].
  - intros Hraw. rewrite Hformula, Hraw. apply boost_order_at_100.
  - intros H0 H100. rewrite Hformula. unfold spec_risk_score64.
    destruct (multiplier_finite source exact) as (mb & eb & Hmult).
    apply py_min_100_range.
    eapply (f64_mul_nonneg raw _ 100); [exact H0|exact H100|reflexivity|exact Hmult].
  - cbv zeta. unfold Binary64.annotate.
    set (s := Binary64.MatchScorer.calculate_risk_score m _).
    exists s, (Binary64.MatchScorer.determine_risk_level s).
    split; [reflexivity|]. split; [reflexivity|]. split; [reflexivity|].
    unfold Binary64.MatchScorer.determine_risk_level,
      thresholds64.HIGH_RISK_THRESHOLD,
      thresholds64.MEDIUM_RISK_THRESHOLD,
      thresholds64.LOW_RISK_THRESHOLD.
    assert (H78 : (70 <=? 85)%float = true) by reflexivity.
    assert (H67 : (60 <=? 70)%float = true) by reflexivity.
    destruct (85 <=? s) eqn:E85.
    { pose proof (f64_leb_trans 70 85 s H78 E85) as E70.
      pose proof (f64_leb_trans 60 70 s H67 E70) as E60.
      rewrite E70, E60. repeat split; intros; try discriminate; try reflexivity;
        intuition congruence. }
    destruct (70 <=? s) eqn:E70.
    { pose proof (f64_leb_trans 60 70 s H67 E70) as E60.
      rewrite E60. repeat split; intros; try discriminate; try reflexivity;
        intuition congruence. }
    destruct (60 <=? s) eqn:E60;
      repeat split; intros; try discriminate; try reflexivity; intuition congruence.
Qed.
End RiskScore64.

Lemma C5_risk_score_binary64_witness :
  let m := Match64.mk (Some "token") (Some 94.44444444444444%float) (Some true)
                      None (Some "UN") None None in
  (0 <=? default 0 (Match64.score m))%float = true
  /\ (default 0 (Match64.score m) <=? 100)%float = true
  /\ (0 <=? Binary64.MatchScorer.calculate_risk_score m "UN")%float = true
  /\ (Binary64.MatchScorer.calculate_risk_score m "UN" <=? 100)%float = true
  /\ Binary64.MatchScorer.calculate_risk_score m "UN" = 85%float
  /\ Match64.risk_level (Binary64.annotate m) = Some "HIGH".
Proof.
  intros m.
  assert (H0 : (0 <=? default 0 (Match64.score m))%float = true) by reflexivity.
  assert (H100 : (default 0 (Match64.score m) <=? 100)%float = true) by reflexivity.
  split; [exact H0|]. split; [exact H100|].
  destruct (proj1 (proj2 (proj2 (C5_risk_score_binary64 m "UN"))) H0 H100)
    as [Hlo Hhi].
  split; [exact Hlo|]. split; [exact Hhi|]. split; reflexivity.
Defined.


(** ** The token score *)

Section TokenScore64.
Context `{Rapidfuzz64}.
Local Open Scope float_scope.

Lemma best_match_spec64 (q_token : string) (target_tokens : list string) :
  (Binary64.TokenMatcher.best_match q_token target_tokens).1
  = spec_best64 q_token target_tokens.
Proof.
  unfold Binary64.TokenMatcher.best_match, spec_best64.
  generalize (@None string). generalize 0.
  induction target_tokens as [|t ts IH]; intros b tok; [reflexivity|].
  cbn [fold_left map].
  destruct (b <? Binary64.SimilarityCalculator.levenshtein_ratio q_token t);
    apply IH.
Qed.

Lemma scan_spec64 (query_tokens target_tokens : list string) :
  let '(matched_tokens, total_score) :=
    Binary64.TokenMatcher.scan query_tokens target_tokens in
  total_score = spec_token_total64 query_tokens target_tokens
  /\ map MatchedToken64.query matched_tokens
     = List.filter (spec_accepted64 target_tokens) query_tokens
  /\ Forall (fun mt => MatchedToken64.score mt
                       = spec_best64 (MatchedToken64.query mt) target_tokens)
            matched_tokens.
Proof.
  unfold Binary64.TokenMatcher.scan, spec_token_total64.
  assert (Hgen : forall (acc_m : list MatchedToken64.t) (acc_t : float),
    Forall (fun mt => MatchedToken64.score mt
                      = spec_best64 (MatchedToken64.query mt) target_tokens) acc_m ->
    let '(matched_tokens, total_score) :=
      fold_left
        (fun '(matched_tokens, total_score) q_token =>
           let '(best_match_score, best_match_token) :=
             Binary64.TokenMatcher.best_match q_token target_tokens in
           if thresholds64.LOW_RISK_THRESHOLD <=? best_match_score
           then (matched_tokens
                   ++ [MatchedToken64.mk q_token best_match_token best_match_score],
                 total_score + best_match_score)
           else (matched_tokens, total_score))
        query_tokens (acc_m, acc_t) in
    total_score
    = fold_left PrimFloat.add
        (map (fun q => spec_best64 q target_tokens)
             (List.filter (spec_accepted64 target_tokens) query_tokens)) acc_t
    /\ map MatchedToken64.query matched_tokens
       = map MatchedToken64.query acc_m
           ++ List.filter (spec_accepted64 target_tokens) query_tokens
    /\ Forall (fun mt => MatchedToken64.score mt
                         = spec_best64 (MatchedToken64.query mt) target_tokens)
              matched_tokens).
  { induction query_tokens as [|q qs IH]; intros acc_m acc_t Hacc.
    - cbn. rewrite app_nil_r. auto.
    - cbn [fold_left List.filter].
      pose proof (best_match_spec64 q target_tokens) as Hb.
      destruct (Binary64.TokenMatcher.best_match q target_tokens) as [bs bt].
      cbn [fst] in Hb. subst bs.
      unfold thresholds64.LOW_RISK_THRESHOLD.
      change (60 <=? spec_best64 q target_tokens)
        with (spec_accepted64 target_tokens q).
      destruct (spec_accepted64 target_tokens q); cbn [map fold_left].
      + assert (Hacc' : Forall (fun mt => MatchedToken64.score mt
                          = spec_best64 (MatchedToken64.query mt) target_tokens)
                          (acc_m ++ [MatchedToken64.mk q bt (spec_best64 q target_tokens)])).
        { apply Forall_app. split; [exact Hacc|]. constructor; [reflexivity|constructor]. }
        specialize (IH _ (acc_t + spec_best64 q target_tokens) Hacc').
        destruct (fold_left _ qs _) as [m t]. destruct IH as (IH1 & IH2 & IH3).
        split; [exact IH1|]. split; [|exact IH3].
        rewrite IH2, map_app, <- app_assoc. reflexivity.
      + apply (IH acc_m acc_t Hacc). }
  specialize (Hgen [] 0 (Forall_nil_2 _)).
  destruct (fold_left _ query_tokens _) as [m t]. exact Hgen.
Qed.

(** [spec_best64] is an upper bound of the ratios, and one of them or 0. *)
Lemma spec_best64_greatest (q_token : string) (target_tokens : list string) :
  (forall a b, (0 <=? fuzz_ratio64 a b) = true) ->
  Forall (fun t => (Binary64.SimilarityCalculator.levenshtein_ratio q_token t
                    <=? spec_best64 q_token target_tokens) = true) target_tokens
  /\ (0 <=? spec_best64 q_token target_tokens) = true
  /\ (spec_best64 q_token target_tokens = 0
      \/ Exists (fun t => spec_best64 q_token target_tokens
                          = Binary64.SimilarityCalculator.levenshtein_ratio q_token t)
                target_tokens).
Proof.
  intros Hpos.
  assert (Hlev : forall t, (0 <=? Binary64.SimilarityCalculator.levenshtein_ratio
                                    q_token t) = true).
  { intros t. unfold Binary64.SimilarityCalculator.levenshtein_ratio.
    destruct (_ || _); [reflexivity|apply Hpos]. }
  unfold spec_best64.
  set (lev := Binary64.SimilarityCalculator.levenshtein_ratio q_token) in *.
  assert (Hgen : forall (ts : list string) (b : float),
    (0 <=? b) = true ->
    let r := fold_left (fun best ratio => if best <? ratio then ratio else best)
                       (map lev ts) b in
    (b <=? r) = true
    /\ Forall (fun t => (lev t <=? r) = true) ts
    /\ (r = b \/ Exists (fun t => r = lev t) ts)).
  { induction ts as [|t ts IH]; intros b Hb.
    - cbn. split; [apply (f64_leb_refl_r 0 b Hb)|]. split; [constructor|left; reflexivity].
    - cbn [fold_left map]. destruct (b <? lev t) eqn:E.
      + destruct (IH (lev t) (Hlev t)) as (H1 & H2 & H3).
        split; [eapply f64_leb_trans; [apply f64_ltb_leb, E|exact H1]|].
        split; [constructor; [exact H1|exact H2]|].
        right. destruct H3 as [->|H3]; [left; reflexivity|right; exact H3].
      + destruct (IH b Hb) as (H1 & H2 & H3).
        split; [exact H1|]. split.
        * constructor; [|exact H2].
          eapply f64_leb_trans; [|exact H1].
          apply f64_not_ltb_leb;
            [apply (f64_leb_refl_r 0 _ (Hlev t))|apply (f64_leb_refl_r 0 b Hb)|exact E].
        * destruct H3 as [->|H3]; [left; reflexivity|right; right; exact H3]. }
  destruct (Hgen target_tokens 0 eq_refl) as (H1 & H2 & H3).
  split; [exact H2|]. split; [exact H1|exact H3].
Qed.

(** C7: with an empty query or target token list the token matcher
    returns score 0 and no match; otherwise, in binary64 as the code
    computes it, its score is the sum, added up in the order of the query
    tokens, of the best edit-ratios of the query tokens whose best ratio
    reaches 60, divided by the number of query tokens; the accepted
    pairings are those query tokens, each with its best ratio; the match
    ratio is their number over the number of query tokens; and a match is
    reported exactly when the score is at least 60.  The best ratio of a
    query token is an upper bound of its ratios against the target
    tokens and is one of them, or 0, when the metric is never negative. *)
Theorem C7_token_score_binary64 (query_tokens target_tokens : list string) :
  let r := Binary64.TokenMatcher.match_ query_tokens target_tokens in
  (query_tokens = [] \/ target_tokens = [] ->
   Match64.score r = Some 0 /\ Match64.is_match r = Some false)
  /\ (query_tokens <> [] -> target_tokens <> [] ->
      exists score matched ratio,
        Match64.score r = Some score
        /\ score = spec_token_score64 query_tokens target_tokens
        /\ Match64.details r = Some (TokenDetails64 matched (Some ratio))
        /\ map MatchedToken64.query matched
           = List.filter (spec_accepted64 target_tokens) query_tokens
        /\ Forall (fun mt => MatchedToken64.score mt
                             = spec_best64 (MatchedToken64.query mt) target_tokens)
                  matched
        /\ ratio = spec_match_ratio64 query_tokens target_tokens
        /\ Match64.is_match r = Some (60 <=? score))
  /\ ((forall a b, (0 <=? fuzz_ratio64 a b) = true) ->
      forall q_token,
        Forall (fun t => (Binary64.SimilarityCalculator.levenshtein_ratio q_token t
                          <=? spec_best64 q_token target_tokens) = true)
               target_tokens
        /\ (spec_best64 q_token target_tokens = 0
            \/ Exists (fun t => spec_best64 q_token target_tokens
                          = Binary64.SimilarityCalculator.levenshtein_ratio q_token t)
                      target_tokens)).
Proof.
  intros r. subst r. split; [|split].
  - intros [-> | ->]; [split; reflexivity|].
    destruct query_tokens; split; reflexivity.
  - intros Hq Ht.
    pose proof (scan_spec64 query_tokens target_tokens) as Hscan.
    unfold Binary64.TokenMatcher.match_.
    destruct query_tokens as [|q qs]; [congruence|].
    destruct target_tokens as [|t ts]; [congruence|].
    destruct (Binary64.TokenMatcher.scan (q :: qs) (t :: ts)) as [matched total].
    destruct Hscan as (Htot & Hlen & Hscores).
    eexists _, _, _. cbn [Match64.score Match64.details Match64.is_match].
    split; [reflexivity|]. split.
    { unfold spec_token_score64. rewrite Htot. reflexivity. }
    split; [reflexivity|]. split; [exact Hlen|]. split; [exact Hscores|]. split.
    { unfold spec_match_ratio64. rewrite <- Hlen, length_map. reflexivity. }
    reflexivity.
  - intros Hpos q_token.
    destruct (spec_best64_greatest q_token target_tokens Hpos) as (H1 & _ & H3).
    split; assumption.
Qed.
End TokenScore64.

Lemma C7_token_score_binary64_witness :
  let qs := ["ibrahim"; "abdulrahman"; "hasan"; "xy"] in
  let ts := ["ibrahim"] in
  qs <> [] /\ ts <> []
  /\ (forall a b, (0 <=? @fuzz_ratio64 sample_fuzz64 a b)%float = true)
  /\ exists score,
       Match64.score (@Binary64.TokenMatcher.match_ sample_fuzz64 qs ts) = Some score
       /\ score = @spec_token_score64 sample_fuzz64 qs ts
       /\ score = 60%float
       /\ Match64.is_match (@Binary64.TokenMatcher.match_ sample_fuzz64 qs ts)
          = Some true
       /\ (@Binary64.SimilarityCalculator.levenshtein_ratio sample_fuzz64
             "hasan" "ibrahim" <=? @spec_best64 sample_fuzz64 "hasan" ts)%float = true.
Proof.
  intros qs ts.
  assert (Hq : qs <> []) by discriminate.
  assert (Ht : ts <> []) by discriminate.
  assert (Hpos : forall a b, (0 <=? @fuzz_ratio64 sample_fuzz64 a b)%float = true).
  { intros a b. cbn. repeat (destruct (PyStr.eqb a _); [reflexivity|]). reflexivity. }
  split; [exact Hq|]. split; [exact Ht|]. split; [exact Hpos|].
  destruct (@C7_token_score_binary64 sample_fuzz64 qs ts) as (_ & Hscore & Hbest).
  destruct (Hscore Hq Ht) as (score & matched & ratio & Hs & Hspec & _ & _ & _ & _ & Hm).
  destruct (Hbest Hpos "hasan") as [Hub _].
  exists score. split; [exact Hs|]. split; [exact Hspec|].
  split; [rewrite Hspec; reflexivity|].
  split; [rewrite Hm, Hspec; reflexivity|].
  apply Forall_cons in Hub as [Hub _]. exact Hub.
Defined.
